(** * PRL timesheet processor: extraction and pay calculation

    A shallow embedding of the two variants of the timesheet processor,

    - [appy1.py]                            (module [Appy1]),
    - [timesheet_processor_streamlined.py]  (module [Streamlined]),

    with the Python library functions they call (module [Py]).

    Modelling conventions.
    - The hours, rates and amounts, Python [float] values, are exact
      rationals ([Q]); statements about them use [==] and are statements
      of exact arithmetic: binary rounding error is outside the model, and
      [round(x, 2)] is [Py.round2], rounding half to even on the exact
      value.  What [float(s)] returns for a text, an infinity and a NaN
      included, is [Py.float_any]; the pay is computed on the finite
      values.
    - A [str] is a [string] of bytes; the character classes of [strip],
      [split], [title], [lower] and of the regular expressions are the
      ASCII ones.  The dashes that the source compares hour cells with are
      the UTF-8 byte strings of the en dash and the em dash.
    - A [dict] with string keys is a [gmap string _].
    - A [try: ... except: ...] around a library call that can raise is a
      [match] on the [option] the model of the call returns; an exception
      that escapes a function makes the function return [None].
    - Module-level configuration read by a function (the sidebar values of
      [appy1.py]) is passed to it as a record; the clock read by
      [datetime.now()] is passed as an argument. *)

From stdpp Require Import gmap strings list.
From Stdlib Require Import QArith Qround Qminmax Lqa Ascii String DecimalString.

Open Scope Q_scope.

(** * Python library functions *)

Module Py.

(** ** Numbers *)

(** [sum(xs)]: left-to-right accumulation from zero. *)
Definition sum (xs : list Q) : Q := fold_left Qplus xs 0.

(** [max(a, b)] on numbers: [b] when [b > a], else [a]. *)
Definition max (a b : Q) : Q := if Qlt_le_dec a b then b else a.

(** Nearest integer to [x], ties to the even one. *)
Definition round_half_even (x : Q) : Z :=
  let f := Qfloor x in
  match Qcompare (x - inject_Z f) (1 # 2) with
  | Lt => f
  | Gt => (f + 1)%Z
  | Eq => if Z.even f then f else (f + 1)%Z
  end.

(** [round(x, 2)]. *)
Definition round2 (x : Q) : Q := inject_Z (round_half_even (x * 100)) / 100.

(** ** Characters *)

Definition code (c : ascii) : N := N_of_ascii c.

(** [c.isspace()], which is also the class [\s]: tab, line feed, vertical
    tab, form feed, carriage return, the separators 0x1c to 0x1f, space. *)
Definition is_space (c : ascii) : bool :=
  ((9 <=? code c) && (code c <=? 13) || (28 <=? code c) && (code c <=? 32))%N.

Definition is_upper (c : ascii) : bool := ((65 <=? code c) && (code c <=? 90))%N.
Definition is_lower (c : ascii) : bool := ((97 <=? code c) && (code c <=? 122))%N.
Definition is_digit (c : ascii) : bool := ((48 <=? code c) && (code c <=? 57))%N.

Definition to_lower (c : ascii) : ascii :=
  if is_upper c then ascii_of_N (code c + 32) else c.
Definition to_upper (c : ascii) : ascii :=
  if is_lower c then ascii_of_N (code c - 32) else c.

Definition digit_of (c : ascii) : option Z :=
  if is_digit c then Some (Z.of_N (code c) - 48)%Z else None.

(** ** Strings *)

Definition is_empty (s : string) : bool :=
  match s with EmptyString => true | String _ _ => false end.

Fixpoint lstrip (s : string) : string :=
  match s with
  | EmptyString => EmptyString
  | String c s' => if is_space c then lstrip s' else s
  end.

Fixpoint rstrip (s : string) : string :=
  match s with
  | EmptyString => EmptyString
  | String c s' =>
      match rstrip s' with
      | EmptyString => if is_space c then EmptyString else String c EmptyString
      | r => String c r
      end
  end.

(** [s.strip()]. *)
Definition strip (s : string) : string := rstrip (lstrip s).

(** [s.lower()]. *)
Fixpoint lower (s : string) : string :=
  match s with
  | EmptyString => EmptyString
  | String c s' => String (to_lower c) (lower s')
  end.

(** [s.title()]: a letter that follows a letter is lowercased, any other
    letter is uppercased. *)
Fixpoint title_from (previous_is_cased : bool) (s : string) : string :=
  match s with
  | EmptyString => EmptyString
  | String c s' =>
      String (if previous_is_cased then to_lower c else to_upper c)
             (title_from (is_upper c || is_lower c) s')
  end.
Definition title (s : string) : string := title_from false s.

(** [sub in s]. *)
Fixpoint contains (sub s : string) : bool :=
  String.prefix sub s ||
  match s with
  | EmptyString => false
  | String _ s' => contains sub s'
  end.

(** [s.split()]: the maximal runs of non-space characters. *)
Fixpoint split_from (cur s : string) : list string :=
  match s with
  | EmptyString => if is_empty cur then [] else [cur]
  | String c s' =>
      if is_space c
      then (if is_empty cur then split_from EmptyString s'
            else cur :: split_from EmptyString s')
      else split_from (cur ++ String c EmptyString) s'
  end.
Definition split (s : string) : list string := split_from EmptyString s.

(** The one-character line boundaries of [splitlines]. *)
Definition is_linebreak (c : ascii) : bool :=
  ((10 <=? code c) && (code c <=? 13) || (28 <=? code c) && (code c <=? 30))%N.

(** [s.splitlines()]: a carriage return followed by a line feed is one
    boundary; no empty last line. *)
Fixpoint splitlines_from (cur s : string) : list string :=
  match s with
  | EmptyString => if is_empty cur then [] else [cur]
  | String c s' =>
      if (code c =? 13)%N
      then match s' with
           | String c' s'' =>
               if (code c' =? 10)%N then cur :: splitlines_from EmptyString s''
               else cur :: splitlines_from EmptyString s'
           | EmptyString => [cur]
           end
      else if is_linebreak c then cur :: splitlines_from EmptyString s'
      else splitlines_from (cur ++ String c EmptyString) s'
  end.
Definition splitlines (s : string) : list string := splitlines_from EmptyString s.

Fixpoint forall_chars (p : ascii -> bool) (s : string) : bool :=
  match s with
  | EmptyString => true
  | String c s' => p c && forall_chars p s'
  end.

Fixpoint drop (n : nat) (s : string) : string :=
  match n, s with
  | O, _ => s
  | S n', String _ s' => drop n' s'
  | S _, EmptyString => EmptyString
  end.

(** ** Regular expressions

    The patterns of the source have one of two shapes.  The name rule is
    [re.fullmatch(r"[A-Z\s]{5,}", s)].  The field rules are
    [re.search(LITERAL items (.+), s, re.IGNORECASE)], where the items are
    character classes under [?] or [*]; the matcher below follows the
    backtracking order of [re]: leftmost start, every item greedy. *)

(** [re.fullmatch(r"[A-Z\s]{5,}", s)]. *)
Definition fullmatch_upper_name (s : string) : bool :=
  forall_chars (fun c => is_upper c || is_space c) s && (5 <=? String.length s)%nat.

Inductive quantifier := Opt | Star.
Definition item : Type := quantifier * (ascii -> bool).

(** The class [[:\-]]. *)
Definition colon_dash (c : ascii) : bool := ((code c =? 58) || (code c =? 45))%N.
(** The classes [[:\-\s]] and [[:\t\-\s]]. *)
Definition colon_dash_space (c : ascii) : bool := colon_dash c || is_space c.

(** [(.+)] at the end of a pattern: the longest run of characters other
    than a line feed, at least one. *)
Fixpoint dot_run (s : string) : string :=
  match s with
  | EmptyString => EmptyString
  | String c s' => if (code c =? 10)%N then EmptyString else String c (dot_run s')
  end.
Definition dot_plus (s : string) : option string :=
  match dot_run s with
  | EmptyString => None
  | g => Some g
  end.

(** [cls*] followed by the continuation [k]: one more character first. *)
Fixpoint star (cls : ascii -> bool) (k : string -> option string) (s : string)
  : option string :=
  match s with
  | String c s' =>
      if cls c
      then match star cls k s' with
           | Some g => Some g
           | None => k s
           end
      else k s
  | EmptyString => k s
  end.

(** [cls?] followed by the continuation [k]. *)
Definition opt (cls : ascii -> bool) (k : string -> option string) (s : string)
  : option string :=
  match s with
  | String c s' =>
      if cls c
      then match k s' with
           | Some g => Some g
           | None => k s
           end
      else k s
  | EmptyString => k s
  end.

Fixpoint match_items (items : list item) : string -> option string :=
  match items with
  | [] => dot_plus
  | (Opt, cls) :: rest => opt cls (match_items rest)
  | (Star, cls) :: rest => star cls (match_items rest)
  end.

(** Is [lit] a prefix of [s], letter case ignored? *)
Fixpoint iprefix (lit s : string) : bool :=
  match lit, s with
  | EmptyString, _ => true
  | String a lit', String b s' =>
      (code (to_lower a) =? code (to_lower b))%N && iprefix lit' s'
  | String _ _, EmptyString => false
  end.

Definition match_here (lit : string) (items : list item) (s : string) : option string :=
  if iprefix lit s then match_items items (drop (String.length lit) s) else None.

(** [re.search(...)] and [.group(1)] of the match. *)
Fixpoint search (lit : string) (items : list item) (s : string) : option string :=
  match match_here lit items s with
  | Some g => Some g
  | None =>
      match s with
      | EmptyString => None
      | String _ s' => search lit items s'
      end
  end.

(** ** float(s)

    [float] reads the decimal literals: blanks around, a sign, digits with
    optional single underscores between them, a point, an exponent.  It is
    [float(s)] when that is a finite number, read as its exact value.
    Python's [float] also accepts the literals of the infinities and of the
    NaN, which have no value in [Q]: [float_any] below is [float(s)] with
    those, and there [None] is the [ValueError]. *)

Definition is_char (n : N) (c : ascii) : bool := (code c =? n)%N.

(** A run of digits read into [acc]; [n] counts the digits read. *)
Fixpoint read_digits (acc : Z) (n : nat) (s : string) : Z * nat * string :=
  match s with
  | String c s' =>
      match digit_of c with
      | Some d => read_digits (10 * acc + d)%Z (S n) s'
      | None =>
          if is_char 95 c && (0 <? n)%nat
          then match s' with
               | String c' _ => if is_digit c' then read_digits acc n s' else (acc, n, s)
               | EmptyString => (acc, n, s)
               end
          else (acc, n, s)
      end
  | EmptyString => (acc, n, s)
  end.

(** An optional sign: [true] for minus. *)
Definition read_sign (s : string) : bool * string :=
  match s with
  | String c s' =>
      if is_char 45 c then (true, s')
      else if is_char 43 c then (false, s')
      else (false, s)
  | EmptyString => (false, s)
  end.

Definition pow10 (e : Z) : Q := Qpower 10 e.

(** The exponent part and the end of the literal. *)
Definition read_exponent (s : string) : option Z :=
  match s with
  | EmptyString => Some 0%Z
  | String c s' =>
      if is_char 101 c || is_char 69 c
      then let '(neg, s1) := read_sign s' in
           match read_digits 0 0 s1 with
           | (e, S _, EmptyString) => Some (if neg then - e else e)%Z
           | _ => None
           end
      else None
  end.

Definition float (s : string) : option Q :=
  let '(neg, s1) := read_sign (strip s) in
  let '(ip, n1, s2) := read_digits 0 0 s1 in
  let '(m, n2, s3) :=
    match s2 with
    | String c s2' => if is_char 46 c then read_digits ip 0 s2' else (ip, O, s2)
    | EmptyString => (ip, O, s2)
    end in
  match (n1 + n2)%nat with
  | O => None
  | S _ =>
      match read_exponent s3 with
      | Some e =>
          let v := inject_Z m * pow10 (e - Z.of_nat n2) in
          Some (Qred (if neg then - v else v))
      | None => None
      end
  end.

(** What [float(s)] returns: a finite number, an infinity or a NaN. *)
Inductive float_value :=
  | Finite (q : Q)
  | Infinity (negative : bool)
  | NaN.

(** The literals "inf", "infinity" and "nan", in any letter case, with
    blanks around and an optional sign. *)
Definition float_special (s : string) : option float_value :=
  let '(neg, s1) := read_sign (strip s) in
  let word := lower s1 in
  if String.eqb word "inf" || String.eqb word "infinity" then Some (Infinity neg)
  else if String.eqb word "nan" then Some NaN
  else None.

(** [float(s)]; [None] is the [ValueError]. *)
Definition float_any (s : string) : option float_value :=
  match float s with
  | Some q => Some (Finite q)
  | None => float_special s
  end.

(** ** Dates *)

(** A [datetime]: the date, and the time of day for the clock. *)
Record datetime := {
  year : Z; month : Z; day : Z;
  hour : Z; minute : Z; second : Z
}.

Definition is_leap (y : Z) : bool :=
  ((y mod 4 =? 0) && (negb (y mod 100 =? 0) || (y mod 400 =? 0)))%Z.

Definition days_in_month (y m : Z) : Z :=
  if (m =? 2)%Z then (if is_leap y then 29 else 28)%Z
  else if ((m =? 4) || (m =? 6) || (m =? 9) || (m =? 11))%Z then 30%Z
  else 31%Z.

(** [re.match(r"\d{2}\.\d{2}\.\d{4}", s)]: the pattern at the start of [s]. *)
Definition match_date_pattern (s : string) : bool :=
  match s with
  | String d1 (String d2 (String p1 (String m1 (String m2 (String p2
      (String y1 (String y2 (String y3 (String y4 _))))))))) =>
      is_digit d1 && is_digit d2 && is_char 46 p1 &&
      is_digit m1 && is_digit m2 && is_char 46 p2 &&
      is_digit y1 && is_digit y2 && is_digit y3 && is_digit y4
  | _ => false
  end.

(** The field [%d] followed by the point: two digits from 01 to 31, or one
    digit from 1 to 9, alone or after a blank. *)
Definition read_day (s : string) : option (Z * string) :=
  match s with
  | String a (String b s') =>
      match digit_of a, digit_of b with
      | Some x, Some y =>
          let v := (10 * x + y)%Z in
          if ((1 <=? v) && (v <=? 31))%Z then Some (v, s') else None
      | Some x, None => if (1 <=? x)%Z then Some (x, String b s') else None
      | None, Some y =>
          if is_char 32 a && (1 <=? y)%Z then Some (y, s') else None
      | None, None => None
      end
  | _ => None
  end.

(** The field [%m] followed by the point: 01 to 12, or one digit from 1 to 9. *)
Definition read_month (s : string) : option (Z * string) :=
  match s with
  | String a (String b s') =>
      match digit_of a, digit_of b with
      | Some x, Some y =>
          let v := (10 * x + y)%Z in
          if ((1 <=? v) && (v <=? 12))%Z then Some (v, s') else None
      | Some x, None => if (1 <=? x)%Z then Some (x, String b s') else None
      | _, _ => None
      end
  | _ => None
  end.

(** The field [%Y] at the end of the text: exactly four digits. *)
Definition read_year (s : string) : option Z :=
  match s with
  | String a (String b (String c (String d EmptyString))) =>
      match digit_of a, digit_of b, digit_of c, digit_of d with
      | Some w, Some x, Some y, Some z => Some (1000 * w + 100 * x + 10 * y + z)%Z
      | _, _, _, _ => None
      end
  | _ => None
  end.

Definition expect_point (s : string) : option string :=
  match s with
  | String c s' => if is_char 46 c then Some s' else None
  | EmptyString => None
  end.

(** [datetime.strptime(s, "%d.%m.%Y")]; [None] is the [ValueError], which
    is raised when the text does not have the format, when anything follows
    the year, and when the fields are not a date of the calendar from
    year 1 on. *)
Definition strptime_dmy (s : string) : option datetime :=
  match read_day s with
  | Some (d, s1) =>
      match expect_point s1 with
      | Some s2 =>
          match read_month s2 with
          | Some (m, s3) =>
              match expect_point s3 with
              | Some s4 =>
                  match read_year s4 with
                  | Some y =>
                      if ((1 <=? y) && (d <=? days_in_month y m))%Z
                      then Some {| year := y; month := m; day := d;
                                   hour := 0; minute := 0; second := 0 |}
                      else None
                  | None => None
                  end
              | None => None
              end
          | None => None
          end
      | None => None
      end
  | None => None
  end.

(** The order of [datetime] values. *)
Definition key (t : datetime) : list Z :=
  [year t; month t; day t; hour t; minute t; second t].
Fixpoint lex_ltb (a b : list Z) : bool :=
  match a, b with
  | x :: a', y :: b' => (x <? y)%Z || ((x =? y)%Z && lex_ltb a' b')
  | [], _ :: _ => true
  | _, [] => false
  end.
Definition datetime_ltb (a b : datetime) : bool := lex_ltb (key a) (key b).

(** [min(l)] and [max(l)] of a non-empty list: the first least and the
    first greatest element. *)
Definition min_datetime (first : datetime) (others : list datetime) : datetime :=
  fold_left (fun m t => if datetime_ltb t m then t else m) others first.
Definition max_datetime (first : datetime) (others : list datetime) : datetime :=
  fold_left (fun m t => if datetime_ltb m t then t else m) others first.

(** The decimal digits of [n], padded with zeros to [width]. *)
Definition zero_padded (width : nat) (n : Z) : string :=
  let digits := NilEmpty.string_of_uint (N.to_uint (Z.to_N n)) in
  String.concat EmptyString (repeat "0"%string (width - String.length digits))
  ++ digits.

(** [t.strftime("%d.%m.%Y")], the year written with four digits. *)
Definition strftime_dmy (t : datetime) : string :=
  zero_padded 2 (day t) ++ "." ++ zero_padded 2 (month t) ++ "." ++ zero_padded 4 (year t).

(** [t.strftime("%Y-%m-%d %H:%M:%S")]. *)
Definition strftime_stamp (t : datetime) : string :=
  zero_padded 4 (year t) ++ "-" ++ zero_padded 2 (month t) ++ "-" ++ zero_padded 2 (day t)
  ++ " " ++ zero_padded 2 (hour t) ++ ":" ++ zero_padded 2 (minute t) ++ ":"
  ++ zero_padded 2 (second t).

(** ** Paths *)

(** [s.rfind(".")]: the index of the last point. *)
Fixpoint rfind_point (i : nat) (s : string) : option nat :=
  match s with
  | EmptyString => None
  | String c s' =>
      match rfind_point (S i) s' with
      | Some j => Some j
      | None => if is_char 46 c then Some i else None
      end
  end.

(** [Path(p).stem] from [Path(p).name]: the name without its last suffix;
    a point at the start or at the end of the name starts no suffix. *)
Definition stem (name : string) : string :=
  match rfind_point 0 name with
  | Some i =>
      if (0 <? i)%nat && (i <? String.length name - 1)%nat
      then String.substring 0 i name
      else name
  | None => name
  end.

(** ** Lists *)

(** [s in l] for a list of strings. *)
Definition in_list (s : string) (l : list string) : bool := existsb (String.eqb s) l.

(** [sorted(l)] for a list of [datetime]: a stable insertion sort, each
    element going in front of the first one that is not before it. *)
Fixpoint insert_sorted (t : datetime) (l : list datetime) : list datetime :=
  match l with
  | [] => [t]
  | u :: l' => if datetime_ltb u t then u :: insert_sorted t l' else t :: l
  end.
Definition sorted (l : list datetime) : list datetime :=
  fold_right insert_sorted [] l.

End Py.


(** * Documents

    What the two extractors read of a [docx.Document]: the text of its
    paragraphs, and for each table its rows, for each row the text of its
    cells.  [file_name] is the last component of the path of the file. *)

Record document := {
  file_name : string;
  paragraphs : list string;
  tables : list (list (list string))
}.

(** The rows of all the tables, in the order of [for table in doc.tables:
    for row in table.rows]. *)
Definition all_rows (doc : document) : list (list string) := List.concat (tables doc).

(** * timesheet_processor_streamlined.py *)

Module Streamlined.

(** An entry of [daily_data]. *)
Record day_entry := {
  date : Py.datetime;
  weekday : string;
  hours : Q
}.

(** [custom_rates] and [default_rate]. *)
Definition custom_rates : gmap string Q :=
  <["Aaron Hall" := 15.0]> (<["Finley Mc" := 18.0]> (<["Andrew Burke" := 16.5]> ∅)).
Definition default_rate : Q := 15.0.

(** [OT_RULES]. *)
Definition OT_RULES : gmap string Q :=
  <["Saturday" := 1.5]> (<["Sunday" := 1.75]> (<["Over50" := 1.5]> ∅)).

(** [OT_RULES[k]] for a key of the literal. *)
Definition OT_RULE (k : string) : Q := default 0 (OT_RULES !! k).

(** [sum(d['hours'] for d in daily_data if P d)]. *)
Definition sum_hours (P : day_entry -> bool) (daily_data : list day_entry) : Q :=
  Py.sum (map hours (List.filter P daily_data)).

Definition is_saturday (d : day_entry) : bool := String.eqb (weekday d) "Saturday".
Definition is_sunday (d : day_entry) : bool := String.eqb (weekday d) "Sunday".
(** [d['weekday'] in ["Saturday", "Sunday"]]. *)
Definition is_weekend (d : day_entry) : bool := is_saturday d || is_sunday d.

(** The local variables of lines 72 to 82 of [extract_timesheet_data]. *)
Record pay_vars := {
  total_hours : Q;
  weekend_hours : Q;
  over_50 : Q;
  rate : Q;
  regular_hours : Q;
  regular_pay : Q;
  saturday_pay : Q;
  sunday_pay : Q;
  over50_pay : Q;
  total_pay : Q
}.

Definition saturday_hours (daily_data : list day_entry) : Q := sum_hours is_saturday daily_data.
Definition sunday_hours (daily_data : list day_entry) : Q := sum_hours is_sunday daily_data.

(** The variables of lines 72 to 82, the sums and the products taken
    exactly. *)
Definition compute_pay (name : string) (daily_data : list day_entry) : pay_vars :=
  let total_hours := sum_hours (fun _ => true) daily_data in
  let weekend_hours := sum_hours is_weekend daily_data in
  let over_50 := Py.max (total_hours - 50) 0 in
  let rate := default default_rate (custom_rates !! name) in
  let regular_hours := total_hours - weekend_hours - over_50 in
  let regular_pay := regular_hours * rate in
  let saturday_pay := saturday_hours daily_data * rate * OT_RULE "Saturday" in
  let sunday_pay := sunday_hours daily_data * rate * OT_RULE "Sunday" in
  let over50_pay := over_50 * rate * OT_RULE "Over50" in
  let total_pay := regular_pay + saturday_pay + sunday_pay + over50_pay in
  {| total_hours := total_hours; weekend_hours := weekend_hours;
     over_50 := over_50; rate := rate; regular_hours := regular_hours;
     regular_pay := regular_pay; saturday_pay := saturday_pay;
     sunday_pay := sunday_pay; over50_pay := over50_pay;
     total_pay := total_pay |}.


(** ** Extraction *)

(** The loop over the paragraphs: the capture of the last paragraph with a
    printed name. *)
Definition paragraph_step (printed_name para_text : string) : string :=
  if Py.contains "Print Name" para_text
  then match Py.search "Print Name" [(Py.Opt, Py.colon_dash); (Py.Star, Py.is_space)] para_text with
       | Some g => Py.strip g
       | None => printed_name
       end
  else printed_name.

(** The variables the loop over the tables assigns. *)
Record table_state := {
  name : string;
  client : string;
  site : string;
  daily_data : list day_entry;
  date_list : list Py.datetime
}.

(** [re.search(LABEL + r"[:\-]?\s*(.+)", txt, re.IGNORECASE)], stripped. *)
Definition labelled (label txt : string) : option string :=
  option_map Py.strip
    (Py.search label [(Py.Opt, Py.colon_dash); (Py.Star, Py.is_space)] txt).

(** The body of [for cell in cells]. *)
Definition cell_step (st : table_state) (cell_text : string) : table_state :=
  let txt := Py.strip cell_text in
  let client' :=
    if Py.contains "Client" txt && Py.is_empty (client st)
    then default (client st) (labelled "Client" txt)
    else client st in
  let site' :=
    if Py.contains "Site Address" txt && Py.is_empty (site st)
    then default (site st) (labelled "Site Address" txt)
    else site st in
  let name' :=
    if Py.is_empty (name st) && Py.fullmatch_upper_name txt && negb (Py.contains "PRL" txt)
    then Py.title txt
    else name st in
  {| name := name'; client := client'; site := site';
     daily_data := daily_data st; date_list := date_list st |}.

(** The tokens an hours cell is compared with at line 60. *)
Definition skipped_hours : list string := ["-"; "–"; ""].

(** The shift record of a row, lines 52 to 67: what the row appends to
    [date_list] and to [daily_data].  Both are empty when the row is
    skipped; an exception raised by [strptime] or by [float] is caught and
    leaves what was appended before it.  The hours are the finite numbers
    that [float] reads; [row_entry] below has the infinities and the NaN
    of a cell that spells one, on which no pay is computed here. *)
Definition row_record (cells : list string) : list Py.datetime * list day_entry :=
  if (5 <=? List.length cells)%nat then
    let date_text := Py.strip (nth 0 cells EmptyString) in
    let day := Py.strip (nth 1 cells EmptyString) in
    let hrs := Py.strip (nth 4 cells EmptyString) in
    if Py.match_date_pattern date_text then
      match Py.strptime_dmy date_text with
      | Some date_obj =>
          if negb (Py.is_empty hrs) && negb (Py.in_list hrs skipped_hours) then
            match Py.float hrs with
            | Some h => ([date_obj], [{| date := date_obj; weekday := day; hours := h |}])
            | None => ([date_obj], [])
            end
          else ([date_obj], [])
      | None => ([], [])
      end
    else ([], [])
  else ([], []).

(** An entry of [daily_data] with the hours as [float] returns them,
    finite or not. *)
Record cell_entry := {
  entry_date : Py.datetime;
  entry_weekday : string;
  entry_hours : Py.float_value
}.

(** The same lines 52 to 67 with the hours as [float] returns them: the
    dates and the entries that the row appends.  [row_record] is this for
    hours that are a finite number. *)
Definition row_entry (cells : list string) : list Py.datetime * list cell_entry :=
  if (5 <=? List.length cells)%nat then
    let date_text := Py.strip (nth 0 cells EmptyString) in
    let day := Py.strip (nth 1 cells EmptyString) in
    let hrs := Py.strip (nth 4 cells EmptyString) in
    if Py.match_date_pattern date_text then
      match Py.strptime_dmy date_text with
      | Some date_obj =>
          if negb (Py.is_empty hrs) && negb (Py.in_list hrs skipped_hours) then
            match Py.float_any hrs with
            | Some h =>
                ([date_obj],
                 [{| entry_date := date_obj; entry_weekday := day; entry_hours := h |}])
            | None => ([date_obj], [])
            end
          else ([date_obj], [])
      | None => ([], [])
      end
    else ([], [])
  else ([], []).

(** The body of [for row in table.rows]. *)
Definition row_step (st : table_state) (cells : list string) : table_state :=
  let st1 := fold_left cell_step cells st in
  let '(dates, entries) := row_record cells in
  {| name := name st1; client := client st1; site := site st1;
     daily_data := daily_data st1 ++ entries;
     date_list := date_list st1 ++ dates |}.

Definition initial_state : table_state :=
  {| name := ""; client := ""; site := ""; daily_data := []; date_list := [] |}.

(** The dictionary the function returns. *)
Record result := {
  Name : string;
  Client : string;
  Site : string;
  Date_Range : string;
  Total_Hours : Q;
  Base_Rate : Q;
  Over_50_Hours : Q;
  Saturday_OT : Q;
  Sunday_OT : Q;
  Calculated_Pay : Q
}.

(** The name after the loops, lines 69 and 70. *)
Definition resolve_name (name printed_name : string) : string :=
  if Py.is_empty name && negb (Py.is_empty printed_name) then printed_name else name.

Definition format_date_range (date_list : list Py.datetime) : string :=
  match date_list with
  | [] => ""
  | t :: ts =>
      Py.strftime_dmy (Py.min_datetime t ts) ++ " – " ++ Py.strftime_dmy (Py.max_datetime t ts)
  end.

(** The state after the two loops, and the printed name. *)
Definition scan (doc : document) : table_state * string :=
  (fold_left row_step (all_rows doc) initial_state,
   fold_left paragraph_step (paragraphs doc) EmptyString).

Definition extract_timesheet_data (doc : document) : result :=
  let '(st, printed_name) := scan doc in
  let name := resolve_name (name st) printed_name in
  let v := compute_pay name (daily_data st) in
  {| Name := name;
     Client := client st;
     Site := site st;
     Date_Range := format_date_range (date_list st);
     Total_Hours := Py.round2 (total_hours v);
     Base_Rate := rate v;
     Over_50_Hours := Py.round2 (over_50 v);
     Saturday_OT := Py.round2 (saturday_hours (daily_data st));
     Sunday_OT := Py.round2 (sunday_hours (daily_data st));
     Calculated_Pay := Py.round2 (total_pay v) |}.

End Streamlined.

(** * appy1.py *)

Module Appy1.

(** ** Configuration *)

(** The values of the sidebar widgets.  [rate_input key] is the value of
    the [number_input] for a custom rate with that widget key; the widget
    keeps every value at or above its [min_value]. *)
Record sidebar := {
  default_rate_input : Q;
  overtime_threshold_input : Z;
  saturday_multiplier_input : Q;
  sunday_multiplier_input : Q;
  overtime_multiplier_input : Q;
  rate_input : string -> Q;
  new_name : string
}.

(** The module-level variables [calculate_pay] reads. *)
Record globals := {
  default_rate : Q;
  overtime_threshold : Z;
  saturday_multiplier : Q;
  sunday_multiplier : Q;
  overtime_multiplier : Q;
  custom_rates : gmap string Q
}.

Definition prepop_names : list string := ["Aaron Hall"; "Finley Mc"; "Andrew Burke"].

(** The body of [for name in prepop_names], lines 84 to 93. *)
Definition prepop_step (w : sidebar) (rates : gmap string Q) (name : string)
  : gmap string Q :=
  let rate_val := rate_input w name in
  if Qlt_le_dec 0 rate_val then <[name := rate_val]> rates else rates.

(** Lines 96 to 106. *)
Definition add_new_name (w : sidebar) (rates : gmap string Q) : gmap string Q :=
  if negb (Py.is_empty (new_name w)) then
    let new_rate := rate_input w ("new_" ++ new_name w) in
    if Qlt_le_dec 0 new_rate then <[new_name w := new_rate]> rates else rates
  else rates.

(** [custom_rates] as lines 81 to 106 build it. *)
Definition build_custom_rates (w : sidebar) : gmap string Q :=
  add_new_name w (fold_left (prepop_step w) prepop_names ∅).

Definition module_globals (w : sidebar) : globals :=
  {| default_rate := default_rate_input w;
     overtime_threshold := overtime_threshold_input w;
     saturday_multiplier := saturday_multiplier_input w;
     sunday_multiplier := sunday_multiplier_input w;
     overtime_multiplier := overtime_multiplier_input w;
     custom_rates := build_custom_rates w |}.

(** ** Pay *)

(** An entry of [daily_data]. *)
Record day_entry := {
  weekday : string;
  hours : Q
}.

Section WithGlobals.

Variable g : globals.

(** The multiplier of a day, lines 130 to 134. *)
Definition day_multiplier (weekday : string) : Q :=
  if String.eqb weekday "Saturday" then saturday_multiplier g
  else if String.eqb weekday "Sunday" then sunday_multiplier g
  else 1.

(** The body of the first pass, on [(total_hours, pay)]. *)
Definition pay_step (rate : Q) (acc : Q * Q) (day : day_entry) : Q * Q :=
  let '(total_hours, pay) := acc in
  (total_hours + hours day, pay + hours day * rate * day_multiplier (weekday day)).

(** [(total_hours, pay)] before rounding, lines 126 to 143, the sums and
    the products taken exactly. *)
Definition unrounded_pay (rate : Q) (daily_data : list day_entry) : Q * Q :=
  let '(total_hours, pay) := fold_left (pay_step rate) daily_data (0, 0) in
  if Qlt_le_dec (inject_Z (overtime_threshold g)) total_hours then
    let excess := total_hours - inject_Z (overtime_threshold g) in
    (total_hours, pay + excess * rate * (overtime_multiplier g - 1))
  else (total_hours, pay).

(** The rate of a name, line 121. *)
Definition resolve_rate (name : string) : Q :=
  default (default_rate g) (custom_rates g !! name).

Definition calculate_pay (name : string) (daily_data : list day_entry)
  : Q * Q * Q :=
  let rate := resolve_rate name in
  let '(total_hours, pay) := unrounded_pay rate daily_data in
  (Py.round2 total_hours, Py.round2 pay, rate).

End WithGlobals.

(** ** Extraction *)

(** The variables the two loops assign. *)
Record scan_state := {
  name : string;
  client : string;
  site : string;
  daily_data : list day_entry
}.

Definition initial_state : scan_state :=
  {| name := ""; client := ""; site := ""; daily_data := [] |}.

(** [re.search(r"Client\s*[:\t\-\s]*(.+)", text, re.IGNORECASE)] and its
    like for the site address, stripped. *)
Definition labelled (label text : string) : option string :=
  option_map Py.strip
    (Py.search label [(Py.Star, Py.is_space); (Py.Star, Py.colon_dash_space)] text).

(** [re.search(r"print name[:\-\s]*(.+)", text, re.IGNORECASE)], stripped. *)
Definition printed_name (text : string) : option string :=
  option_map Py.strip (Py.search "print name" [(Py.Star, Py.colon_dash_space)] text).

(** The name rule on a line: capitals and blanks only, five characters at
    least, no "PRL", two words at least. *)
Definition is_name_line (line : string) : bool :=
  Py.fullmatch_upper_name line && negb (Py.contains "PRL" line)
  && (2 <=? List.length (Py.split line))%nat.

(** The body of [for para in doc.paragraphs], lines 162 to 180. *)
Definition paragraph_step (st : scan_state) (para_text : string) : scan_state :=
  let text := Py.strip para_text in
  let client1 :=
    if Py.contains "Client" text && Py.is_empty (client st)
    then default (client st) (labelled "Client" text)
    else client st in
  let name1 :=
    if Py.is_empty (name st) && is_name_line text then Py.title text else name st in
  let name2 :=
    if Py.is_empty name1 && Py.contains "print name" (Py.lower text)
    then default name1 (printed_name text)
    else name1 in
  let site1 :=
    if Py.contains "Site Address" text && Py.is_empty (site st)
    then default (site st) (labelled "Site Address" text)
    else site st in
  {| name := name2; client := client1; site := site1; daily_data := daily_data st |}.

(** The inner loop [for line in ct.splitlines()] of lines 194 to 197:
    every line that is a name overwrites the one before. *)
Definition name_of_lines (name : string) (lines : list string) : string :=
  fold_left (fun n line => if is_name_line line then Py.title line else n) lines name.

(** The body of [for cell in cells], lines 187 to 197. *)
Definition cell_step (st : scan_state) (cell_text : string) : scan_state :=
  let ct := Py.strip cell_text in
  let site1 :=
    if Py.is_empty (site st) && Py.contains "Site Address" ct
    then default (site st) (labelled "Site Address" ct)
    else site st in
  let name1 :=
    if Py.is_empty (name st) then name_of_lines (name st) (Py.splitlines ct)
    else name st in
  {| name := name1; client := client st; site := site1; daily_data := daily_data st |}.

(** The tokens an hours cell is compared with at line 204. *)
Definition skipped_hours : list string := ["-"; "–"; "—"].

(** The entries a row appends to [daily_data], lines 200 to 208; the
    [ValueError] of [float] is caught and the row passed over.  The hours
    are the finite numbers that [float] reads; [row_entry] below has the
    infinities and the NaN of a cell that spells one, on which no pay is
    computed here. *)
Definition row_record (cells : list string) : list day_entry :=
  if (5 <=? List.length cells)%nat then
    let hrs := Py.strip (nth 4 cells EmptyString) in
    let date_text := Py.strip (nth 0 cells EmptyString) in
    let day_text := Py.strip (nth 1 cells EmptyString) in
    if negb (Py.is_empty hrs) && negb (Py.in_list hrs skipped_hours)
       && negb (Py.is_empty day_text)
    then match Py.float hrs with
         | Some h => [{| weekday := day_text; hours := h |}]
         | None => []
         end
    else []
  else [].

(** An entry of [daily_data] with the hours as [float] returns them,
    finite or not. *)
Record cell_entry := {
  entry_weekday : string;
  entry_hours : Py.float_value
}.

(** The same lines 200 to 208 with the hours as [float] returns them: the
    entries that the row appends.  [row_record] is this for hours that are
    a finite number. *)
Definition row_entry (cells : list string) : list cell_entry :=
  if (5 <=? List.length cells)%nat then
    let hrs := Py.strip (nth 4 cells EmptyString) in
    let date_text := Py.strip (nth 0 cells EmptyString) in
    let day_text := Py.strip (nth 1 cells EmptyString) in
    if negb (Py.is_empty hrs) && negb (Py.in_list hrs skipped_hours)
       && negb (Py.is_empty day_text)
    then match Py.float_any hrs with
         | Some h => [{| entry_weekday := day_text; entry_hours := h |}]
         | None => []
         end
    else []
  else [].

(** The body of [for row in table.rows], lines 185 to 208. *)
Definition row_step (st : scan_state) (cells : list string) : scan_state :=
  let st1 := fold_left cell_step cells st in
  {| name := name st1; client := client st1; site := site st1;
     daily_data := daily_data st1 ++ row_record cells |}.

(** The dates a row appends to [date_list], lines 216 to 221; [None] is
    the [IndexError] of [row.cells[0]] on a row without cells. *)
Definition row_dates (cells : list string) : option (list Py.datetime) :=
  match cells with
  | [] => None
  | c :: _ =>
      let dt := Py.strip c in
      if Py.match_date_pattern dt then
        match Py.strptime_dmy dt with
        | Some t => Some [t]
        | None => Some []
        end
      else Some []
  end.

(** [date_list] after the loop of lines 214 to 221. *)
Fixpoint collect_dates (rows : list (list string)) : option (list Py.datetime) :=
  match rows with
  | [] => Some []
  | cells :: rows' =>
      match row_dates cells with
      | Some ds =>
          match collect_dates rows' with
          | Some ds' => Some (ds ++ ds')
          | None => None
          end
      | None => None
      end
  end.

(** Lines 222 to 225. *)
Definition format_date_range (date_list : list Py.datetime) : string :=
  match Py.sorted date_list with
  | [] => ""
  | t :: ts => Py.strftime_dmy t ++ "–" ++ Py.strftime_dmy (List.last ts t)
  end.

(** The dictionary the function returns. *)
Record result := {
  Name : string;
  Client : string;
  Site_Address : string;
  Total_Hours : Q;
  Rate : Q;
  Calculated_Pay : Q;
  Printed_Name : string;
  Date_Range : string;
  File_Name : string;
  Extracted_On : string
}.

(** The state after the loop over the paragraphs and the loop over the
    tables. *)
Definition scan (doc : document) : scan_state :=
  fold_left row_step (all_rows doc) (fold_left paragraph_step (paragraphs doc) initial_state).

(** Lines 227 to 229. *)
Definition final_name (name : string) (doc : document) : string :=
  if Py.is_empty name then Py.stem (file_name doc) else name.

(** [extract_timesheet_data(doc_path)] for the document at [doc_path], with
    the globals [g] and the clock showing [now]; [None] when the function
    raises. *)
Definition extract_timesheet_data (g : globals) (now : Py.datetime) (doc : document)
  : option result :=
  let st := scan doc in
  let '(total_hours, pay_amount, used_rate) := calculate_pay g (name st) (daily_data st) in
  match collect_dates (all_rows doc) with
  | None => None
  | Some date_list =>
      let name := final_name (name st) doc in
      Some {| Name := name;
              Client := client st;
              Site_Address := site st;
              Total_Hours := total_hours;
              Rate := used_rate;
              Calculated_Pay := pay_amount;
              Printed_Name := name;
              Date_Range := format_date_range date_list;
              File_Name := file_name doc;
              Extracted_On := Py.strftime_stamp now |}
  end.

End Appy1.

(** * Properties *)

(** ** Arithmetic of the library functions *)

Section Numbers.

Lemma fold_left_Qplus (xs : list Q) (a : Q) :
  fold_left Qplus xs a == a + Py.sum xs.
Proof.
  unfold Py.sum. revert a.
  induction xs as [|x xs IH]; intros a; simpl.
  - lra.
  - rewrite (IH (a + x)), (IH (0 + x)). lra.
Qed.

Lemma sum_cons (x : Q) (xs : list Q) : Py.sum (x :: xs) == x + Py.sum xs.
Proof. unfold Py.sum at 1. simpl. rewrite fold_left_Qplus. lra. Qed.

Lemma sum_app (xs ys : list Q) : Py.sum (xs ++ ys) == Py.sum xs + Py.sum ys.
Proof.
  induction xs as [|x xs IH]; simpl.
  - unfold Py.sum at 2. simpl. lra.
  - rewrite !sum_cons, IH. lra.
Qed.

Lemma max_zero_cases (a : Q) :
  (a < 0 /\ Py.max a 0 = 0) \/ (0 <= a /\ Py.max a 0 = a).
Proof.
  unfold Py.max. destruct (Qlt_le_dec a 0) as [H|H]; [left | right]; split;
    solve [assumption | reflexivity].
Qed.

Lemma max_zero_nonneg (a : Q) : 0 <= Py.max a 0.
Proof. destruct (max_zero_cases a) as [[H ->]|[H ->]]; lra. Qed.

Lemma round_half_even_comp (x y : Q) :
  x == y -> Py.round_half_even x = Py.round_half_even y.
Proof.
  intros E. unfold Py.round_half_even.
  rewrite (Qfloor_comp x y E).
  assert (Ec : Qcompare (x - inject_Z (Qfloor y)) (1 # 2)
               = Qcompare (y - inject_Z (Qfloor y)) (1 # 2)).
  { apply Qcompare_comp; [rewrite E|]; reflexivity. }
  rewrite Ec. reflexivity.
Qed.

(** Rounding does not tell equal rationals apart. *)
Lemma round2_comp (x y : Q) : x == y -> Py.round2 x == Py.round2 y.
Proof.
  intros E. unfold Py.round2.
  rewrite (round_half_even_comp (x * 100) (y * 100)); [reflexivity|].
  rewrite E. reflexivity.
Qed.

End Numbers.

(** ** The pay of the streamlined processor *)

Module StreamlinedPay.
Import Streamlined.

Lemma filter_all (l : list day_entry) : List.filter (fun _ => true) l = l.
Proof. induction l as [|d l IH]; simpl; [|rewrite IH]; reflexivity. Qed.

Lemma sum_hours_nil (P : day_entry -> bool) : sum_hours P [] == 0.
Proof. reflexivity. Qed.

Lemma sum_hours_cons (P : day_entry -> bool) (d : day_entry) (l : list day_entry) :
  sum_hours P (d :: l) == (if P d then hours d else 0) + sum_hours P l.
Proof.
  unfold sum_hours. simpl. destruct (P d); simpl.
  - apply sum_cons.
  - lra.
Qed.

(** No day is both a Saturday and a Sunday. *)
Lemma saturday_not_sunday (d : day_entry) : is_saturday d = true -> is_sunday d = false.
Proof.
  unfold is_saturday, is_sunday. intros H.
  apply String.eqb_eq in H. rewrite H. reflexivity.
Qed.

(** [weekend_hours] is the Saturday hours plus the Sunday hours. *)
Lemma weekend_split (l : list day_entry) :
  sum_hours is_weekend l == saturday_hours l + sunday_hours l.
Proof.
  unfold saturday_hours, sunday_hours.
  induction l as [|d l IH].
  - reflexivity.
  - rewrite !sum_hours_cons, IH. unfold is_weekend.
    destruct (is_saturday d) eqn:Esat.
    + rewrite (saturday_not_sunday d Esat). simpl. lra.
    + destruct (is_sunday d); simpl; lra.
Qed.

(** The hours of the days that are neither a Saturday nor a Sunday. *)
Definition other_hours (l : list day_entry) : Q :=
  sum_hours (fun d => negb (is_weekend d)) l.

Lemma total_split (l : list day_entry) :
  sum_hours (fun _ => true) l == other_hours l + sum_hours is_weekend l.
Proof.
  unfold other_hours.
  induction l as [|d l IH].
  - reflexivity.
  - rewrite !sum_hours_cons, IH. destruct (is_weekend d); simpl; lra.
Qed.

Lemma sum_hours_nonneg (P : day_entry -> bool) (l : list day_entry) :
  Forall (fun d => 0 <= hours d) l -> 0 <= sum_hours P l.
Proof.
  induction 1 as [|d l Hd _ IH].
  - unfold sum_hours, Py.sum. simpl. lra.
  - rewrite sum_hours_cons. destruct (P d); lra.
Qed.

Lemma OT_RULE_Saturday : OT_RULE "Saturday" = 1.5.
Proof. reflexivity. Qed.
Lemma OT_RULE_Sunday : OT_RULE "Sunday" = 1.75.
Proof. reflexivity. Qed.
Lemma OT_RULE_Over50 : OT_RULE "Over50" = 1.5.
Proof. reflexivity. Qed.

(** [C1] For every list of daily entries whose hours are all non-negative,
    the buckets of the bucket-partition calculation add up to the total:
    regular hours + Saturday hours + Sunday hours + hours over the threshold
    equal the total hours, where the total is the sum of all the hours, the
    Saturday and Sunday hours are the sums over those weekdays and the hours
    over the threshold are [max(total - 50, 0)]. *)
Theorem C1_buckets_add_up (name : string) (daily_data : list day_entry) :
  Forall (fun d => 0 <= hours d) daily_data ->
  let v := compute_pay name daily_data in
  regular_hours v + saturday_hours daily_data + sunday_hours daily_data + over_50 v
    == total_hours v
  /\ total_hours v = Py.sum (map hours daily_data)
  /\ over_50 v == Qmax 0 (total_hours v - 50).
Proof.
  intros _. cbn zeta. unfold compute_pay. cbn [regular_hours over_50 total_hours].
  split; [|split].
  - rewrite weekend_split. lra.
  - unfold sum_hours. rewrite filter_all. reflexivity.
  - destruct (max_zero_cases (sum_hours (fun _ => true) daily_data - 50))
      as [[H ->]|[H ->]].
    + rewrite Q.max_l; lra.
    + rewrite Q.max_r; lra.
Qed.

(** The week of the specification: eight hours on the Monday and on the
    Tuesday, ten on the Saturday, six on the Sunday. *)
Definition day_at (d : Z) (weekday : string) (hours : Q) : day_entry :=
  {| date := {| Py.year := 2024; Py.month := 1; Py.day := d;
                Py.hour := 0; Py.minute := 0; Py.second := 0 |};
     weekday := weekday; hours := hours |}.
Definition john_smith_week : list day_entry :=
  [day_at 1 "Monday" 8; day_at 2 "Tuesday" 8; day_at 6 "Saturday" 10; day_at 7 "Sunday" 6].

Lemma C1_buckets_add_up_witness :
  let v := compute_pay "John Smith" john_smith_week in
  regular_hours v + saturday_hours john_smith_week + sunday_hours john_smith_week
  + over_50 v == total_hours v.
Proof.
  apply (C1_buckets_add_up "John Smith" john_smith_week).
  repeat constructor; vm_compute; discriminate.
Defined.

(** The scenario of the specification: 32 hours, 622.50 of pay. *)
Example john_smith_pay :
  let v := compute_pay "John Smith" john_smith_week in
  total_hours v == 32 /\ over_50 v == 0 /\ regular_pay v == 240
  /\ saturday_pay v == 225 /\ sunday_pay v == 157.5 /\ total_pay v == 622.5.
Proof. repeat split; vm_compute; reflexivity. Qed.

Lemma regular_hours_eq (name : string) (daily_data : list day_entry) :
  let v := compute_pay name daily_data in
  regular_hours v == other_hours daily_data - over_50 v.
Proof.
  cbn zeta. unfold compute_pay. cbn [regular_hours over_50].
  pose proof (total_split daily_data) as E. lra.
Qed.

(** A week of thirty hours on the Saturday and thirty on the Sunday. *)
Definition weekend_week : list day_entry :=
  [day_at 6 "Saturday" 30; day_at 7 "Sunday" 30].

(** [C2], refuted as stated: thirty hours on a Saturday and thirty on a
    Sunday give sixty hours in all, ten of them over the threshold, and the
    regular hours are 60 - 60 - 10 = -10: negative, not clamped at zero. *)
Lemma C2_regular_hours_negative :
  Forall (fun d => 0 <= hours d) weekend_week
  /\ regular_hours (compute_pay "" weekend_week) == -10
  /\ regular_hours (compute_pay "" weekend_week) < 0.
Proof.
  split; [|split].
  - repeat constructor; vm_compute; discriminate.
  - vm_compute. reflexivity.
  - vm_compute. reflexivity.
Qed.

(** [C2], amended: the regular hours are total hours - Saturday hours -
    Sunday hours - hours over the threshold, with no clamp at zero.  They
    equal the hours of the other days less the hours over the threshold, so
    they are negative exactly when the hours over the threshold exceed the
    hours worked outside the weekend. *)
Theorem C2_regular_hours_unclamped (name : string) (daily_data : list day_entry) :
  let v := compute_pay name daily_data in
  regular_hours v
    == total_hours v - saturday_hours daily_data - sunday_hours daily_data - over_50 v
  /\ regular_hours v == other_hours daily_data - over_50 v
  /\ (regular_hours v < 0 <-> other_hours daily_data < over_50 v).
Proof.
  cbn zeta. pose proof (regular_hours_eq name daily_data) as E. cbn zeta in E.
  split; [|split].
  - unfold compute_pay. cbn [regular_hours over_50 total_hours].
    pose proof (weekend_split daily_data) as W. lra.
  - exact E.
  - rewrite E. split; intros H; lra.
Qed.

End StreamlinedPay.

(** ** The pay of appy1 *)

Module Appy1Pay.
Import Appy1.

Section WithGlobals.

Variable g : globals.

(** The sum of the hours, and the sum of the hours weighted by the
    multiplier of their day. *)
Definition total_of (l : list day_entry) : Q := Py.sum (map hours l).
Definition weighted_of (l : list day_entry) : Q :=
  Py.sum (map (fun d => hours d * day_multiplier g (weekday d)) l).

Lemma total_of_cons (d : day_entry) (l : list day_entry) :
  total_of (d :: l) == hours d + total_of l.
Proof. apply sum_cons. Qed.

Lemma weighted_of_cons (d : day_entry) (l : list day_entry) :
  weighted_of (d :: l) == hours d * day_multiplier g (weekday d) + weighted_of l.
Proof. apply sum_cons. Qed.

(** The first pass accumulates the two sums. *)
Lemma first_pass (rate : Q) (l : list day_entry) (t p : Q) :
  fst (fold_left (pay_step g rate) l (t, p)) == t + total_of l
  /\ snd (fold_left (pay_step g rate) l (t, p)) == p + rate * weighted_of l.
Proof.
  revert t p. induction l as [|d l IH]; intros t p.
  - simpl. unfold total_of, weighted_of, Py.sum. simpl. split; lra.
  - simpl. destruct (IH (t + hours d) (p + hours d * rate * day_multiplier g (weekday d)))
      as [Ht Hp].
    rewrite Ht, Hp, total_of_cons, weighted_of_cons. split; lra.
Qed.

(** The overtime increment on a total of [t] hours. *)
Definition excess_pay (rate t : Q) : Q :=
  if Qlt_le_dec (inject_Z (overtime_threshold g)) t
  then (t - inject_Z (overtime_threshold g)) * rate * (overtime_multiplier g - 1)
  else 0.

Lemma excess_pay_comp (rate t t' : Q) : t == t' -> excess_pay rate t == excess_pay rate t'.
Proof.
  intros E. unfold excess_pay.
  destruct (Qlt_le_dec _ t), (Qlt_le_dec _ t'); try lra.
  rewrite E. reflexivity.
Qed.

(** The total and the pay before rounding, in closed form. *)
Lemma unrounded_pay_closed (rate : Q) (l : list day_entry) :
  fst (unrounded_pay g rate l) == total_of l
  /\ snd (unrounded_pay g rate l)
     == rate * weighted_of l + excess_pay rate (total_of l).
Proof.
  unfold unrounded_pay.
  destruct (first_pass rate l 0 0) as [Ht Hp].
  destruct (fold_left (pay_step g rate) l (0, 0)) as [t p]. simpl in Ht, Hp.
  assert (Et : t == total_of l) by lra.
  rewrite <- (excess_pay_comp rate t (total_of l) Et).
  unfold excess_pay.
  destruct (Qlt_le_dec (inject_Z (overtime_threshold g)) t); simpl; split; lra.
Qed.

End WithGlobals.

End Appy1Pay.

(** ** The two pay formulas on the same week *)

Module TwoFormulas.

(** The entry of [appy1.py] for an entry of the streamlined processor. *)
Definition as_appy1 (d : Streamlined.day_entry) : Appy1.day_entry :=
  {| Appy1.weekday := Streamlined.weekday d; Appy1.hours := Streamlined.hours d |}.

Import Streamlined StreamlinedPay.

Section WithGlobals.

Variable g : Appy1.globals.

Lemma total_of_as_appy1 (l : list day_entry) :
  Appy1Pay.total_of (map as_appy1 l) == sum_hours (fun _ => true) l.
Proof.
  induction l as [|d l IH].
  - reflexivity.
  - cbn [map]. rewrite Appy1Pay.total_of_cons, sum_hours_cons, IH. reflexivity.
Qed.

(** The day multipliers weigh the Saturday and the Sunday hours. *)
Lemma weighted_of_as_appy1 (l : list day_entry) :
  Appy1Pay.weighted_of g (map as_appy1 l)
  == other_hours l + saturday_hours l * Appy1.saturday_multiplier g
     + sunday_hours l * Appy1.sunday_multiplier g.
Proof.
  unfold other_hours, saturday_hours, sunday_hours.
  induction l as [|d l IH].
  - reflexivity.
  - cbn [map]. rewrite Appy1Pay.weighted_of_cons, !sum_hours_cons, IH.
    unfold Appy1.day_multiplier, is_weekend. cbn [as_appy1 Appy1.weekday Appy1.hours].
    fold (is_saturday d). fold (is_sunday d).
    destruct (is_saturday d) eqn:Esat.
    + rewrite (saturday_not_sunday d Esat). simpl. lra.
    + destruct (is_sunday d); simpl; lra.
Qed.

(** With the threshold at fifty hours, the excess of [appy1.py] is the
    [over_50] of the streamlined processor. *)
Lemma excess_is_over_50 (rate t : Q) :
  inject_Z (Appy1.overtime_threshold g) == 50 ->
  Appy1Pay.excess_pay g rate t
  == Py.max (t - 50) 0 * rate * (Appy1.overtime_multiplier g - 1).
Proof.
  intros Hthr. unfold Appy1Pay.excess_pay.
  destruct (max_zero_cases (t - 50)) as [[H ->]|[H ->]];
    destruct (Qlt_le_dec (inject_Z (Appy1.overtime_threshold g)) t) as [L|L];
    try lra.
  - rewrite Hthr. reflexivity.
  - assert (E : t - 50 == 0) by lra. rewrite E. lra.
Qed.

(** The unrounded pay of the two formulas, for equal settings. *)
Lemma unrounded_pay_agree (name : string) (daily_data : list day_entry) :
  Appy1.saturday_multiplier g == OT_RULE "Saturday" ->
  Appy1.sunday_multiplier g == OT_RULE "Sunday" ->
  Appy1.overtime_multiplier g == OT_RULE "Over50" ->
  inject_Z (Appy1.overtime_threshold g) == 50 ->
  Appy1.resolve_rate g name == rate (compute_pay name daily_data) ->
  snd (Appy1.unrounded_pay g (Appy1.resolve_rate g name) (map as_appy1 daily_data))
  == total_pay (compute_pay name daily_data).
Proof.
  intros Hsat Hsun Hot Hthr Hrate.
  destruct (Appy1Pay.unrounded_pay_closed g (Appy1.resolve_rate g name)
              (map as_appy1 daily_data)) as [_ Hp].
  rewrite Hp. clear Hp.
  rewrite (Appy1Pay.excess_pay_comp g _ _ _ (total_of_as_appy1 daily_data)).
  rewrite (excess_is_over_50 _ _ Hthr), weighted_of_as_appy1.
  rewrite Hsat, Hsun, Hot, Hrate.
  unfold compute_pay. cbn [total_pay rate].
  pose proof (total_split daily_data) as T.
  pose proof (weekend_split daily_data) as W.
  set (r := default default_rate (custom_rates !! name)).
  set (o := Py.max (sum_hours (fun _ => true) daily_data - 50) 0).
  rewrite T. unfold saturday_hours, sunday_hours in *. rewrite W.
  ring.
Qed.

End WithGlobals.

(** The components of what [calculate_pay] returns. *)
Definition hours_returned (r : Q * Q * Q) : Q := fst (fst r).
Definition pay_returned (r : Q * Q * Q) : Q := snd (fst r).
Definition rate_returned (r : Q * Q * Q) : Q := snd r.

Lemma calculate_pay_returns (g : Appy1.globals) (name : string) (l : list Appy1.day_entry) :
  hours_returned (Appy1.calculate_pay g name l)
    = Py.round2 (fst (Appy1.unrounded_pay g (Appy1.resolve_rate g name) l))
  /\ pay_returned (Appy1.calculate_pay g name l)
    = Py.round2 (snd (Appy1.unrounded_pay g (Appy1.resolve_rate g name) l))
  /\ rate_returned (Appy1.calculate_pay g name l) = Appy1.resolve_rate g name.
Proof.
  unfold Appy1.calculate_pay.
  destruct (Appy1.unrounded_pay g (Appy1.resolve_rate g name) l) as [t p].
  repeat split.
Qed.

(** The sidebar set to the constants of the streamlined processor. *)
Definition streamlined_settings : Appy1.globals :=
  {| Appy1.default_rate := 15; Appy1.overtime_threshold := 50;
     Appy1.saturday_multiplier := 1.5; Appy1.sunday_multiplier := 1.75;
     Appy1.overtime_multiplier := 1.5; Appy1.custom_rates := ∅ |}.

(** [C3], refuted as stated: in the week of thirty Saturday and thirty
    Sunday hours the ten hours over the threshold are weekend hours, and for
    the same rate, multipliers and threshold both formulas pay 1537.50. *)
Lemma C3_same_pay_on_weekend_overtime :
  50 < total_hours (compute_pay "" weekend_week)
  /\ other_hours weekend_week == 0
  /\ over_50 (compute_pay "" weekend_week) == 10
  /\ Appy1.resolve_rate streamlined_settings "" == rate (compute_pay "" weekend_week)
  /\ pay_returned (Appy1.calculate_pay streamlined_settings "" (map as_appy1 weekend_week))
     == 1537.5
  /\ Py.round2 (total_pay (compute_pay "" weekend_week)) == 1537.5.
Proof. repeat split; vm_compute; reflexivity. Qed.

(** [C3], amended: in exact arithmetic the two pay formulas are
    equivalent.  For every week, when [appy1.py] is set to the same
    multipliers and threshold as the streamlined processor and resolves the
    same rate, the day-multipliers-first computation and the
    bucket-partition computation give the same total hours and the same
    total pay before rounding, the hours and the amounts read as exact
    numbers.  Nothing is said of the rounded figures of a binary float
    run, where the two orders of evaluation can leave the sums on either
    side of a half cent. *)
Theorem C3_formulas_agree (g : Appy1.globals) (name : string)
    (daily_data : list day_entry) :
  Appy1.saturday_multiplier g == OT_RULE "Saturday" ->
  Appy1.sunday_multiplier g == OT_RULE "Sunday" ->
  Appy1.overtime_multiplier g == OT_RULE "Over50" ->
  inject_Z (Appy1.overtime_threshold g) == 50 ->
  Appy1.resolve_rate g name == rate (compute_pay name daily_data) ->
  let u := Appy1.unrounded_pay g (Appy1.resolve_rate g name) (map as_appy1 daily_data) in
  let v := compute_pay name daily_data in
  fst u == total_hours v /\ snd u == total_pay v.
Proof.
  intros Hsat Hsun Hot Hthr Hrate. cbn zeta. split.
  - destruct (Appy1Pay.unrounded_pay_closed g (Appy1.resolve_rate g name)
                (map as_appy1 daily_data)) as [Ht _].
    rewrite Ht. apply total_of_as_appy1.
  - exact (unrounded_pay_agree g name daily_data Hsat Hsun Hot Hthr Hrate).
Qed.

Lemma C3_formulas_agree_witness :
  let u := Appy1.unrounded_pay streamlined_settings
             (Appy1.resolve_rate streamlined_settings "") (map as_appy1 weekend_week) in
  fst u == total_hours (compute_pay "" weekend_week)
  /\ snd u == total_pay (compute_pay "" weekend_week).
Proof.
  apply (C3_formulas_agree streamlined_settings "" weekend_week);
    vm_compute; reflexivity.
Defined.

End TwoFormulas.

(** ** Text *)

Section Text.

Lemma is_empty_true (s : string) : Py.is_empty s = true <-> s = EmptyString.
Proof. destruct s; simpl; split; intros H; congruence. Qed.

Lemma is_empty_false (s : string) : Py.is_empty s = false <-> s <> EmptyString.
Proof. destruct s; simpl; split; intros H; congruence. Qed.

Lemma in_list_In (s : string) (l : list string) : Py.in_list s l = true <-> In s l.
Proof.
  unfold Py.in_list. rewrite existsb_exists. split.
  - intros (x & Hx & E). apply String.eqb_eq in E. subst x. exact Hx.
  - intros H. exists s. split; [exact H | apply String.eqb_refl].
Qed.

Lemma title_from_length (b : bool) (s : string) :
  String.length (Py.title_from b s) = String.length s.
Proof.
  revert b. induction s as [|c s IH]; intros b; simpl; [|rewrite IH]; reflexivity.
Qed.

(** A text that passes the pattern of the name rule has five characters at
    least, and so has its title-cased form. *)
Lemma title_of_name_nonempty (s : string) :
  Py.fullmatch_upper_name s = true -> Py.title s <> EmptyString.
Proof.
  unfold Py.fullmatch_upper_name, Py.title. intros H.
  apply andb_prop in H as [_ H]. apply Nat.leb_le in H.
  intros E. pose proof (title_from_length false s) as L.
  rewrite E in L. simpl in L. lia.
Qed.

(** The stem of a file name that is not empty is not empty. *)
Lemma stem_nonempty (name : string) : name <> EmptyString -> Py.stem name <> EmptyString.
Proof.
  intros Hname. unfold Py.stem.
  destruct (Py.rfind_point 0 name) as [i|]; [|exact Hname].
  destruct ((0 <? i)%nat && (i <? String.length name - 1)%nat) eqn:E; [|exact Hname].
  apply andb_prop in E as [Hi _]. apply Nat.ltb_lt in Hi.
  destruct i as [|i]; [lia|]. destruct name as [|c name]; [congruence|].
  simpl. discriminate.
Qed.

(** The hour cells that [float] refuses among the tokens of the source. *)
Lemma float_of_dashes :
  Py.float "-" = None /\ Py.float "–" = None /\ Py.float "—" = None
  /\ Py.float "" = None.
Proof. repeat split. Qed.

End Text.

(** ** Extraction in the streamlined processor *)

Module StreamlinedRows.
Import Streamlined.

(** The name rule on a cell: the stripped text has capitals and blanks
    only, five characters at least, and no "PRL". *)
Definition is_name_cell (cell_text : string) : bool :=
  Py.fullmatch_upper_name (Py.strip cell_text)
  && negb (Py.contains "PRL" (Py.strip cell_text)).

Lemma find_app {A : Type} (f : A -> bool) (l1 l2 : list A) :
  find f (l1 ++ l2) = match find f l1 with Some x => Some x | None => find f l2 end.
Proof.
  induction l1 as [|a l1 IH]; simpl; [reflexivity|].
  destruct (f a); [reflexivity | exact IH].
Qed.

Lemma name_cell_step (st : table_state) (c : string) :
  name (cell_step st c)
  = if Py.is_empty (name st) && is_name_cell c then Py.title (Py.strip c) else name st.
Proof.
  unfold cell_step, is_name_cell. cbn [name].
  rewrite andb_assoc. reflexivity.
Qed.

Lemma is_name_cell_title (c : string) :
  is_name_cell c = true -> Py.is_empty (Py.title (Py.strip c)) = false.
Proof.
  unfold is_name_cell. intros H. apply andb_prop in H as [H _].
  apply is_empty_false, title_of_name_nonempty, H.
Qed.

(** The name after the cells of a row: the first cell that passes the name
    rule gives it, when no name was found before. *)
Lemma name_cells (cells : list string) (st : table_state) :
  name (fold_left cell_step cells st)
  = if Py.is_empty (name st)
    then match find is_name_cell cells with
         | Some c => Py.title (Py.strip c)
         | None => name st
         end
    else name st.
Proof.
  revert st. induction cells as [|c cells IH]; intros st; simpl.
  - destruct (Py.is_empty (name st)); reflexivity.
  - rewrite IH, name_cell_step.
    destruct (Py.is_empty (name st)) eqn:E; simpl.
    + destruct (is_name_cell c) eqn:Ec.
      * rewrite (is_name_cell_title c Ec). reflexivity.
      * rewrite E. reflexivity.
    + rewrite E. reflexivity.
Qed.

Lemma cells_keep_records (cells : list string) (st : table_state) :
  daily_data (fold_left cell_step cells st) = daily_data st
  /\ date_list (fold_left cell_step cells st) = date_list st.
Proof.
  revert st. induction cells as [|c cells IH]; intros st; simpl; [split; reflexivity|].
  destruct (IH (cell_step st c)) as [-> ->]. split; reflexivity.
Qed.

Lemma row_step_fields (st : table_state) (cells : list string) :
  name (row_step st cells) = name (fold_left cell_step cells st)
  /\ daily_data (row_step st cells) = daily_data st ++ snd (row_record cells)
  /\ date_list (row_step st cells) = date_list st ++ fst (row_record cells).
Proof.
  unfold row_step. destruct (cells_keep_records cells st) as [Ed El].
  destruct (row_record cells) as [dates entries]. cbn. rewrite Ed, El.
  repeat split.
Qed.

(** The name after the rows of the tables. *)
Lemma name_rows (rows : list (list string)) (st : table_state) :
  name (fold_left row_step rows st)
  = if Py.is_empty (name st)
    then match find is_name_cell (List.concat rows) with
         | Some c => Py.title (Py.strip c)
         | None => name st
         end
    else name st.
Proof.
  revert st. induction rows as [|cells rows IH]; intros st; simpl.
  - destruct (Py.is_empty (name st)); reflexivity.
  - rewrite IH. destruct (row_step_fields st cells) as (-> & _ & _).
    rewrite name_cells, find_app.
    destruct (Py.is_empty (name st)) eqn:E.
    + destruct (find is_name_cell cells) as [c|] eqn:F.
      * apply find_some in F as [_ F]. rewrite (is_name_cell_title c F). reflexivity.
      * rewrite E. reflexivity.
    + rewrite E. reflexivity.
Qed.

(** Every row adds its own records, whatever the rows before it were. *)
Lemma records_rows (rows : list (list string)) (st : table_state) :
  daily_data (fold_left row_step rows st)
    = daily_data st ++ List.concat (map (fun cells => snd (row_record cells)) rows)
  /\ date_list (fold_left row_step rows st)
    = date_list st ++ List.concat (map (fun cells => fst (row_record cells)) rows).
Proof.
  revert st. induction rows as [|cells rows IH]; intros st; simpl.
  - rewrite !app_nil_r. split; reflexivity.
  - destruct (IH (row_step st cells)) as [-> ->].
    destruct (row_step_fields st cells) as (_ & -> & ->).
    rewrite <- !app_assoc. split; reflexivity.
Qed.

(** The printed name: what the loop over the paragraphs leaves. *)
Definition printed_name_of (doc : document) : string :=
  fold_left paragraph_step (paragraphs doc) EmptyString.

(** The name the function returns. *)
Lemma extracted_name (doc : document) :
  Name (extract_timesheet_data doc)
  = match find is_name_cell (List.concat (all_rows doc)) with
    | Some c => Py.title (Py.strip c)
    | None => printed_name_of doc
    end.
Proof.
  unfold extract_timesheet_data, scan. cbn [Name].
  rewrite name_rows. cbn [initial_state name Py.is_empty].
  fold (printed_name_of doc).
  destruct (find is_name_cell (List.concat (all_rows doc))) as [c|] eqn:F.
  - apply find_some in F as [_ F]. unfold resolve_name.
    rewrite (is_name_cell_title c F). reflexivity.
  - unfold resolve_name. simpl. destruct (printed_name_of doc); reflexivity.
Qed.

End StreamlinedRows.

(** ** Extraction in appy1 *)

Module Appy1Rows.
Import Appy1.

(** The name a paragraph gives when none was found before it: the
    title-cased text when the paragraph is a name line; otherwise the
    printed name when it has one; otherwise none. *)
Definition paragraph_name (para_text : string) : string :=
  let text := Py.strip para_text in
  if is_name_line text then Py.title text
  else if Py.contains "print name" (Py.lower text)
       then default EmptyString (printed_name text)
       else EmptyString.

Lemma is_name_line_title (line : string) :
  is_name_line line = true -> Py.is_empty (Py.title line) = false.
Proof.
  unfold is_name_line. intros H.
  apply andb_prop in H as [H _]. apply andb_prop in H as [H _].
  apply is_empty_false, title_of_name_nonempty, H.
Qed.

Lemma name_paragraph_step (st : scan_state) (p : string) :
  name (paragraph_step st p)
  = if Py.is_empty (name st) then paragraph_name p else name st.
Proof.
  unfold paragraph_step, paragraph_name. cbn [name].
  destruct (Py.is_empty (name st)) eqn:E; cbn [andb].
  - destruct (is_name_line (Py.strip p)) eqn:L.
    + rewrite (is_name_line_title _ L). reflexivity.
    + rewrite E. cbn [andb]. apply is_empty_true in E. rewrite E.
      destruct (Py.contains "print name" (Py.lower (Py.strip p))); reflexivity.
  - rewrite E. reflexivity.
Qed.

(** A name once found is kept by the paragraphs that follow. *)
Lemma name_kept_by_paragraphs (ps : list string) (st : scan_state) :
  name st <> EmptyString -> name (fold_left paragraph_step ps st) = name st.
Proof.
  revert st. induction ps as [|p ps IH]; intros st H; simpl; [reflexivity|].
  assert (E : name (paragraph_step st p) = name st).
  { rewrite name_paragraph_step. apply is_empty_false in H. rewrite H. reflexivity. }
  rewrite IH; rewrite E; [reflexivity | exact H].
Qed.

Lemma no_name_from_paragraphs (ps : list string) (st : scan_state) :
  name st = EmptyString ->
  Forall (fun q => paragraph_name q = EmptyString) ps ->
  name (fold_left paragraph_step ps st) = EmptyString.
Proof.
  intros H F. revert st H. induction F as [|p ps Hp _ IH]; intros st H; simpl.
  - exact H.
  - apply IH. rewrite name_paragraph_step, H. exact Hp.
Qed.

(** The first paragraph that gives a name decides it. *)
Lemma name_first_paragraph (pre post : list string) (p : string) (st : scan_state) :
  name st = EmptyString ->
  Forall (fun q => paragraph_name q = EmptyString) pre ->
  paragraph_name p <> EmptyString ->
  name (fold_left paragraph_step (pre ++ p :: post) st) = paragraph_name p.
Proof.
  intros H F Hp. rewrite fold_left_app. cbn [fold_left].
  pose proof (no_name_from_paragraphs pre st H F) as E.
  assert (Ep : name (paragraph_step (fold_left paragraph_step pre st) p) = paragraph_name p).
  { rewrite name_paragraph_step, E. reflexivity. }
  rewrite name_kept_by_paragraphs; rewrite Ep; [reflexivity | exact Hp].
Qed.

Lemma name_kept_by_cell (st : scan_state) (c : string) :
  name st <> EmptyString -> name (cell_step st c) = name st.
Proof.
  intros H. unfold cell_step. cbn [name].
  apply is_empty_false in H. rewrite H. reflexivity.
Qed.

Lemma name_kept_by_cells (cells : list string) (st : scan_state) :
  name st <> EmptyString -> name (fold_left cell_step cells st) = name st.
Proof.
  revert st. induction cells as [|c cells IH]; intros st H; simpl; [reflexivity|].
  pose proof (name_kept_by_cell st c H) as E.
  rewrite IH; rewrite E; [reflexivity | exact H].
Qed.

(** A name found in the paragraphs is kept by the rows of the tables. *)
Lemma name_kept_by_rows (rows : list (list string)) (st : scan_state) :
  name st <> EmptyString -> name (fold_left row_step rows st) = name st.
Proof.
  revert st. induction rows as [|cells rows IH]; intros st H; simpl; [reflexivity|].
  assert (E : name (row_step st cells) = name st).
  { unfold row_step. cbn [name]. apply name_kept_by_cells, H. }
  rewrite IH; rewrite E; [reflexivity | exact H].
Qed.

(** The cells and the paragraphs leave [daily_data] alone; every row adds
    its own records. *)
Lemma cells_keep_daily_data (cells : list string) (st : scan_state) :
  daily_data (fold_left cell_step cells st) = daily_data st.
Proof.
  revert st. induction cells as [|c cells IH]; intros st; simpl; [reflexivity|].
  rewrite IH. reflexivity.
Qed.

Lemma paragraphs_keep_records (ps : list string) (st : scan_state) :
  daily_data (fold_left paragraph_step ps st) = daily_data st.
Proof.
  revert st. induction ps as [|p ps IH]; intros st; simpl; [reflexivity|].
  rewrite IH. reflexivity.
Qed.

Lemma daily_data_rows (rows : list (list string)) (st : scan_state) :
  daily_data (fold_left row_step rows st)
  = daily_data st ++ List.concat (map row_record rows).
Proof.
  revert st. induction rows as [|cells rows IH]; intros st; simpl.
  - rewrite app_nil_r. reflexivity.
  - rewrite IH. unfold row_step. cbn [daily_data].
    rewrite cells_keep_daily_data, <- app_assoc. reflexivity.
Qed.

Lemma records_scan (doc : document) :
  daily_data (scan doc) = List.concat (map row_record (all_rows doc)).
Proof.
  unfold scan. rewrite daily_data_rows, paragraphs_keep_records. reflexivity.
Qed.

(** The loop over the dates raises on a row without cells and on nothing
    else. *)
Lemma collect_dates_total (rows : list (list string)) :
  Forall (fun cells => cells <> []) rows <-> is_Some (collect_dates rows).
Proof.
  induction rows as [|cells rows IH]; simpl.
  - split; [intros _; eexists; reflexivity | constructor].
  - split.
    + intros F. inversion F as [|? ? Hc Hr]; subst.
      apply IH in Hr as [ds' ->].
      destruct cells as [|c cells]; [congruence|]. simpl.
      destruct (Py.match_date_pattern (Py.strip c));
        [destruct (Py.strptime_dmy (Py.strip c))|]; eexists; reflexivity.
    + intros [ds H]. destruct (row_dates cells) as [d|] eqn:Ed; [|discriminate].
      destruct (collect_dates rows) as [ds'|] eqn:Er; [|discriminate].
      constructor.
      * intros ->. discriminate.
      * apply IH. eexists; reflexivity.
Qed.

(** The name the function returns, when it returns. *)
Lemma returned_name (g : globals) (now : Py.datetime) (doc : document) (r : result) :
  extract_timesheet_data g now doc = Some r ->
  Name r = final_name (name (scan doc)) doc.
Proof.
  unfold extract_timesheet_data.
  destruct (calculate_pay g (name (scan doc)) (daily_data (scan doc))) as [[t p] u].
  destruct (collect_dates (all_rows doc)); [|discriminate].
  intros [= <-]. reflexivity.
Qed.

End Appy1Rows.

(** ** Rate resolution *)

Module RateResolution.

(** The rate of a name as the specification words it: the rate stored for
    the name in the table, and the default rate when the name is absent or
    the stored value is exactly zero. *)
Definition rate_by_table (table : gmap string Q) (default_rate : Q) (name : string) : Q :=
  match table !! name with
  | Some r => if Qeq_bool r 0 then default_rate else r
  | None => default_rate
  end.

Definition all_positive (rates : gmap string Q) : Prop :=
  map_Forall (fun _ r => 0 < r) rates.

Lemma prepop_step_positive (w : Appy1.sidebar) (rates : gmap string Q) (name : string) :
  all_positive rates -> all_positive (Appy1.prepop_step w rates name).
Proof.
  intros H. unfold Appy1.prepop_step.
  destruct (Qlt_le_dec 0 (Appy1.rate_input w name)) as [Hpos|_]; [|exact H].
  apply map_Forall_insert_2; assumption.
Qed.

Lemma prepop_loop_positive (w : Appy1.sidebar) (names : list string) (rates : gmap string Q) :
  all_positive rates -> all_positive (fold_left (Appy1.prepop_step w) names rates).
Proof.
  revert rates. induction names as [|n names IH]; intros rates H; simpl.
  - exact H.
  - apply IH, prepop_step_positive, H.
Qed.

(** The sidebar stores a rate only when it is above zero. *)
Lemma build_custom_rates_positive (w : Appy1.sidebar) :
  all_positive (Appy1.build_custom_rates w).
Proof.
  unfold Appy1.build_custom_rates, Appy1.add_new_name.
  pose proof (prepop_loop_positive w Appy1.prepop_names ∅ (map_Forall_empty _)) as H.
  destruct (negb (Py.is_empty (Appy1.new_name w))); [|exact H].
  destruct (Qlt_le_dec 0 _) as [Hpos|_]; [|exact H].
  apply map_Forall_insert_2; assumption.
Qed.

Lemma positive_not_zero (r : Q) : 0 < r -> Qeq_bool r 0 = false.
Proof.
  intros H. destruct (Qeq_bool r 0) eqn:E; [|reflexivity].
  apply Qeq_bool_iff in E. lra.
Qed.

(** On a table without a zero, [table.get(name, default_rate)] is the rate
    of the specification. *)
Lemma get_is_rate_by_table (table : gmap string Q) (default_rate : Q) (name : string) :
  all_positive table ->
  default default_rate (table !! name) = rate_by_table table default_rate name.
Proof.
  intros H. unfold rate_by_table.
  destruct (table !! name) as [r|] eqn:E; simpl; [|reflexivity].
  rewrite (positive_not_zero r (H name r E)). reflexivity.
Qed.

Lemma streamlined_rates_positive : all_positive Streamlined.custom_rates.
Proof.
  unfold Streamlined.custom_rates.
  repeat (apply map_Forall_insert_2; [reflexivity|]).
  apply map_Forall_empty.
Qed.

(** [C4] For every employee name the hourly rate used for the pay is the
    rate stored for that name in the rate table, and the default rate when
    the name is absent from the table or the stored value is exactly zero:
    in [appy1.py], for the table built from any sidebar, and in the
    streamlined processor, for its table. *)
Theorem C4_rate_resolution (w : Appy1.sidebar) (name : string)
    (week : list Appy1.day_entry) (daily_data : list Streamlined.day_entry) :
  let g := Appy1.module_globals w in
  TwoFormulas.rate_returned (Appy1.calculate_pay g name week)
    = rate_by_table (Appy1.custom_rates g) (Appy1.default_rate g) name
  /\ Streamlined.rate (Streamlined.compute_pay name daily_data)
    = rate_by_table Streamlined.custom_rates Streamlined.default_rate name.
Proof.
  cbn zeta. split.
  - destruct (TwoFormulas.calculate_pay_returns (Appy1.module_globals w) name week)
      as (_ & _ & ->).
    unfold Appy1.resolve_rate.
    apply get_is_rate_by_table, build_custom_rates_positive.
  - unfold Streamlined.compute_pay. cbn [Streamlined.rate].
    apply get_is_rate_by_table, streamlined_rates_positive.
Qed.

(** What the caption of the sidebar says: a name left at zero, and not
    entered as the new name, is paid the default rate. *)
Lemma zero_input_gives_default (w : Appy1.sidebar) (name : string) :
  Appy1.rate_input w name == 0 ->
  Appy1.new_name w <> name ->
  Appy1.resolve_rate (Appy1.module_globals w) name = Appy1.default_rate_input w.
Proof.
  intros Hzero Hnew. unfold Appy1.resolve_rate. cbn [Appy1.module_globals Appy1.custom_rates Appy1.default_rate].
  assert (Hnone : Appy1.build_custom_rates w !! name = None); [|rewrite Hnone; reflexivity].
  unfold Appy1.build_custom_rates, Appy1.add_new_name.
  assert (Hloop : forall names rates, rates !! name = None ->
            fold_left (Appy1.prepop_step w) names rates !! name = None).
  { induction names as [|n names IH]; intros rates Hr; simpl; [exact Hr|].
    apply IH. unfold Appy1.prepop_step.
    destruct (Qlt_le_dec 0 (Appy1.rate_input w n)) as [Hpos|_]; [|exact Hr].
    destruct (decide (n = name)) as [->|Hne]; [lra|].
    rewrite lookup_insert_ne; assumption. }
  specialize (Hloop Appy1.prepop_names ∅ (lookup_empty _)).
  destruct (negb (Py.is_empty (Appy1.new_name w))); [|exact Hloop].
  destruct (Qlt_le_dec 0 _); [|exact Hloop].
  rewrite lookup_insert_ne; assumption.
Qed.

(** The rate in the row [appy1.py] returns is resolved for the name found
    in the document, before the file name stands in for a missing one. *)
Lemma rate_of_extraction (w : Appy1.sidebar) (now : Py.datetime) (doc : document)
    (r : Appy1.result) :
  let g := Appy1.module_globals w in
  Appy1.extract_timesheet_data g now doc = Some r ->
  Appy1.Rate r
  = rate_by_table (Appy1.custom_rates g) (Appy1.default_rate g)
      (Appy1.name (Appy1.scan doc)).
Proof.
  cbn zeta. unfold Appy1.extract_timesheet_data, Appy1.calculate_pay.
  destruct (Appy1.unrounded_pay _ _ _) as [t p].
  destruct (Appy1.collect_dates (all_rows doc)); [|discriminate].
  intros [= <-]. cbn [Appy1.Rate]. unfold Appy1.resolve_rate.
  apply get_is_rate_by_table, build_custom_rates_positive.
Qed.

End RateResolution.

(** ** Negative hours *)

Module NegativeHours.

Section Appy1Week.
Import Appy1 Appy1Pay.

Variable g : globals.

Lemma total_of_snoc (l : list day_entry) (d : day_entry) :
  total_of (l ++ [d]) == total_of l + hours d.
Proof.
  unfold total_of. rewrite map_app, sum_app. cbn [map].
  rewrite sum_cons. unfold Py.sum at 2. simpl. lra.
Qed.

Lemma weighted_of_snoc (l : list day_entry) (d : day_entry) :
  weighted_of g (l ++ [d])
  == weighted_of g l + hours d * day_multiplier g (weekday d).
Proof.
  unfold weighted_of. rewrite map_app, sum_app. cbn [map].
  rewrite sum_cons. unfold Py.sum at 2. simpl. lra.
Qed.

Lemma day_multiplier_positive (weekday : string) :
  0 < saturday_multiplier g -> 0 < sunday_multiplier g ->
  0 < day_multiplier g weekday.
Proof.
  intros Hsat Hsun. unfold day_multiplier.
  destruct (String.eqb weekday "Saturday"); [exact Hsat|].
  destruct (String.eqb weekday "Sunday"); [exact Hsun | lra].
Qed.

(** Fewer hours never earn a larger overtime increment. *)
Lemma excess_pay_mono (rate t t' : Q) :
  0 <= rate -> 1 <= overtime_multiplier g -> t' <= t ->
  excess_pay g rate t' <= excess_pay g rate t.
Proof.
  intros Hrate Hot Ht. unfold excess_pay.
  set (thr := inject_Z (overtime_threshold g)).
  assert (Hk : 0 <= rate * (overtime_multiplier g - 1)).
  { apply Qmult_le_0_compat; lra. }
  set (k := rate * (overtime_multiplier g - 1)) in *.
  destruct (Qlt_le_dec thr t') as [L'|L'], (Qlt_le_dec thr t) as [L|L]; try lra.
  - assert (E : forall x, (x - thr) * rate * (overtime_multiplier g - 1) == (x - thr) * k)
      by (intros x; unfold k; ring).
    rewrite !E. apply Qmult_le_compat_r; lra.
  - assert (E : (t - thr) * rate * (overtime_multiplier g - 1) == (t - thr) * k)
      by (unfold k; ring).
    rewrite E. apply Qmult_le_0_compat; lra.
Qed.

(** A record with negative hours lowers the total by its hours and lowers
    the pay. *)
Lemma negative_record_lowers_pay (rate : Q) (week : list day_entry) (d : day_entry) :
  0 < rate -> 0 < saturday_multiplier g -> 0 < sunday_multiplier g ->
  1 <= overtime_multiplier g ->
  hours d < 0 ->
  fst (unrounded_pay g rate (week ++ [d])) == fst (unrounded_pay g rate week) + hours d
  /\ snd (unrounded_pay g rate (week ++ [d])) < snd (unrounded_pay g rate week).
Proof.
  intros Hrate Hsat Hsun Hot Hneg.
  destruct (unrounded_pay_closed g rate (week ++ [d])) as [Et Ep].
  destruct (unrounded_pay_closed g rate week) as [Et0 Ep0].
  pose proof (total_of_snoc week d) as T.
  split.
  - rewrite Et, Et0. exact T.
  - rewrite Ep, Ep0, weighted_of_snoc.
    pose proof (excess_pay_mono rate (total_of week) (total_of (week ++ [d]))) as M.
    assert (Hm : hours d * day_multiplier g (weekday d) < 0).
    { pose proof (day_multiplier_positive (weekday d) Hsat Hsun) as Hpos. nra. }
    assert (Hrm : rate * (hours d * day_multiplier g (weekday d)) < 0) by nra.
    assert (M' : excess_pay g rate (total_of (week ++ [d])) <= excess_pay g rate (total_of week)).
    { apply M; lra. }
    lra.
Qed.

End Appy1Week.

Section StreamlinedWeek.
Import Streamlined StreamlinedPay.

Lemma sum_hours_snoc (P : day_entry -> bool) (l : list day_entry) (d : day_entry) :
  sum_hours P (l ++ [d]) == sum_hours P l + (if P d then hours d else 0).
Proof.
  induction l as [|e l IH].
  - cbn [app]. rewrite sum_hours_cons, !sum_hours_nil. lra.
  - cbn [app]. rewrite !sum_hours_cons, IH. lra.
Qed.

Lemma max_zero_mono (a b : Q) : a <= b -> Py.max a 0 <= Py.max b 0.
Proof.
  intros H.
  destruct (max_zero_cases a) as [[Ha ->]|[Ha ->]],
           (max_zero_cases b) as [[Hb ->]|[Hb ->]]; lra.
Qed.

Lemma rate_positive (name : string) (l : list day_entry) :
  0 < rate (compute_pay name l).
Proof.
  unfold compute_pay. cbn [rate].
  destruct (custom_rates !! name) as [r|] eqn:E; simpl.
  - exact (RateResolution.streamlined_rates_positive name r E).
  - reflexivity.
Qed.

(** The total pay in closed form. *)
Lemma total_pay_closed (name : string) (l : list day_entry) :
  let v := compute_pay name l in
  total_pay v
  == rate v * (other_hours l + saturday_hours l * (3 # 2) + sunday_hours l * (7 # 4)
               + over_50 v * (1 # 2)).
Proof.
  cbn zeta. unfold compute_pay. cbn [total_pay rate over_50].
  rewrite OT_RULE_Saturday, OT_RULE_Sunday, OT_RULE_Over50.
  pose proof (total_split l) as T. pose proof (weekend_split l) as W.
  set (r := default default_rate (custom_rates !! name)).
  set (o := Py.max (sum_hours (fun _ => true) l - 50) 0).
  rewrite T. unfold saturday_hours, sunday_hours in *. rewrite W.
  field.
Qed.

(** A record with negative hours lowers the total by its hours and lowers
    the pay. *)
Lemma negative_entry_lowers_pay (name : string) (l : list day_entry) (d : day_entry) :
  hours d < 0 ->
  total_hours (compute_pay name (l ++ [d]))
    == total_hours (compute_pay name l) + hours d
  /\ total_pay (compute_pay name (l ++ [d])) < total_pay (compute_pay name l).
Proof.
  intros Hneg.
  assert (Ht : sum_hours (fun _ => true) (l ++ [d])
               == sum_hours (fun _ => true) l + hours d).
  { rewrite sum_hours_snoc. reflexivity. }
  split; [exact Ht|].
  pose proof (total_pay_closed name (l ++ [d])) as E1.
  pose proof (total_pay_closed name l) as E0.
  cbn zeta in E1, E0. rewrite E1, E0. clear E1 E0.
  pose proof (rate_positive name l) as Hr.
  assert (Er : rate (compute_pay name (l ++ [d])) = rate (compute_pay name l))
    by reflexivity.
  rewrite Er.
  assert (Ho : over_50 (compute_pay name (l ++ [d])) <= over_50 (compute_pay name l)).
  { unfold compute_pay. cbn [over_50]. apply max_zero_mono. lra. }
  unfold other_hours, saturday_hours, sunday_hours.
  pose proof (sum_hours_snoc (fun d => negb (is_weekend d)) l d) as So.
  pose proof (sum_hours_snoc is_saturday l d) as Ss.
  pose proof (sum_hours_snoc is_sunday l d) as Su.
  set (r := rate (compute_pay name l)) in *.
  set (o1 := over_50 (compute_pay name (l ++ [d]))) in *.
  set (o0 := over_50 (compute_pay name l)) in *.
  assert (Hw : (if negb (is_weekend d) then hours d else 0)
               + (if is_saturday d then hours d else 0) * (3 # 2)
               + (if is_sunday d then hours d else 0) * (7 # 4) < 0).
  { unfold is_weekend. destruct (is_saturday d) eqn:Esat.
    - rewrite (saturday_not_sunday d Esat). simpl. lra.
    - destruct (is_sunday d); simpl; lra. }
  rewrite So, Ss, Su.
  apply Qlt_minus_iff.
  match goal with |- 0 < ?e =>
    setoid_replace e with
      (r * (- ((if negb (is_weekend d) then hours d else 0)
               + (if is_saturday d then hours d else 0) * (3 # 2)
               + (if is_sunday d then hours d else 0) * (7 # 4))
            + (o0 - o1) * (1 # 2))) using relation Qeq by ring
  end.
  apply Qmult_lt_0_compat; lra.
Qed.

End StreamlinedWeek.

End NegativeHours.

(** ** The shift record of a row *)

Module ShiftRows.

(** The three cells a row is read from, stripped. *)
Definition date_text (cells : list string) : string := Py.strip (nth 0 cells EmptyString).
Definition day_text (cells : list string) : string := Py.strip (nth 1 cells EmptyString).
Definition hours_text (cells : list string) : string := Py.strip (nth 4 cells EmptyString).

(** The placeholder tokens of an hours cell: hyphen, en dash, em dash. *)
Definition placeholders : list string := ["-"; "–"; "—"].

(** What [float] reads is neither empty nor a placeholder. *)
Lemma float_not_placeholder (s : string) (h : Q) :
  Py.float s = Some h -> s <> EmptyString /\ ~ In s placeholders.
Proof.
  intros H. split.
  - intros ->. discriminate.
  - intros [<-|[<-|[<-|[]]]]; discriminate.
Qed.

Lemma not_in_list (s : string) (l : list string) : ~ In s l -> Py.in_list s l = false.
Proof.
  intros H. destruct (Py.in_list s l) eqn:E; [|reflexivity].
  apply in_list_In in E. contradiction.
Qed.

Lemma at_least_five (cells : list string) :
  (5 <=? List.length cells)%nat = true <-> (5 <= List.length cells)%nat.
Proof. apply Nat.leb_le. Qed.

Section Appy1Row.
Import Appy1.

Lemma appy1_row_accepts (cells : list string) (h : Q) :
  (5 <= List.length cells)%nat ->
  day_text cells <> EmptyString ->
  Py.float (hours_text cells) = Some h ->
  row_record cells = [{| weekday := day_text cells; hours := h |}].
Proof.
  intros Hlen Hday Hf. unfold row_record.
  apply at_least_five in Hlen. rewrite Hlen.
  fold (hours_text cells). fold (day_text cells).
  destruct (float_not_placeholder _ _ Hf) as [Hne Hph].
  assert (Hin : Py.in_list (hours_text cells) skipped_hours = false)
    by (apply not_in_list; exact Hph).
  apply is_empty_false in Hne, Hday.
  rewrite Hne, Hday, Hin, Hf. reflexivity.
Qed.

Lemma appy1_row_record_inv (cells : list string) (e : day_entry) :
  In e (row_record cells) ->
  (5 <= List.length cells)%nat
  /\ hours_text cells <> EmptyString
  /\ ~ In (hours_text cells) placeholders
  /\ day_text cells <> EmptyString
  /\ Py.float (hours_text cells) = Some (hours e)
  /\ row_record cells = [e].
Proof.
  unfold row_record. fold (hours_text cells). fold (day_text cells).
  destruct (5 <=? List.length cells)%nat eqn:Hlen; [|intros []].
  destruct (Py.is_empty (hours_text cells)) eqn:He; [intros []|].
  destruct (Py.in_list (hours_text cells) skipped_hours) eqn:Hin; [intros []|].
  destruct (Py.is_empty (day_text cells)) eqn:Hd; [intros []|]. cbn [negb andb].
  destruct (Py.float (hours_text cells)) as [h|] eqn:Hf; [|intros []].
  intros [<-|[]]. cbn [hours].
  apply at_least_five in Hlen. apply is_empty_false in He, Hd.
  repeat split; try assumption.
  intros Hph. apply in_list_In in Hph.
  unfold skipped_hours in Hin. unfold placeholders in Hph. congruence.
Qed.

Lemma appy1_row_skipped (cells : list string) :
  hours_text cells = EmptyString \/ In (hours_text cells) placeholders
  \/ Py.float (hours_text cells) = None ->
  row_record cells = [].
Proof.
  intros H. destruct (row_record cells) as [|e l] eqn:E; [reflexivity|].
  destruct (appy1_row_record_inv cells e) as (_ & Hne & Hph & _ & Hf & _).
  { rewrite E. left. reflexivity. }
  destruct H as [H|[H|H]]; [contradiction | contradiction | congruence].
Qed.

End Appy1Row.

Section StreamlinedRow.
Import Streamlined.

Lemma streamlined_row_accepts (cells : list string) (t : Py.datetime) (h : Q) :
  (5 <= List.length cells)%nat ->
  Py.match_date_pattern (date_text cells) = true ->
  Py.strptime_dmy (date_text cells) = Some t ->
  Py.float (hours_text cells) = Some h ->
  row_record cells = ([t], [{| date := t; weekday := day_text cells; hours := h |}]).
Proof.
  intros Hlen Hpat Hdate Hf. unfold row_record.
  apply at_least_five in Hlen. rewrite Hlen.
  fold (hours_text cells). fold (day_text cells). fold (date_text cells).
  rewrite Hpat, Hdate.
  destruct (float_not_placeholder _ _ Hf) as [Hne Hph].
  assert (Hin : Py.in_list (hours_text cells) skipped_hours = false).
  { apply not_in_list. intros [E|[E|[E|[]]]].
    - apply Hph. left. exact E.
    - apply Hph. right. left. exact E.
    - apply Hne. symmetry. exact E. }
  apply is_empty_false in Hne. rewrite Hne, Hin, Hf. reflexivity.
Qed.

Lemma streamlined_row_record_inv (cells : list string) (e : day_entry) :
  In e (snd (row_record cells)) ->
  (5 <= List.length cells)%nat
  /\ Py.match_date_pattern (date_text cells) = true
  /\ Py.strptime_dmy (date_text cells) = Some (date e)
  /\ hours_text cells <> EmptyString
  /\ ~ In (hours_text cells) placeholders
  /\ Py.float (hours_text cells) = Some (hours e)
  /\ snd (row_record cells) = [e].
Proof.
  unfold row_record.
  fold (hours_text cells). fold (day_text cells). fold (date_text cells).
  destruct (5 <=? List.length cells)%nat eqn:Hlen; [|intros []].
  destruct (Py.match_date_pattern (date_text cells)) eqn:Hpat; [|intros []].
  destruct (Py.strptime_dmy (date_text cells)) as [t|] eqn:Hdate; [|intros []].
  destruct (Py.is_empty (hours_text cells)) eqn:He; [intros []|].
  destruct (Py.in_list (hours_text cells) skipped_hours) eqn:Hin; [intros []|].
  cbn [negb andb].
  destruct (Py.float (hours_text cells)) as [h|] eqn:Hf; [|intros []].
  intros [<-|[]]. cbn [hours date snd].
  apply at_least_five in Hlen. apply is_empty_false in He.
  repeat split; try assumption.
  exact (proj2 (float_not_placeholder _ _ Hf)).
Qed.

Lemma streamlined_row_skipped (cells : list string) :
  hours_text cells = EmptyString \/ In (hours_text cells) placeholders
  \/ Py.float (hours_text cells) = None ->
  snd (row_record cells) = [].
Proof.
  intros H. destruct (snd (row_record cells)) as [|e l] eqn:E; [reflexivity|].
  destruct (streamlined_row_record_inv cells e) as (_ & _ & _ & Hne & Hph & Hf & _).
  { rewrite E. left. reflexivity. }
  destruct H as [H|[H|H]]; [contradiction | contradiction | congruence].
Qed.

(** A row whose date text is not a date of the calendar adds nothing. *)
Lemma streamlined_row_without_date (cells : list string) :
  Py.strptime_dmy (date_text cells) = None ->
  row_record cells = ([], []).
Proof.
  intros H. unfold row_record. fold (date_text cells). rewrite H.
  destruct (5 <=? List.length cells)%nat; [|reflexivity].
  destruct (Py.match_date_pattern (date_text cells)); reflexivity.
Qed.

End StreamlinedRow.

(** *** The hours as [float] returns them *)














(** What [float] accepts is neither empty nor a placeholder. *)
Lemma float_any_not_placeholder (s : string) (h : Py.float_value) :
  Py.float_any s = Some h -> s <> EmptyString /\ ~ In s placeholders.
Proof.
  intros H. split.
  - intros ->. discriminate.
  - intros [<-|[<-|[<-|[]]]]; discriminate.
Qed.



Section Appy1Entry.
Import Appy1.


Lemma appy1_row_entry_accepts (cells : list string) (h : Py.float_value) :
  (5 <= List.length cells)%nat ->
  day_text cells <> EmptyString ->
  Py.float_any (hours_text cells) = Some h ->
  row_entry cells = [{| entry_weekday := day_text cells; entry_hours := h |}].
Proof.
  intros Hlen Hday Hf. unfold row_entry.
  apply at_least_five in Hlen. rewrite Hlen.
  fold (hours_text cells). fold (day_text cells).
  destruct (float_any_not_placeholder _ _ Hf) as [Hne Hph].
  assert (Hin : Py.in_list (hours_text cells) skipped_hours = false)
    by (apply not_in_list; exact Hph).
  apply is_empty_false in Hne, Hday.
  rewrite Hne, Hday, Hin, Hf. reflexivity.
Qed.



End Appy1Entry.

Section StreamlinedEntry.
Import Streamlined.


Lemma streamlined_row_entry_accepts (cells : list string) (t : Py.datetime)
    (h : Py.float_value) :
  (5 <= List.length cells)%nat ->
  Py.match_date_pattern (date_text cells) = true ->
  Py.strptime_dmy (date_text cells) = Some t ->
  Py.float_any (hours_text cells) = Some h ->
  row_entry cells
  = ([t], [{| entry_date := t; entry_weekday := day_text cells; entry_hours := h |}]).
Proof.
  intros Hlen Hpat Hdate Hf. unfold row_entry.
  apply at_least_five in Hlen. rewrite Hlen.
  fold (hours_text cells). fold (day_text cells). fold (date_text cells).
  rewrite Hpat, Hdate.
  destruct (float_any_not_placeholder _ _ Hf) as [Hne Hph].
  assert (Hin : Py.in_list (hours_text cells) skipped_hours = false).
  { apply not_in_list. intros [E|[E|[E|[]]]].
    - apply Hph. left. exact E.
    - apply Hph. right. left. exact E.
    - apply Hne. symmetry. exact E. }
  apply is_empty_false in Hne. rewrite Hne, Hin, Hf. reflexivity.
Qed.



End StreamlinedEntry.






End ShiftRows.

(** ** Negative hours, from the row to the pay *)

Module NegativeRows.
Import ShiftRows.

(** The sidebar as it opens: the default values of its widgets. *)
Definition default_sidebar : Appy1.sidebar :=
  {| Appy1.default_rate_input := 15.0;
     Appy1.overtime_threshold_input := 50;
     Appy1.saturday_multiplier_input := 1.5;
     Appy1.sunday_multiplier_input := 1.75;
     Appy1.overtime_multiplier_input := 1.25;
     Appy1.rate_input := fun _ => 0.0;
     Appy1.new_name := "" |}.

Definition noon : Py.datetime :=
  {| Py.year := 2024; Py.month := 1; Py.day := 8;
     Py.hour := 12; Py.minute := 0; Py.second := 0 |}.

(** A timesheet whose only day has minus five hours. *)
Definition negative_row : list string :=
  ["03.01.2024"; "Wednesday"; "08:00"; "03:00"; "-5"].
Definition negative_sheet : document :=
  {| file_name := "sheet.docx"; paragraphs := []; tables := [[negative_row]] |}.

(** [C5], refuted as stated: a day of minus five hours is not rejected.
    Both processors return a row for the timesheet, with a total of -5
    hours and a pay of -75.00 at the default rate of 15. *)
Lemma C5_negative_hours_paid :
  Py.float (hours_text negative_row) = Some (-5 # 1)
  /\ (exists r,
        Appy1.extract_timesheet_data (Appy1.module_globals default_sidebar) noon
          negative_sheet = Some r
        /\ Appy1.Total_Hours r == -5 /\ Appy1.Calculated_Pay r == -75)
  /\ Streamlined.Total_Hours (Streamlined.extract_timesheet_data negative_sheet) == -5
  /\ Streamlined.Calculated_Pay (Streamlined.extract_timesheet_data negative_sheet) == -75.
Proof.
  split; [reflexivity | split; [|split]].
  - eexists. split; [vm_compute; reflexivity | split; vm_compute; reflexivity].
  - vm_compute. reflexivity.
  - vm_compute. reflexivity.
Qed.

(** [C5], amended: a shift record whose hours are negative is not rejected
    and no validation error exists.  In both processors a row whose hours
    cell reads as a negative number gives a record with those hours as
    read, not clamped; added to any week, the record lowers the total hours
    by its hours and, the rate and the multipliers being those a sidebar
    allows, lowers the pay. *)
Theorem C5_negative_hours_accepted (g : Appy1.globals) (name : string)
    (cells : list string) (h : Q) (t : Py.datetime)
    (week : list Appy1.day_entry) (daily_data : list Streamlined.day_entry) :
  (5 <= List.length cells)%nat ->
  Py.float (hours_text cells) = Some h ->
  h < 0 ->
  (day_text cells <> EmptyString ->
     Appy1.row_record cells
       = [{| Appy1.weekday := day_text cells; Appy1.hours := h |}]
     /\ (0 < Appy1.resolve_rate g name ->
         0 < Appy1.saturday_multiplier g -> 0 < Appy1.sunday_multiplier g ->
         1 <= Appy1.overtime_multiplier g ->
         let rate := Appy1.resolve_rate g name in
         fst (Appy1.unrounded_pay g rate (week ++ Appy1.row_record cells))
           == fst (Appy1.unrounded_pay g rate week) + h
         /\ snd (Appy1.unrounded_pay g rate (week ++ Appy1.row_record cells))
            < snd (Appy1.unrounded_pay g rate week)))
  /\ (Py.match_date_pattern (date_text cells) = true ->
      Py.strptime_dmy (date_text cells) = Some t ->
      let entries := snd (Streamlined.row_record cells) in
      entries = [{| Streamlined.date := t; Streamlined.weekday := day_text cells;
                    Streamlined.hours := h |}]
      /\ Streamlined.total_hours (Streamlined.compute_pay name (daily_data ++ entries))
         == Streamlined.total_hours (Streamlined.compute_pay name daily_data) + h
      /\ Streamlined.total_pay (Streamlined.compute_pay name (daily_data ++ entries))
         < Streamlined.total_pay (Streamlined.compute_pay name daily_data)).
Proof.
  intros Hlen Hf Hneg. split.
  - intros Hday. rewrite (appy1_row_accepts cells h Hlen Hday Hf).
    split; [reflexivity|]. intros Hrate Hsat Hsun Hot. cbn zeta.
    apply (NegativeHours.negative_record_lowers_pay g (Appy1.resolve_rate g name) week
             {| Appy1.weekday := day_text cells; Appy1.hours := h |});
      assumption.
  - intros Hpat Hdate. cbn zeta.
    rewrite (streamlined_row_accepts cells t h Hlen Hpat Hdate Hf). cbn [snd].
    split; [reflexivity|].
    apply (NegativeHours.negative_entry_lowers_pay name daily_data
             {| Streamlined.date := t; Streamlined.weekday := day_text cells;
                Streamlined.hours := h |}).
    exact Hneg.
Qed.

Lemma C5_negative_hours_accepted_witness :
  Appy1.row_record negative_row
    = [{| Appy1.weekday := "Wednesday"; Appy1.hours := -5 # 1 |}]
  /\ snd (Appy1.unrounded_pay (Appy1.module_globals default_sidebar) 15.0
            ([] ++ Appy1.row_record negative_row))
     < snd (Appy1.unrounded_pay (Appy1.module_globals default_sidebar) 15.0 []).
Proof.
  destruct (C5_negative_hours_accepted (Appy1.module_globals default_sidebar) ""
              negative_row (-5 # 1) noon [] []) as [[Hrow Hpay] _].
  - vm_compute. lia.
  - reflexivity.
  - reflexivity.
  - discriminate.
  - split; [exact Hrow|].
    apply Hpay; vm_compute; solve [reflexivity | discriminate].
Defined.

End NegativeRows.

(** ** The date of a row *)

Module DateRows.
Import ShiftRows.

(** A row dated the 31st of February, with eight hours on it. *)
Definition february_row : list string :=
  ["31.02.2024"; "Monday"; "09:00"; "17:00"; "8"].
Definition february_sheet : document :=
  {| file_name := "sheet.docx"; paragraphs := []; tables := [[february_row]] |}.

(** [C9], refuted as stated: in [appy1.py] the row dated 31.02.2024, which
    has the pattern of a date and is no date of the calendar, is not passed
    over: it gives a shift record of eight hours, which are paid. *)
Lemma C9_undated_row_recorded :
  Py.match_date_pattern (date_text february_row) = true
  /\ Py.strptime_dmy (date_text february_row) = None
  /\ Appy1.row_record february_row
     = [{| Appy1.weekday := "Monday"; Appy1.hours := 8 |}]
  /\ exists r,
       Appy1.extract_timesheet_data
         (Appy1.module_globals NegativeRows.default_sidebar) NegativeRows.noon
         february_sheet = Some r
       /\ Appy1.Total_Hours r == 8 /\ Appy1.Date_Range r = EmptyString.
Proof.
  repeat split.
  eexists. split; [vm_compute; reflexivity | split; vm_compute; reflexivity].
Qed.

(** In [appy1.py] the date cell plays no part in the record of a row. *)
Lemma appy1_record_ignores_date (c c' : string) (rest : list string) :
  Appy1.row_record (c :: rest) = Appy1.row_record (c' :: rest).
Proof. reflexivity. Qed.

(** A date that [strptime] refuses is left out of the list of dates, and
    nothing is raised. *)
Lemma appy1_refused_date (cells : list string) :
  cells <> [] ->
  Py.strptime_dmy (date_text cells) = None ->
  Appy1.row_dates cells = Some [].
Proof.
  intros Hne H. destruct cells as [|c cells]; [congruence|].
  unfold Appy1.row_dates. unfold date_text in H. cbn [nth] in H. rewrite H.
  destruct (Py.match_date_pattern (Py.strip c)); reflexivity.
Qed.

(** [C9], amended.  In the streamlined processor a table row gives a shift
    record only when it has at least five cells and the text of its first
    cell starts with two digits, a point, two digits, a point and four
    digits and is read by [strptime] as a day, month and year of the
    calendar; a row whose date text is not such a date (31.02.2024) adds
    nothing and raises nothing, and every row adds its records whatever
    the other rows are.  In [appy1.py] a row gives a shift record only when
    it has at least five cells, but the date text plays no part in it: a
    row with readable hours gives its record whatever its first cell holds,
    and a date that is no date of the calendar is only left out of the
    date range, without an error. *)
Theorem C9_date_of_a_row (cells : list string) (doc : document) :
  (forall e, In e (snd (Streamlined.row_record cells)) ->
     (5 <= List.length cells)%nat
     /\ Py.match_date_pattern (date_text cells) = true
     /\ Py.strptime_dmy (date_text cells) = Some (Streamlined.date e))
  /\ (Py.strptime_dmy (date_text cells) = None ->
      Streamlined.row_record cells = ([], []))
  /\ Streamlined.daily_data (fst (Streamlined.scan doc))
     = List.concat (map (fun cells => snd (Streamlined.row_record cells)) (all_rows doc))
  /\ (forall e, In e (Appy1.row_record cells) -> (5 <= List.length cells)%nat)
  /\ (forall c, Appy1.row_record cells = Appy1.row_record (c :: tl cells))
  /\ (cells <> [] -> Py.strptime_dmy (date_text cells) = None ->
      Appy1.row_dates cells = Some [])
  /\ Appy1.daily_data (Appy1.scan doc) = List.concat (map Appy1.row_record (all_rows doc)).
Proof.
  repeat apply conj.
  - intros e H.
    destruct (streamlined_row_record_inv cells e H) as (? & ? & ? & _).
    repeat split; assumption.
  - apply streamlined_row_without_date.
  - unfold Streamlined.scan. cbn [fst].
    destruct (StreamlinedRows.records_rows (all_rows doc) Streamlined.initial_state)
      as [-> _].
    reflexivity.
  - intros e H. destruct (appy1_row_record_inv cells e H) as (? & _). assumption.
  - intros c. destruct cells as [|c0 rest]; [reflexivity|].
    apply appy1_record_ignores_date.
  - apply appy1_refused_date.
  - apply Appy1Rows.records_scan.
Qed.

Lemma C9_date_of_a_row_witness :
  Streamlined.row_record february_row = ([], [])
  /\ Appy1.row_dates february_row = Some [].
Proof.
  destruct (C9_date_of_a_row february_row february_sheet)
    as (_ & Hskip & _ & _ & _ & Hdates & _).
  split; [apply Hskip; reflexivity | apply Hdates; [discriminate | reflexivity]].
Defined.

End DateRows.

(** ** The name of the employee *)

Module NameResolution.

(** A timesheet signed before the name in capitals. *)
Definition signed_first : document :=
  {| file_name := "sheet.docx";
     paragraphs := ["Print Name: Bob Jones"; "JOHN SMITH"];
     tables := [] |}.

(** [C6], refuted as stated: the document has the line JOHN SMITH, which
    passes the name rule, and a Print Name line with another value, and
    both processors return the printed name. *)
Lemma C6_printed_name_wins :
  Appy1.is_name_line "JOHN SMITH" = true
  /\ Py.title "JOHN SMITH" = "John Smith"%string
  /\ Appy1.printed_name "Print Name: Bob Jones" = Some "Bob Jones"%string
  /\ (exists r,
        Appy1.extract_timesheet_data
          (Appy1.module_globals NegativeRows.default_sidebar) NegativeRows.noon
          signed_first = Some r
        /\ Appy1.Name r = "Bob Jones"%string)
  /\ Streamlined.Name (Streamlined.extract_timesheet_data signed_first)
     = "Bob Jones"%string.
Proof.
  repeat split.
  eexists. split; [vm_compute; reflexivity | reflexivity].
Qed.

Section Appy1Names.
Import Appy1 Appy1Rows.

(** The name after the scan, when a paragraph gives one. *)
Lemma scanned_name (doc : document) (pre post : list string) (p : string) :
  paragraphs doc = pre ++ p :: post ->
  Forall (fun q => paragraph_name q = EmptyString) pre ->
  paragraph_name p <> EmptyString ->
  name (scan doc) = paragraph_name p.
Proof.
  intros Hdoc Hpre Hp. unfold scan. rewrite Hdoc.
  pose proof (name_first_paragraph pre post p initial_state eq_refl Hpre Hp) as E.
  rewrite name_kept_by_rows; rewrite E; [reflexivity | exact Hp].
Qed.

Lemma final_name_kept (n : string) (doc : document) :
  n <> EmptyString -> final_name n doc = n.
Proof.
  intros H. unfold final_name. apply is_empty_false in H. rewrite H. reflexivity.
Qed.

Lemma paragraph_name_of_name_line (p : string) :
  is_name_line (Py.strip p) = true ->
  paragraph_name p = Py.title (Py.strip p) /\ paragraph_name p <> EmptyString.
Proof.
  intros H. unfold paragraph_name. rewrite H. split; [reflexivity|].
  apply is_empty_false, is_name_line_title, H.
Qed.

Lemma paragraph_name_of_print_name (p v : string) :
  is_name_line (Py.strip p) = false ->
  Py.contains "print name" (Py.lower (Py.strip p)) = true ->
  printed_name (Py.strip p) = Some v ->
  paragraph_name p = v.
Proof.
  intros H1 H2 H3. unfold paragraph_name. rewrite H1, H2, H3. reflexivity.
Qed.

End Appy1Names.

(** [C6], amended.  In the streamlined processor the name rule is applied
    to the cells of the tables only: the first cell that passes it gives
    the name, title-cased, whatever the Print Name paragraphs say, and the
    printed name is used only when no cell passes the rule.  In [appy1.py]
    the first paragraph that gives a name decides, the name rule being
    tried before the Print Name rule on each paragraph: a name line wins
    over the Print Name paragraphs that follow it, and a Print Name
    paragraph wins over the name lines that follow it, in the paragraphs
    and in the tables. *)
Theorem C6_name_precedence (g : Appy1.globals) (now : Py.datetime) (doc : document)
    (r : Appy1.result) (pre post : list string) (p : string) :
  Appy1.extract_timesheet_data g now doc = Some r ->
  paragraphs doc = pre ++ p :: post ->
  Forall (fun q => Appy1Rows.paragraph_name q = EmptyString) pre ->
  (Appy1.is_name_line (Py.strip p) = true ->
     Appy1.Name r = Py.title (Py.strip p))
  /\ (forall v,
        Appy1.is_name_line (Py.strip p) = false ->
        Py.contains "print name" (Py.lower (Py.strip p)) = true ->
        Appy1.printed_name (Py.strip p) = Some v -> v <> EmptyString ->
        Appy1.Name r = v)
  /\ Streamlined.Name (Streamlined.extract_timesheet_data doc)
     = match find StreamlinedRows.is_name_cell (List.concat (all_rows doc)) with
       | Some c => Py.title (Py.strip c)
       | None => StreamlinedRows.printed_name_of doc
       end.
Proof.
  intros Hr Hdoc Hpre.
  pose proof (Appy1Rows.returned_name g now doc r Hr) as En.
  split; [|split].
  - intros Hline.
    destruct (paragraph_name_of_name_line p Hline) as [E Hne].
    rewrite En, (scanned_name doc pre post p Hdoc Hpre Hne), <- E.
    apply final_name_kept, Hne.
  - intros v H1 H2 H3 Hv.
    pose proof (paragraph_name_of_print_name p v H1 H2 H3) as E.
    assert (Hne : Appy1Rows.paragraph_name p <> EmptyString) by (rewrite E; exact Hv).
    rewrite En, (scanned_name doc pre post p Hdoc Hpre Hne), E.
    apply final_name_kept, Hv.
  - apply StreamlinedRows.extracted_name.
Qed.

Lemma C6_name_precedence_witness :
  exists r,
    Appy1.extract_timesheet_data
      (Appy1.module_globals NegativeRows.default_sidebar) NegativeRows.noon
      signed_first = Some r
    /\ Appy1.Name r = "Bob Jones"%string.
Proof.
  eexists. split; [vm_compute; reflexivity|].
  refine (proj1 (proj2 (C6_name_precedence
            (Appy1.module_globals NegativeRows.default_sidebar) NegativeRows.noon
            signed_first _ [] ["JOHN SMITH"%string] "Print Name: Bob Jones"
            eq_refl eq_refl (List.Forall_nil _))) "Bob Jones"%string _ _ _ _);
    solve [reflexivity | discriminate].
Defined.

(** A timesheet that names nobody. *)
Definition anonymous_sheet : document :=
  {| file_name := "week 12.docx";
     paragraphs := ["Weekly timesheet"];
     tables := [[ ["01.01.2024"; "Monday"; "09:00"; "17:00"; "8"] ]] |}.

(** [C7], refuted as stated: the streamlined processor returns an empty
    name for a document in which neither rule finds one. *)
Lemma C7_streamlined_name_empty :
  Streamlined.Name (Streamlined.extract_timesheet_data anonymous_sheet) = EmptyString.
Proof. reflexivity. Qed.

Section Appy1Fallback.
Import Appy1 Appy1Rows.

(** No line of the cell is a name line. *)
Definition no_name_line (cell_text : string) : Prop :=
  existsb is_name_line (Py.splitlines (Py.strip cell_text)) = false.

Lemma name_of_lines_none (lines : list string) :
  existsb is_name_line lines = false -> name_of_lines EmptyString lines = EmptyString.
Proof.
  unfold name_of_lines. induction lines as [|l lines IH]; simpl; [reflexivity|].
  intros H. apply orb_false_elim in H as [Hl H]. rewrite Hl. apply IH, H.
Qed.

Lemma no_name_from_cells (cells : list string) (st : scan_state) :
  name st = EmptyString -> Forall no_name_line cells ->
  name (fold_left cell_step cells st) = EmptyString.
Proof.
  intros H F. revert st H. induction F as [|c cells Hc _ IH]; intros st H; simpl.
  - exact H.
  - apply IH. unfold cell_step. cbn [name]. rewrite H. cbn [Py.is_empty].
    apply name_of_lines_none, Hc.
Qed.

Lemma no_name_from_rows (rows : list (list string)) (st : scan_state) :
  name st = EmptyString -> Forall no_name_line (List.concat rows) ->
  name (fold_left row_step rows st) = EmptyString.
Proof.
  revert st. induction rows as [|cells rows IH]; intros st H F; simpl.
  - exact H.
  - simpl in F. apply Forall_app in F as [Fc Fr].
    apply IH; [|exact Fr]. unfold row_step. cbn [name].
    apply no_name_from_cells; assumption.
Qed.

(** Neither rule finds a name: the scan ends without one. *)
Lemma scan_without_name (doc : document) :
  Forall (fun q => paragraph_name q = EmptyString) (paragraphs doc) ->
  Forall no_name_line (List.concat (all_rows doc)) ->
  name (scan doc) = EmptyString.
Proof.
  intros Hp Hc. unfold scan.
  apply no_name_from_rows; [|exact Hc].
  apply no_name_from_paragraphs; [reflexivity | exact Hp].
Qed.

End Appy1Fallback.

(** [C7], amended.  In [appy1.py] the name returned for a document whose
    file name is not empty is never empty, and when neither rule finds a
    name, in the paragraphs or in the cells, it is the stem of the file
    name.  The streamlined processor has no such fallback: the name it
    returns is empty exactly when no cell passes the name rule and no
    printed name was found. *)
Theorem C7_name_fallback (g : Appy1.globals) (now : Py.datetime) (doc : document)
    (r : Appy1.result) :
  Appy1.extract_timesheet_data g now doc = Some r ->
  file_name doc <> EmptyString ->
  Appy1.Name r <> EmptyString
  /\ (Forall (fun q => Appy1Rows.paragraph_name q = EmptyString) (paragraphs doc) ->
      Forall no_name_line (List.concat (all_rows doc)) ->
      Appy1.Name r = Py.stem (file_name doc))
  /\ (Streamlined.Name (Streamlined.extract_timesheet_data doc) = EmptyString
      <-> find StreamlinedRows.is_name_cell (List.concat (all_rows doc)) = None
          /\ StreamlinedRows.printed_name_of doc = EmptyString).
Proof.
  intros Hr Hfile. rewrite (Appy1Rows.returned_name g now doc r Hr).
  split; [|split].
  - unfold Appy1.final_name.
    destruct (Py.is_empty (Appy1.name (Appy1.scan doc))) eqn:E.
    + apply stem_nonempty, Hfile.
    + apply is_empty_false, E.
  - intros Hp Hc. rewrite (scan_without_name doc Hp Hc). reflexivity.
  - rewrite StreamlinedRows.extracted_name.
    destruct (find StreamlinedRows.is_name_cell (List.concat (all_rows doc)))
      as [c|] eqn:F.
    + apply find_some in F as [_ F].
      apply StreamlinedRows.is_name_cell_title, is_empty_false in F.
      split; [intros E; contradiction | intros [E _]; discriminate].
    + split; [intros E; split; [reflexivity | exact E] | intros [_ E]; exact E].
Qed.

(** The row [appy1.py] returns for the timesheet that names nobody. *)
Definition anonymous_row : Appy1.result :=
  {| Appy1.Name := "week 12";
     Appy1.Client := "";
     Appy1.Site_Address := "";
     Appy1.Total_Hours := 8.00;
     Appy1.Rate := 15.0;
     Appy1.Calculated_Pay := 120.00;
     Appy1.Printed_Name := "week 12";
     Appy1.Date_Range := "01.01.2024–01.01.2024";
     Appy1.File_Name := "week 12.docx";
     Appy1.Extracted_On := "2024-01-08 12:00:00" |}.

Lemma anonymous_row_extracted :
  Appy1.extract_timesheet_data
    (Appy1.module_globals NegativeRows.default_sidebar) NegativeRows.noon
    anonymous_sheet
  = Some anonymous_row.
Proof. vm_compute. reflexivity. Qed.

Lemma C7_name_fallback_witness :
  Appy1.Name anonymous_row <> EmptyString
  /\ Appy1.Name anonymous_row = Py.stem "week 12.docx".
Proof.
  destruct (C7_name_fallback _ _ _ _ anonymous_row_extracted) as (Hne & Hstem & _).
  - discriminate.
  - split; [exact Hne|]. apply Hstem; repeat constructor.
Defined.

End NameResolution.

(** ** What the results depend on *)

Module Purity.

Definition later : Py.datetime :=
  {| Py.year := 2024; Py.month := 1; Py.day := 8;
     Py.hour := 12; Py.minute := 0; Py.second := 1 |}.

(** [C10], refuted as stated: two runs of [appy1.py] on the same document
    a second apart return rows that differ, in the field Extracted On. *)
Lemma C10_runs_differ :
  Appy1.extract_timesheet_data
    (Appy1.module_globals NegativeRows.default_sidebar) NegativeRows.noon
    NameResolution.anonymous_sheet
  <> Appy1.extract_timesheet_data
       (Appy1.module_globals NegativeRows.default_sidebar) later
       NameResolution.anonymous_sheet.
Proof. vm_compute. discriminate. Qed.

(** The row without the time of its extraction. *)
Definition without_stamp (r : Appy1.result) : Appy1.result :=
  {| Appy1.Name := Appy1.Name r;
     Appy1.Client := Appy1.Client r;
     Appy1.Site_Address := Appy1.Site_Address r;
     Appy1.Total_Hours := Appy1.Total_Hours r;
     Appy1.Rate := Appy1.Rate r;
     Appy1.Calculated_Pay := Appy1.Calculated_Pay r;
     Appy1.Printed_Name := Appy1.Printed_Name r;
     Appy1.Date_Range := Appy1.Date_Range r;
     Appy1.File_Name := Appy1.File_Name r;
     Appy1.Extracted_On := EmptyString |}.

(** [C10], amended.  The pay calculation is a function of the shifts, the
    rate and the settings: two names with the same rate are paid the same.
    The streamlined extraction is a function of the content of the
    document, its paragraphs and tables.  The extraction of [appy1.py] is
    not a function of the document alone: the field Extracted On is the
    time of the call; every other field, and whether the call raises, is
    the same for two runs on the same document with the same settings. *)
Theorem C10_what_results_depend_on (g : Appy1.globals) (now now' : Py.datetime)
    (doc doc' : document) (name name' : string) (week : list Appy1.day_entry) :
  (Appy1.resolve_rate g name = Appy1.resolve_rate g name' ->
     Appy1.calculate_pay g name week = Appy1.calculate_pay g name' week)
  /\ (paragraphs doc = paragraphs doc' -> tables doc = tables doc' ->
      Streamlined.extract_timesheet_data doc = Streamlined.extract_timesheet_data doc')
  /\ option_map without_stamp (Appy1.extract_timesheet_data g now doc)
     = option_map without_stamp (Appy1.extract_timesheet_data g now' doc)
  /\ (forall r, Appy1.extract_timesheet_data g now doc = Some r ->
        Appy1.Extracted_On r = Py.strftime_stamp now).
Proof.
  repeat apply conj.
  - intros E. unfold Appy1.calculate_pay. rewrite E. reflexivity.
  - intros Ep Et. unfold Streamlined.extract_timesheet_data, Streamlined.scan, all_rows.
    rewrite Ep, Et. reflexivity.
  - unfold Appy1.extract_timesheet_data.
    destruct (Appy1.calculate_pay g _ _) as [[t p] u].
    destruct (Appy1.collect_dates (all_rows doc)); reflexivity.
  - intros r. unfold Appy1.extract_timesheet_data.
    destruct (Appy1.calculate_pay g _ _) as [[t p] u].
    destruct (Appy1.collect_dates (all_rows doc)); [|discriminate].
    intros [= <-]. reflexivity.
Qed.

Lemma C10_what_results_depend_on_witness :
  Appy1.calculate_pay (Appy1.module_globals NegativeRows.default_sidebar) "Ann Lee" []
  = Appy1.calculate_pay (Appy1.module_globals NegativeRows.default_sidebar) "Bo Ray" [].
Proof.
  apply (proj1 (C10_what_results_depend_on
                  (Appy1.module_globals NegativeRows.default_sidebar)
                  NegativeRows.noon later NameResolution.anonymous_sheet
                  NameResolution.anonymous_sheet "Ann Lee" "Bo Ray" [])).
  reflexivity.
Defined.

End Purity.

(** * Further properties of the pay calculation *)

Module PayProperties.

(** ** The pay in buckets *)

Lemma mult_le_nonneg_l (a b c : Q) : 0 <= a -> b <= c -> a * b <= a * c.
Proof.
  intros Ha Hbc. rewrite (Qmult_comm a b), (Qmult_comm a c).
  apply Qmult_le_compat_r; assumption.
Qed.

Section Appy1Buckets.
Import Appy1 Appy1Pay.

Variable g : globals.

(** The hours of the days whose weekday text passes [P]. *)
Definition hours_on (P : string -> bool) (week : list day_entry) : Q :=
  Py.sum (map hours (List.filter (fun d => P (weekday d)) week)).

Definition on_saturday (w : string) : bool := String.eqb w "Saturday".
Definition on_sunday (w : string) : bool := String.eqb w "Sunday".
Definition on_other_day (w : string) : bool := negb (on_saturday w || on_sunday w).

Lemma hours_on_cons (P : string -> bool) (d : day_entry) (week : list day_entry) :
  hours_on P (d :: week) == (if P (weekday d) then hours d else 0) + hours_on P week.
Proof.
  unfold hours_on. simpl. destruct (P (weekday d)); simpl.
  - apply sum_cons.
  - lra.
Qed.

Lemma weighted_in_buckets (week : list day_entry) :
  weighted_of g week
  == hours_on on_other_day week
     + hours_on on_saturday week * saturday_multiplier g
     + hours_on on_sunday week * sunday_multiplier g.
Proof.
  induction week as [|d week IH].
  - reflexivity.
  - rewrite weighted_of_cons, !hours_on_cons, IH.
    unfold day_multiplier, on_other_day, on_saturday, on_sunday.
    destruct (String.eqb (weekday d) "Saturday") eqn:Esat.
    + apply String.eqb_eq in Esat. rewrite Esat. simpl. lra.
    + destruct (String.eqb (weekday d) "Sunday"); simpl; lra.
Qed.

Lemma total_in_buckets (week : list day_entry) :
  total_of week
  == hours_on on_other_day week + hours_on on_saturday week + hours_on on_sunday week.
Proof.
  induction week as [|d week IH].
  - reflexivity.
  - rewrite total_of_cons, !hours_on_cons, IH.
    unfold on_other_day, on_saturday, on_sunday.
    destruct (String.eqb (weekday d) "Saturday") eqn:Esat.
    + apply String.eqb_eq in Esat. rewrite Esat. simpl. lra.
    + destruct (String.eqb (weekday d) "Sunday"); simpl; lra.
Qed.

Lemma hours_on_nonneg (P : string -> bool) (week : list day_entry) :
  Forall (fun d => 0 <= hours d) week -> 0 <= hours_on P week.
Proof.
  induction 1 as [|d week Hd _ IH].
  - unfold hours_on, Py.sum. simpl. lra.
  - rewrite hours_on_cons. destruct (P (weekday d)); lra.
Qed.

(** [appy1.py]: the loop over the days pays the hours of the Saturdays and
    of the Sundays at their multipliers and all other hours at the plain
    rate; the overtime increment is paid on the hours above the threshold
    only, and not at all when the total does not exceed the threshold. *)
Theorem pay_in_buckets (rate : Q) (week : list day_entry) :
  let total := hours_on on_other_day week + hours_on on_saturday week
               + hours_on on_sunday week in
  let day_pay := rate * (hours_on on_other_day week
                         + hours_on on_saturday week * saturday_multiplier g
                         + hours_on on_sunday week * sunday_multiplier g) in
  let threshold := inject_Z (overtime_threshold g) in
  fst (unrounded_pay g rate week) == total
  /\ (total <= threshold -> snd (unrounded_pay g rate week) == day_pay)
  /\ (threshold < total ->
      snd (unrounded_pay g rate week)
      == day_pay + (total - threshold) * rate * (overtime_multiplier g - 1)).
Proof.
  cbn zeta. destruct (unrounded_pay_closed g rate week) as [Ht Hp].
  pose proof (total_in_buckets week) as T. pose proof (weighted_in_buckets week) as W.
  split; [rewrite Ht; exact T|].
  set (b := hours_on on_other_day week + hours_on on_saturday week
            + hours_on on_sunday week) in *.
  rewrite (excess_pay_comp g rate _ _ T) in Hp. unfold excess_pay in Hp.
  destruct (Qlt_le_dec (inject_Z (overtime_threshold g)) b) as [L|L].
  - split; intros H; [lra|]. rewrite Hp, W. reflexivity.
  - split; intros H; [|lra]. rewrite Hp, W. ring.
Qed.

(** [appy1.py]: for hours that are not negative, a rate that is not
    negative and multipliers of one or more, which is what the sidebar
    allows, the pay is never below the plain pay of the total hours, and
    never negative. *)
Theorem pay_at_least_plain_pay (rate : Q) (week : list day_entry) :
  Forall (fun d => 0 <= hours d) week ->
  0 <= rate ->
  1 <= saturday_multiplier g -> 1 <= sunday_multiplier g ->
  1 <= overtime_multiplier g ->
  rate * fst (unrounded_pay g rate week) <= snd (unrounded_pay g rate week)
  /\ 0 <= snd (unrounded_pay g rate week).
Proof.
  intros Hh Hrate Hsat Hsun Hot.
  destruct (unrounded_pay_closed g rate week) as [Ht Hp].
  pose proof (total_in_buckets week) as T. pose proof (weighted_in_buckets week) as W.
  pose proof (hours_on_nonneg on_other_day week Hh) as Ho.
  pose proof (hours_on_nonneg on_saturday week Hh) as Hs.
  pose proof (hours_on_nonneg on_sunday week Hh) as Hu.
  assert (Hx : 0 <= excess_pay g rate (total_of week)).
  { unfold excess_pay. destruct (Qlt_le_dec _ _) as [L|L]; [|lra].
    apply Qmult_le_0_compat; [apply Qmult_le_0_compat|]; lra. }
  set (o := hours_on on_other_day week) in *.
  set (s := hours_on on_saturday week) in *.
  set (u := hours_on on_sunday week) in *.
  assert (Hs' : s * 1 <= s * saturday_multiplier g) by (apply mult_le_nonneg_l; lra).
  assert (Hu' : u * 1 <= u * sunday_multiplier g) by (apply mult_le_nonneg_l; lra).
  assert (Hw : total_of week <= weighted_of g week) by lra.
  assert (Hrw : rate * total_of week <= rate * weighted_of g week).
  { apply mult_le_nonneg_l; assumption. }
  assert (Hrt : 0 <= rate * total_of week).
  { apply Qmult_le_0_compat; lra. }
  rewrite Ht, Hp. split; lra.
Qed.

End Appy1Buckets.

Definition short_week : list Appy1.day_entry :=
  [{| Appy1.weekday := "Monday"; Appy1.hours := 8 |};
   {| Appy1.weekday := "Saturday"; Appy1.hours := 10 |}].

Lemma pay_in_buckets_witness :
  snd (Appy1.unrounded_pay TwoFormulas.streamlined_settings 15 short_week)
  == 15 * (hours_on on_other_day short_week
           + hours_on on_saturday short_week * 1.5
           + hours_on on_sunday short_week * 1.75).
Proof.
  apply (proj1 (proj2 (pay_in_buckets TwoFormulas.streamlined_settings 15 short_week))).
  vm_compute. discriminate.
Defined.

Lemma pay_at_least_plain_pay_witness :
  15 * fst (Appy1.unrounded_pay TwoFormulas.streamlined_settings 15 short_week)
  <= snd (Appy1.unrounded_pay TwoFormulas.streamlined_settings 15 short_week).
Proof.
  apply (pay_at_least_plain_pay TwoFormulas.streamlined_settings 15 short_week).
  - repeat constructor; vm_compute; discriminate.
  - vm_compute; discriminate.
  - vm_compute; discriminate.
  - vm_compute; discriminate.
  - vm_compute; discriminate.
Defined.

(** The streamlined processor: for hours that are not negative the total
    pay is never below the plain pay of the total hours and never negative,
    also in the weeks in which the regular hours are negative. *)
Theorem total_pay_at_least_plain_pay (name : string) (l : list Streamlined.day_entry) :
  Forall (fun d => 0 <= Streamlined.hours d) l ->
  let v := Streamlined.compute_pay name l in
  Streamlined.rate v * Streamlined.total_hours v <= Streamlined.total_pay v
  /\ 0 <= Streamlined.total_pay v.
Proof.
  intros Hh. cbn zeta.
  pose proof (NegativeHours.total_pay_closed name l) as E. cbn zeta in E.
  pose proof (NegativeHours.rate_positive name l) as Hr.
  pose proof (StreamlinedPay.sum_hours_nonneg
                (fun d => negb (Streamlined.is_weekend d)) l Hh) as Ho.
  pose proof (StreamlinedPay.sum_hours_nonneg Streamlined.is_saturday l Hh) as Hs.
  pose proof (StreamlinedPay.sum_hours_nonneg Streamlined.is_sunday l Hh) as Hu.
  pose proof (StreamlinedPay.total_split l) as T.
  pose proof (StreamlinedPay.weekend_split l) as W.
  assert (Hover : 0 <= Streamlined.over_50 (Streamlined.compute_pay name l))
    by apply max_zero_nonneg.
  assert (Et : Streamlined.total_hours (Streamlined.compute_pay name l)
               = Streamlined.sum_hours (fun _ => true) l) by reflexivity.
  rewrite E, Et.
  unfold StreamlinedPay.other_hours, Streamlined.saturday_hours,
    Streamlined.sunday_hours in *.
  set (r := Streamlined.rate (Streamlined.compute_pay name l)) in *.
  set (o := Streamlined.over_50 (Streamlined.compute_pay name l)) in *.
  set (a := Streamlined.sum_hours (fun d => negb (Streamlined.is_weekend d)) l) in *.
  set (s := Streamlined.sum_hours Streamlined.is_saturday l) in *.
  set (u := Streamlined.sum_hours Streamlined.is_sunday l) in *.
  set (t := Streamlined.sum_hours (fun _ => true) l) in *.
  assert (Hle : t <= a + s * (3 # 2) + u * (7 # 4) + o * (1 # 2)) by lra.
  assert (H1 : r * t <= r * (a + s * (3 # 2) + u * (7 # 4) + o * (1 # 2))).
  { apply mult_le_nonneg_l; lra. }
  assert (H0 : 0 <= r * t) by (apply Qmult_le_0_compat; lra).
  split; lra.
Qed.

Lemma total_pay_at_least_plain_pay_witness :
  0 <= Streamlined.total_pay (Streamlined.compute_pay "" StreamlinedPay.weekend_week).
Proof.
  apply (total_pay_at_least_plain_pay "" StreamlinedPay.weekend_week).
  repeat constructor; vm_compute; discriminate.
Defined.

End PayProperties.

(** * The rate table of the sidebar *)

Module RateTable.
Import Appy1.

Lemma prepop_loop_other (w : sidebar) (name : string) (names : list string)
    (rates : gmap string Q) :
  ~ In name names ->
  fold_left (prepop_step w) names rates !! name = rates !! name.
Proof.
  revert rates. induction names as [|n names IH]; intros rates Hnot; simpl.
  - reflexivity.
  - rewrite IH by (intros H; apply Hnot; right; exact H).
    unfold prepop_step. destruct (Qlt_le_dec 0 (rate_input w n)); [|reflexivity].
    apply lookup_insert_ne. intros ->. apply Hnot. left. reflexivity.
Qed.

Lemma prepop_loop_zero (w : sidebar) (name : string) (names : list string)
    (rates : gmap string Q) :
  rate_input w name <= 0 ->
  fold_left (prepop_step w) names rates !! name = rates !! name.
Proof.
  intros Hz. revert rates. induction names as [|n names IH]; intros rates; simpl.
  - reflexivity.
  - rewrite IH. unfold prepop_step.
    destruct (Qlt_le_dec 0 (rate_input w n)) as [Hpos|]; [|reflexivity].
    apply lookup_insert_ne. intros ->. lra.
Qed.

Lemma prepop_loop_stored (w : sidebar) (name : string) (names : list string)
    (rates : gmap string Q) :
  In name names -> 0 < rate_input w name ->
  fold_left (prepop_step w) names rates !! name = Some (rate_input w name).
Proof.
  intros Hin Hpos. revert rates.
  induction names as [|n names IH]; intros rates; [destruct Hin|]. simpl.
  destruct (in_dec string_dec name names) as [Hlater|Hnot].
  - apply IH, Hlater.
  - destruct Hin as [->|Hin]; [|contradiction].
    rewrite (prepop_loop_other w name names _ Hnot).
    unfold prepop_step. destruct (Qlt_le_dec 0 (rate_input w name)); [|lra].
    apply lookup_insert_eq.
Qed.

(** The rate entered for the new name, under the widget key made of
    "new_" and the name. *)
Definition new_rate (w : sidebar) : Q := rate_input w ("new_" ++ new_name w).

(** The table the sidebar builds holds a rate for a name exactly in these
    cases: the new name, when a rate above zero is entered for it, has that
    rate, also when it is one of the listed names; a listed name that is
    not the new name has the rate entered for it when that is above zero;
    no other name, and no rate of zero, is stored. *)
Theorem custom_rates_of_sidebar (w : sidebar) (name : string) :
  (new_name w <> EmptyString -> 0 < new_rate w ->
     build_custom_rates w !! new_name w = Some (new_rate w))
  /\ (In name prepop_names -> name <> new_name w -> 0 < rate_input w name ->
      build_custom_rates w !! name = Some (rate_input w name))
  /\ (forall r, build_custom_rates w !! name = Some r ->
        0 < r
        /\ ((name = new_name w /\ name <> EmptyString /\ r = new_rate w)
            \/ (In name prepop_names /\ r = rate_input w name))).
Proof.
  unfold build_custom_rates, add_new_name. fold (new_rate w).
  split; [|split].
  - intros Hne Hpos. apply is_empty_false in Hne. rewrite Hne. cbn [negb].
    destruct (Qlt_le_dec 0 (new_rate w)); [|lra]. apply lookup_insert_eq.
  - intros Hin Hneq Hpos.
    assert (E : fold_left (prepop_step w) prepop_names ∅ !! name
                = Some (rate_input w name)) by (apply prepop_loop_stored; assumption).
    destruct (negb (Py.is_empty (new_name w))); [|exact E].
    destruct (Qlt_le_dec 0 (new_rate w)); [|exact E].
    rewrite lookup_insert_ne by congruence. exact E.
  - intros r Hr.
    assert (Hloop : forall r', fold_left (prepop_step w) prepop_names ∅ !! name = Some r' ->
              0 < r' /\ In name prepop_names /\ r' = rate_input w name).
    { intros r' H.
      destruct (in_dec string_dec name prepop_names) as [Hin|Hnot].
      - destruct (Qlt_le_dec 0 (rate_input w name)) as [Hpos|Hz].
        + rewrite (prepop_loop_stored w name _ _ Hin Hpos) in H.
          injection H as <-. repeat split; assumption.
        + rewrite (prepop_loop_zero w name _ _ Hz), lookup_empty in H. discriminate.
      - rewrite (prepop_loop_other w name _ _ Hnot), lookup_empty in H. discriminate. }
    destruct (Py.is_empty (new_name w)) eqn:Hempty; cbn [negb] in Hr.
    + destruct (Hloop r Hr) as (? & ? & ?). split; [assumption|]. right. split; assumption.
    + destruct (Qlt_le_dec 0 (new_rate w)) as [Hpos|_].
      * destruct (decide (new_name w = name)) as [<-|Hneq].
        -- rewrite lookup_insert_eq in Hr. injection Hr as <-.
           split; [assumption|]. left. apply is_empty_false in Hempty.
           repeat split; assumption.
        -- rewrite lookup_insert_ne in Hr by assumption.
           destruct (Hloop r Hr) as (? & ? & ?). split; [assumption|].
           right. split; assumption.
      * destruct (Hloop r Hr) as (? & ? & ?). split; [assumption|].
        right. split; assumption.
Qed.

Definition one_custom_rate : sidebar :=
  {| default_rate_input := 15.0;
     overtime_threshold_input := 50;
     saturday_multiplier_input := 1.5;
     sunday_multiplier_input := 1.75;
     overtime_multiplier_input := 1.25;
     rate_input := fun key => if String.eqb key "Finley Mc" then 18.0 else 0.0;
     new_name := "" |}.

Lemma custom_rates_of_sidebar_witness :
  build_custom_rates one_custom_rate !! "Finley Mc"%string = Some 18.0.
Proof.
  apply (proj1 (proj2 (custom_rates_of_sidebar one_custom_rate "Finley Mc"))).
  - right. left. reflexivity.
  - discriminate.
  - reflexivity.
Defined.

End RateTable.

(** * appy1.py: the folder of timesheets *)

Module Folder.

(** A file of the folder: a Word document that [docx.Document] opens, or a
    file with the given name on which it raises. *)
Inductive file :=
  | Timesheet (doc : document)
  | Unreadable (name : string).

Definition name_of (f : file) : string :=
  match f with
  | Timesheet doc => file_name doc
  | Unreadable name => name
  end.

(** [s.endswith(suffix)]. *)
Fixpoint ends_with (suffix s : string) : bool :=
  String.eqb suffix s ||
  match s with
  | EmptyString => false
  | String _ s' => ends_with suffix s'
  end.

(** [filename.lower().endswith(".docx")]. *)
Definition is_docx (filename : string) : bool := ends_with ".docx" (Py.lower filename).

(** What the loop has built: the rows, and the names of the files reported
    by [st.error]. *)
Record progress := {
  results : list Appy1.result;
  failed : list string
}.

(** [extract_timesheet_data(full_path)] on a file of the folder; [None]
    when it raises. *)
Definition extract_file (g : Appy1.globals) (now : Py.datetime) (f : file)
  : option Appy1.result :=
  match f with
  | Timesheet doc => Appy1.extract_timesheet_data g now doc
  | Unreadable _ => None
  end.

(** The body of the loop of [process_folder]; [now_at] gives the reading
    of the clock while the file of that name is extracted. *)
Definition file_step (g : Appy1.globals) (now_at : string -> Py.datetime)
    (p : progress) (f : file) : progress :=
  let filename := name_of f in
  if is_docx filename then
    match extract_file g (now_at filename) f with
    | Some r => {| results := results p ++ [r]; failed := failed p |}
    | None => {| results := results p; failed := failed p ++ [filename] |}
    end
  else p.

(** [process_folder(folder_path)] on the files in the order [os.listdir]
    gives them. *)
Definition process_folder_progress (g : Appy1.globals) (now_at : string -> Py.datetime)
    (files : list file) : progress :=
  fold_left (file_step g now_at) files {| results := []; failed := [] |}.

Definition process_folder (g : Appy1.globals) (now_at : string -> Py.datetime)
    (files : list file) : list Appy1.result :=
  results (process_folder_progress g now_at files).

End Folder.

Module FolderProperties.
Import Folder.

Section WithSettings.

Variable g : Appy1.globals.
Variable now_at : string -> Py.datetime.

(** What one file adds to the rows and to the failures. *)
Definition rows_of (f : file) : list Appy1.result :=
  if is_docx (name_of f) then
    match extract_file g (now_at (name_of f)) f with
    | Some r => [r]
    | None => []
    end
  else [].

Definition failures_of (f : file) : list string :=
  if is_docx (name_of f) then
    match extract_file g (now_at (name_of f)) f with
    | Some _ => []
    | None => [name_of f]
    end
  else [].

Lemma loop_from (files : list file) (p : progress) :
  results (fold_left (file_step g now_at) files p)
    = results p ++ List.concat (map rows_of files)
  /\ failed (fold_left (file_step g now_at) files p)
    = failed p ++ List.concat (map failures_of files).
Proof.
  revert p. induction files as [|f files IH]; intros p; simpl.
  - rewrite !app_nil_r. split; reflexivity.
  - destruct (IH (file_step g now_at p f)) as [-> ->].
    unfold file_step, rows_of, failures_of.
    destruct (is_docx (name_of f)); [|split; reflexivity].
    destruct (extract_file g (now_at (name_of f)) f); simpl;
      rewrite <- ?app_assoc; split; reflexivity.
Qed.

(** The rows of a folder are the rows of its files, one file after the
    other: what one file holds, and whether it fails, changes nothing in
    the rows of the others. *)
Theorem process_folder_app (files files' : list file) :
  process_folder g now_at (files ++ files')
  = process_folder g now_at files ++ process_folder g now_at files'
  /\ failed (process_folder_progress g now_at (files ++ files'))
     = failed (process_folder_progress g now_at files)
       ++ failed (process_folder_progress g now_at files').
Proof.
  unfold process_folder, process_folder_progress.
  destruct (loop_from (files ++ files') {| results := []; failed := [] |}) as [-> ->].
  destruct (loop_from files {| results := []; failed := [] |}) as [-> ->].
  destruct (loop_from files' {| results := []; failed := [] |}) as [-> ->].
  cbn [results failed app]. rewrite !map_app, !concat_app. split; reflexivity.
Qed.

(** Every file whose name ends in ".docx", in any letter case, gives one
    row or one reported failure, and no other file gives either. *)
Theorem process_folder_accounts_for_docx (files : list file) :
  (List.length (process_folder g now_at files)
   + List.length (failed (process_folder_progress g now_at files)))%nat
  = List.length (List.filter (fun f => is_docx (name_of f)) files).
Proof.
  unfold process_folder, process_folder_progress.
  destruct (loop_from files {| results := []; failed := [] |}) as [-> ->].
  cbn [results failed app].
  induction files as [|f files IH]; simpl; [reflexivity|].
  rewrite !length_app. unfold rows_of at 1, failures_of at 1.
  destruct (is_docx (name_of f)); simpl.
  - destruct (extract_file g (now_at (name_of f)) f); simpl; lia.
  - exact IH.
Qed.

Lemma in_rows_of (f : file) (r : Appy1.result) :
  In r (rows_of f)
  <-> exists doc, f = Timesheet doc /\ is_docx (file_name doc) = true
        /\ Appy1.extract_timesheet_data g (now_at (file_name doc)) doc = Some r.
Proof.
  unfold rows_of. split.
  - destruct (is_docx (name_of f)) eqn:Hd; [|intros []].
    destruct f as [doc|name]; simpl in *; [|intros []].
    destruct (Appy1.extract_timesheet_data g (now_at (file_name doc)) doc) as [r'|] eqn:E;
      [|intros []].
    intros [<-|[]]. exists doc. repeat split; assumption.
  - intros (doc & -> & Hd & E). simpl. rewrite Hd, E. left. reflexivity.
Qed.

Lemma row_comes_from_a_document (files : list file) (r : Appy1.result) :
  In r (process_folder g now_at files) ->
  exists doc,
    In (Timesheet doc) files /\ is_docx (file_name doc) = true
    /\ Appy1.extract_timesheet_data g (now_at (file_name doc)) doc = Some r.
Proof.
  unfold process_folder, process_folder_progress.
  destruct (loop_from files {| results := []; failed := [] |}) as [-> _].
  cbn [results app]. rewrite in_concat.
  intros (rows & Hrows & Hr). apply in_map_iff in Hrows as (f & <- & Hf).
  apply in_rows_of in Hr as (doc & -> & Hd & E). exists doc. repeat split; assumption.
Qed.

(** The rows [process_folder] returns are exactly the rows extracted from
    the Word documents of the folder whose names end in ".docx" and whose
    extraction does not raise. *)
Theorem process_folder_rows (files : list file) (r : Appy1.result) :
  In r (process_folder g now_at files)
  <-> exists doc,
        In (Timesheet doc) files /\ is_docx (file_name doc) = true
        /\ Appy1.extract_timesheet_data g (now_at (file_name doc)) doc = Some r.
Proof.
  split; [apply row_comes_from_a_document|].
  unfold process_folder, process_folder_progress.
  destruct (loop_from files {| results := []; failed := [] |}) as [-> _].
  cbn [results app]. rewrite in_concat.
  intros (doc & Hin & Hd & E). exists (rows_of (Timesheet doc)). split.
  - apply in_map, Hin.
  - apply in_rows_of. exists doc. repeat split; assumption.
Qed.

End WithSettings.

Lemma is_docx_nonempty (filename : string) :
  is_docx filename = true -> filename <> EmptyString.
Proof. intros H ->. discriminate. Qed.

Lemma extracted_file_name (g : Appy1.globals) (now : Py.datetime) (doc : document)
    (r : Appy1.result) :
  Appy1.extract_timesheet_data g now doc = Some r -> Appy1.File_Name r = file_name doc.
Proof.
  unfold Appy1.extract_timesheet_data.
  destruct (Appy1.calculate_pay g _ _) as [[t p] u].
  destruct (Appy1.collect_dates (all_rows doc)); [|discriminate].
  intros [= <-]. reflexivity.
Qed.

(** Every row [process_folder] returns carries a name that is not empty
    and the name of a file that ends in ".docx"; the printed name of the
    row is its name. *)
Theorem process_folder_rows_are_named (g : Appy1.globals)
    (now_at : string -> Py.datetime) (files : list file) (r : Appy1.result) :
  In r (process_folder g now_at files) ->
  Appy1.Name r <> EmptyString
  /\ is_docx (Appy1.File_Name r) = true
  /\ Appy1.Printed_Name r = Appy1.Name r.
Proof.
  intros H. apply row_comes_from_a_document in H as (doc & _ & Hd & E).
  pose proof (extracted_file_name _ _ _ _ E) as Ef.
  split; [|split].
  - pose proof (Appy1Rows.returned_name _ _ _ _ E) as En. rewrite En.
    unfold Appy1.final_name.
    destruct (Py.is_empty (Appy1.name (Appy1.scan doc))) eqn:Ee.
    + apply stem_nonempty, is_docx_nonempty, Hd.
    + apply is_empty_false, Ee.
  - rewrite Ef. exact Hd.
  - revert E. unfold Appy1.extract_timesheet_data.
    destruct (Appy1.calculate_pay g _ _) as [[t p] u].
    destruct (Appy1.collect_dates (all_rows doc)); [|discriminate].
    intros [= <-]. reflexivity.
Qed.

(** A folder with a timesheet and a file that is no Word document. *)
Definition small_folder : list file :=
  [Unreadable "notes.txt"; Timesheet NameResolution.anonymous_sheet;
   Unreadable "broken.DOCX"].

Lemma process_folder_rows_are_named_witness :
  Appy1.Name NameResolution.anonymous_row <> EmptyString
  /\ is_docx (Appy1.File_Name NameResolution.anonymous_row) = true
  /\ Appy1.Printed_Name NameResolution.anonymous_row
     = Appy1.Name NameResolution.anonymous_row.
Proof.
  apply (process_folder_rows_are_named
           (Appy1.module_globals NegativeRows.default_sidebar)
           (fun _ => NegativeRows.noon) small_folder).
  vm_compute. left. reflexivity.
Defined.

Lemma process_folder_rows_witness :
  In NameResolution.anonymous_row
     (process_folder (Appy1.module_globals NegativeRows.default_sidebar)
        (fun _ => NegativeRows.noon) small_folder).
Proof.
  apply (proj2 (process_folder_rows
                  (Appy1.module_globals NegativeRows.default_sidebar)
                  (fun _ => NegativeRows.noon) small_folder
                  NameResolution.anonymous_row)).
  exists NameResolution.anonymous_sheet. split; [|split].
  - right. left. reflexivity.
  - reflexivity.
  - exact NameResolution.anonymous_row_extracted.
Defined.

(** ** The name taken from the file name *)

Lemma to_lower_keeps_point (c : ascii) :
  Py.is_char 46 (Py.to_lower c) = Py.is_char 46 c.
Proof. destruct c as [[] [] [] [] [] [] [] []]; reflexivity. Qed.

(** No character of the text is a point. *)
Definition no_point (s : string) : bool :=
  Py.forall_chars (fun c => negb (Py.is_char 46 c)) s.

Lemma rfind_point_none (s : string) (i : nat) :
  no_point s = true -> Py.rfind_point i s = None.
Proof.
  revert i. induction s as [|c s IH]; intros i H; simpl; [reflexivity|].
  simpl in H. apply andb_prop in H as [Hc Hs].
  rewrite (IH (S i) Hs). apply negb_true_iff in Hc. rewrite Hc. reflexivity.
Qed.

Lemma rfind_point_last (base rest : string) (c : ascii) (i : nat) :
  Py.is_char 46 c = true -> no_point rest = true ->
  Py.rfind_point i (base ++ String c rest) = Some (i + String.length base)%nat.
Proof.
  intros Hc Hrest. revert i. induction base as [|b base IH]; intros i; simpl.
  - rewrite (rfind_point_none rest (S i) Hrest), Hc. f_equal. lia.
  - rewrite (IH (S i)). f_equal. lia.
Qed.

Lemma substring_prefix (base rest : string) :
  String.substring 0 (String.length base) (base ++ rest) = base.
Proof.
  induction base as [|b base IH]; simpl.
  - destruct rest; reflexivity.
  - rewrite IH. reflexivity.
Qed.

Lemma length_append (a b : string) :
  String.length (a ++ b) = (String.length a + String.length b)%nat.
Proof. induction a as [|c a IH]; simpl; [|rewrite IH]; reflexivity. Qed.

(** An extension that reads ".docx" in lower case: a point and four
    characters that are no points. *)
Lemma docx_extension (ext : string) :
  Py.lower ext = ".docx"%string ->
  exists c rest, ext = String c rest /\ Py.is_char 46 c = true
                 /\ no_point rest = true /\ String.length rest = 4%nat.
Proof.
  destruct ext as [|c0 [|c1 [|c2 [|c3 [|c4 [|c5 ext]]]]]]; try discriminate.
  simpl. intros [= H0 H1 H2 H3 H4].
  exists c0, (String c1 (String c2 (String c3 (String c4 EmptyString)))).
  assert (Hp : forall c x, Py.to_lower c = x -> Py.is_char 46 x = false ->
             negb (Py.is_char 46 c) = true).
  { intros c x <- Hx. rewrite to_lower_keeps_point in Hx. rewrite Hx. reflexivity. }
  repeat split.
  - rewrite <- to_lower_keeps_point, H0. reflexivity.
  - unfold no_point. simpl.
    rewrite (Hp c1 _ H1 eq_refl), (Hp c2 _ H2 eq_refl), (Hp c3 _ H3 eq_refl),
      (Hp c4 _ H4 eq_refl). reflexivity.
Qed.

Lemma lower_append (a b : string) : Py.lower (a ++ b) = (Py.lower a ++ Py.lower b)%string.
Proof. induction a as [|c a IH]; simpl; [|rewrite IH]; reflexivity. Qed.

Lemma ends_with_append (suffix a : string) : ends_with suffix (a ++ suffix) = true.
Proof.
  induction a as [|c a IH]; simpl.
  - destruct suffix; simpl; [reflexivity|]. rewrite Ascii.eqb_refl, String.eqb_refl.
    reflexivity.
  - rewrite IH. apply orb_true_r.
Qed.

(** For a file named by a base that is not empty and an extension that
    reads ".docx" in any letter case, [process_folder] takes the file, and
    the stem, which stands in for a name the document does not give, is the
    base: the file name without the extension. *)
Theorem stem_of_docx_name (base ext : string) :
  Py.lower ext = ".docx"%string ->
  base <> EmptyString ->
  is_docx (base ++ ext) = true /\ Py.stem (base ++ ext) = base.
Proof.
  intros Hext Hbase. split.
  - unfold is_docx. rewrite lower_append, Hext. apply ends_with_append.
  - destruct (docx_extension ext Hext) as (c & rest & -> & Hc & Hrest & Hlen).
    unfold Py.stem. rewrite (rfind_point_last base rest c 0 Hc Hrest). simpl.
    rewrite length_append. simpl. rewrite Hlen.
    assert (Hpos : (0 < String.length base)%nat).
    { destruct base; [congruence | simpl; lia]. }
    assert (H1 : (0 <? String.length base)%nat = true) by (apply Nat.ltb_lt; lia).
    assert (H2 : (String.length base <? String.length base + 5 - 1)%nat = true)
      by (apply Nat.ltb_lt; lia).
    rewrite H1, H2. apply substring_prefix.
Qed.

Lemma stem_of_docx_name_witness :
  is_docx ("Jane Doe" ++ ".DOCX") = true /\ Py.stem ("Jane Doe" ++ ".DOCX") = "Jane Doe"%string.
Proof.
  apply (stem_of_docx_name "Jane Doe" ".DOCX"); [reflexivity | discriminate].
Defined.

End FolderProperties.

(** * Further properties of the extraction *)

Module ExtractionProperties.

(** [appy1.py]: the extraction raises exactly when some row of some table
    has no cell, whatever the sidebar and the clock: no other content of
    the document makes it fail. *)
Theorem extraction_raises_on_empty_row_only (g : Appy1.globals) (now : Py.datetime)
    (doc : document) :
  is_Some (Appy1.extract_timesheet_data g now doc)
  <-> Forall (fun cells => cells <> []) (all_rows doc).
Proof.
  rewrite (Appy1Rows.collect_dates_total (all_rows doc)).
  unfold Appy1.extract_timesheet_data.
  destruct (Appy1.calculate_pay g _ _) as [[t p] u].
  destruct (Appy1.collect_dates (all_rows doc)) as [ds|].
  - split; intros _; eexists; reflexivity.
  - split; intros [x H]; discriminate.
Qed.

Lemma extraction_raises_on_empty_row_only_witness :
  is_Some (Appy1.extract_timesheet_data
             (Appy1.module_globals NegativeRows.default_sidebar) NegativeRows.noon
             DateRows.february_sheet).
Proof.
  apply (proj2 (extraction_raises_on_empty_row_only
                  (Appy1.module_globals NegativeRows.default_sidebar) NegativeRows.noon
                  DateRows.february_sheet)).
  repeat constructor; discriminate.
Defined.

Lemma extracted_pay_fields (g : Appy1.globals) (now : Py.datetime) (doc : document)
    (r : Appy1.result) :
  Appy1.extract_timesheet_data g now doc = Some r ->
  let records := List.concat (map Appy1.row_record (all_rows doc)) in
  let rate := Appy1.resolve_rate g (Appy1.name (Appy1.scan doc)) in
  Appy1.Total_Hours r = Py.round2 (fst (Appy1.unrounded_pay g rate records))
  /\ Appy1.Rate r = rate
  /\ Appy1.Calculated_Pay r = Py.round2 (snd (Appy1.unrounded_pay g rate records)).
Proof.
  intros E. cbn zeta. revert E. unfold Appy1.extract_timesheet_data.
  pose proof (TwoFormulas.calculate_pay_returns g (Appy1.name (Appy1.scan doc))
                (Appy1.daily_data (Appy1.scan doc))) as (Eh & Ep & Er).
  destruct (Appy1.calculate_pay g _ _) as [[t p] u].
  unfold TwoFormulas.hours_returned, TwoFormulas.pay_returned,
    TwoFormulas.rate_returned in Eh, Ep, Er. simpl in Eh, Ep, Er.
  destruct (Appy1.collect_dates (all_rows doc)); [|discriminate].
  intros [= <-]. cbn [Appy1.Total_Hours Appy1.Rate Appy1.Calculated_Pay].
  rewrite Appy1Rows.records_scan in Eh, Ep.
  repeat split; assumption.
Qed.

(** [appy1.py]: the total hours of the row are the rounded sum of the hours
    of the records that the rows of all the tables give, the rate is the
    one resolved for the name found in the document, and the pay is the
    rounded pay of those records at that rate. *)
Theorem extraction_totals (g : Appy1.globals) (now : Py.datetime) (doc : document)
    (r : Appy1.result) :
  Appy1.extract_timesheet_data g now doc = Some r ->
  let records := List.concat (map Appy1.row_record (all_rows doc)) in
  let rate := Appy1.resolve_rate g (Appy1.name (Appy1.scan doc)) in
  Appy1.Total_Hours r == Py.round2 (Py.sum (map Appy1.hours records))
  /\ Appy1.Rate r = rate
  /\ Appy1.Calculated_Pay r = Py.round2 (snd (Appy1.unrounded_pay g rate records)).
Proof.
  intros E. cbn zeta.
  destruct (extracted_pay_fields g now doc r E) as (Eh & Er & Ep).
  split; [|split; assumption].
  rewrite Eh. apply round2_comp.
  destruct (Appy1Pay.unrounded_pay_closed g
              (Appy1.resolve_rate g (Appy1.name (Appy1.scan doc)))
              (List.concat (map Appy1.row_record (all_rows doc)))) as [Ht _].
  exact Ht.
Qed.

Lemma extraction_totals_witness :
  Appy1.Total_Hours NameResolution.anonymous_row
  == Py.round2 (Py.sum (map Appy1.hours
       (List.concat (map Appy1.row_record (all_rows NameResolution.anonymous_sheet))))).
Proof.
  apply (extraction_totals _ _ _ _ NameResolution.anonymous_row_extracted).
Defined.

(** ** Client and site address *)

(** A field that a loop sets only while it is empty is decided by the
    first element that gives a value. *)
Lemma first_value_wins {S X : Type} (step : S -> X -> S) (field : S -> string)
    (value : X -> string) :
  (forall st x, field (step st x)
                = if Py.is_empty (field st) then value x else field st) ->
  forall (pre post : list X) (x : X) (st : S),
    field st = EmptyString ->
    Forall (fun y => value y = EmptyString) pre ->
    value x <> EmptyString ->
    field (fold_left step (pre ++ x :: post) st) = value x.
Proof.
  intros Hstep pre post x st Hst Hpre Hx.
  assert (Hkeep : forall l st', field st' <> EmptyString ->
            field (fold_left step l st') = field st').
  { induction l as [|y l IH]; intros st' H; simpl; [reflexivity|].
    assert (E : field (step st' y) = field st').
    { rewrite Hstep. apply is_empty_false in H. rewrite H. reflexivity. }
    rewrite IH; rewrite E; [reflexivity | exact H]. }
  assert (Hnone : field (fold_left step pre st) = EmptyString).
  { revert st Hst. induction Hpre as [|y l Hy _ IH]; intros st Hst; simpl.
    - exact Hst.
    - apply IH. rewrite Hstep, Hst. exact Hy. }
  rewrite fold_left_app. cbn [fold_left].
  assert (E : field (step (fold_left step pre st) x) = value x).
  { rewrite Hstep, Hnone. reflexivity. }
  rewrite Hkeep; rewrite E; [reflexivity | exact Hx].
Qed.

Section Appy1Fields.
Import Appy1.

(** The client and the site address a paragraph gives when none was found
    before it. *)
Definition paragraph_client (para_text : string) : string :=
  let text := Py.strip para_text in
  if Py.contains "Client" text then default EmptyString (labelled "Client" text)
  else EmptyString.

Definition paragraph_site (para_text : string) : string :=
  let text := Py.strip para_text in
  if Py.contains "Site Address" text
  then default EmptyString (labelled "Site Address" text)
  else EmptyString.

Lemma client_paragraph_step (st : scan_state) (p : string) :
  client (paragraph_step st p)
  = if Py.is_empty (client st) then paragraph_client p else client st.
Proof.
  unfold paragraph_step, paragraph_client. cbn [client].
  destruct (Py.is_empty (client st)) eqn:E.
  - apply is_empty_true in E. rewrite E, andb_true_r. reflexivity.
  - rewrite andb_false_r. reflexivity.
Qed.

Lemma site_paragraph_step (st : scan_state) (p : string) :
  site (paragraph_step st p)
  = if Py.is_empty (site st) then paragraph_site p else site st.
Proof.
  unfold paragraph_step, paragraph_site. cbn [site].
  destruct (Py.is_empty (site st)) eqn:E.
  - apply is_empty_true in E. rewrite E, andb_true_r. reflexivity.
  - rewrite andb_false_r. reflexivity.
Qed.

(** The tables leave the client alone, and keep a site address found in
    the paragraphs. *)
Lemma client_kept_by_rows (rows : list (list string)) (st : scan_state) :
  client (fold_left row_step rows st) = client st.
Proof.
  revert st. induction rows as [|cells rows IH]; intros st; simpl; [reflexivity|].
  rewrite IH. unfold row_step. cbn [client].
  clear IH. revert st. induction cells as [|c cells IHc]; intros st; simpl; [reflexivity|].
  rewrite IHc. reflexivity.
Qed.

Lemma site_kept_by_rows (rows : list (list string)) (st : scan_state) :
  site st <> EmptyString -> site (fold_left row_step rows st) = site st.
Proof.
  assert (Hcells : forall cells st', site st' <> EmptyString ->
            site (fold_left cell_step cells st') = site st').
  { induction cells as [|c cells IHc]; intros st' H; simpl; [reflexivity|].
    assert (E : site (cell_step st' c) = site st').
    { unfold cell_step. cbn [site]. apply is_empty_false in H. rewrite H. reflexivity. }
    rewrite IHc; rewrite E; [reflexivity | exact H]. }
  revert st. induction rows as [|cells rows IH]; intros st H; simpl; [reflexivity|].
  assert (E : site (row_step st cells) = site st).
  { unfold row_step. cbn [site]. apply Hcells, H. }
  rewrite IH; rewrite E; [reflexivity | exact H].
Qed.

Lemma extracted_client_site (g : globals) (now : Py.datetime) (doc : document)
    (r : result) :
  extract_timesheet_data g now doc = Some r ->
  Client r = client (scan doc) /\ Site_Address r = site (scan doc).
Proof.
  unfold extract_timesheet_data.
  destruct (calculate_pay g _ _) as [[t p] u].
  destruct (collect_dates (all_rows doc)); [|discriminate].
  intros [= <-]. split; reflexivity.
Qed.

(** [appy1.py]: the client is read from the paragraphs only, and the first
    paragraph that gives one decides it; the tables never change it.  The
    site address is decided by the first paragraph that gives one, whatever
    the tables hold. *)
Theorem appy1_client_and_site (g : globals) (now : Py.datetime) (doc : document)
    (r : result) (pre post : list string) (p : string) :
  extract_timesheet_data g now doc = Some r ->
  paragraphs doc = pre ++ p :: post ->
  Client r = client (fold_left paragraph_step (paragraphs doc) initial_state)
  /\ (Forall (fun q => paragraph_client q = EmptyString) pre ->
      paragraph_client p <> EmptyString -> Client r = paragraph_client p)
  /\ (Forall (fun q => paragraph_site q = EmptyString) pre ->
      paragraph_site p <> EmptyString -> Site_Address r = paragraph_site p).
Proof.
  intros E Hdoc. destruct (extracted_client_site g now doc r E) as [-> ->].
  unfold scan. rewrite client_kept_by_rows. split; [reflexivity|]. rewrite Hdoc. split.
  - intros Hpre Hp.
    apply (first_value_wins paragraph_step client paragraph_client
             client_paragraph_step pre post p initial_state eq_refl Hpre Hp).
  - intros Hpre Hp.
    pose proof (first_value_wins paragraph_step site paragraph_site
                  site_paragraph_step pre post p initial_state eq_refl Hpre Hp) as Es.
    rewrite site_kept_by_rows; rewrite Es; [reflexivity | exact Hp].
Qed.

End Appy1Fields.

(** A sheet with its client and site address in the paragraphs. *)
Definition labelled_sheet : document :=
  {| file_name := "sheet.docx";
     paragraphs := ["Weekly timesheet"; "Client: ACME Ltd"; "Client: Other Ltd";
                    "Site Address - 1 Main St"];
     tables := [] |}.

Lemma appy1_client_and_site_witness :
  exists r,
    Appy1.extract_timesheet_data
      (Appy1.module_globals NegativeRows.default_sidebar) NegativeRows.noon
      labelled_sheet = Some r
    /\ Appy1.Client r = "ACME Ltd"%string.
Proof.
  eexists. split; [vm_compute; reflexivity|].
  refine (proj1 (proj2 (appy1_client_and_site
            (Appy1.module_globals NegativeRows.default_sidebar) NegativeRows.noon
            labelled_sheet _ ["Weekly timesheet"%string]
            ["Client: Other Ltd"%string; "Site Address - 1 Main St"%string]
            "Client: ACME Ltd" eq_refl eq_refl)) _ _).
  - repeat constructor.
  - discriminate.
Defined.

Section StreamlinedFields.
Import Streamlined.

(** The client and the site address a cell gives when none was found
    before it. *)
Definition cell_client (cell_text : string) : string :=
  let txt := Py.strip cell_text in
  if Py.contains "Client" txt then default EmptyString (labelled "Client" txt)
  else EmptyString.

Definition cell_site (cell_text : string) : string :=
  let txt := Py.strip cell_text in
  if Py.contains "Site Address" txt
  then default EmptyString (labelled "Site Address" txt)
  else EmptyString.

(** The value a field takes over a list when only the first value found
    is kept. *)
Definition first_value {X : Type} (value : X -> string) (l : list X) (init : string)
  : string :=
  fold_left (fun acc x => if Py.is_empty acc then value x else acc) l init.

Lemma client_cell_step (st : table_state) (c : string) :
  client (cell_step st c)
  = if Py.is_empty (client st) then cell_client c else client st.
Proof.
  unfold cell_step, cell_client. cbn [client].
  destruct (Py.is_empty (client st)) eqn:E.
  - apply is_empty_true in E. rewrite E, andb_true_r. reflexivity.
  - rewrite andb_false_r. reflexivity.
Qed.

Lemma site_cell_step (st : table_state) (c : string) :
  site (cell_step st c)
  = if Py.is_empty (site st) then cell_site c else site st.
Proof.
  unfold cell_step, cell_site. cbn [site].
  destruct (Py.is_empty (site st)) eqn:E.
  - apply is_empty_true in E. rewrite E, andb_true_r. reflexivity.
  - rewrite andb_false_r. reflexivity.
Qed.

Lemma field_of_cells (field : table_state -> string) (value : string -> string) :
  (forall st c, field (cell_step st c)
                = if Py.is_empty (field st) then value c else field st) ->
  forall cells st,
    field (fold_left cell_step cells st) = first_value value cells (field st).
Proof.
  intros Hstep. induction cells as [|c cells IH]; intros st; simpl; [reflexivity|].
  rewrite IH, Hstep. reflexivity.
Qed.

Lemma field_of_rows (field : table_state -> string) (value : string -> string) :
  (forall st c, field (cell_step st c)
                = if Py.is_empty (field st) then value c else field st) ->
  (forall st cells, field (row_step st cells) = field (fold_left cell_step cells st)) ->
  forall rows st,
    field (fold_left row_step rows st) = first_value value (List.concat rows) (field st).
Proof.
  intros Hstep Hrow. induction rows as [|cells rows IH]; intros st; simpl; [reflexivity|].
  rewrite IH, Hrow, (field_of_cells field value Hstep).
  unfold first_value. rewrite fold_left_app. reflexivity.
Qed.

Lemma row_step_client_site (st : table_state) (cells : list string) :
  client (row_step st cells) = client (fold_left cell_step cells st)
  /\ site (row_step st cells) = site (fold_left cell_step cells st).
Proof.
  unfold row_step. destruct (row_record cells). split; reflexivity.
Qed.

(** The streamlined processor: the client and the site address are read
    from the cells of the tables only, never from the paragraphs, and for
    each of them the first cell that gives a value decides. *)
Theorem streamlined_client_and_site (doc : document) (pre post : list string)
    (c : string) :
  List.concat (all_rows doc) = pre ++ c :: post ->
  (Forall (fun x => cell_client x = EmptyString) pre ->
   cell_client c <> EmptyString ->
   Client (extract_timesheet_data doc) = cell_client c)
  /\ (Forall (fun x => cell_site x = EmptyString) pre ->
      cell_site c <> EmptyString ->
      Site (extract_timesheet_data doc) = cell_site c).
Proof.
  intros Hcells.
  assert (Ec : Client (extract_timesheet_data doc)
               = first_value cell_client (List.concat (all_rows doc)) EmptyString).
  { unfold extract_timesheet_data, scan. cbn [Client].
    apply (field_of_rows client cell_client client_cell_step
             (fun st cells => proj1 (row_step_client_site st cells))). }
  assert (Es : Site (extract_timesheet_data doc)
               = first_value cell_site (List.concat (all_rows doc)) EmptyString).
  { unfold extract_timesheet_data, scan. cbn [Site].
    apply (field_of_rows site cell_site site_cell_step
             (fun st cells => proj2 (row_step_client_site st cells))). }
  rewrite Ec, Es, Hcells. unfold first_value. split; intros Hpre Hc.
  - apply (first_value_wins (fun acc x => if Py.is_empty acc then cell_client x else acc)
             (fun acc => acc) cell_client (fun st x => eq_refl) pre post c EmptyString
             eq_refl Hpre Hc).
  - apply (first_value_wins (fun acc x => if Py.is_empty acc then cell_site x else acc)
             (fun acc => acc) cell_site (fun st x => eq_refl) pre post c EmptyString
             eq_refl Hpre Hc).
Qed.

End StreamlinedFields.

Lemma streamlined_client_and_site_witness :
  Streamlined.Client
    (Streamlined.extract_timesheet_data
       {| file_name := "sheet.docx"; paragraphs := ["Client: Other Ltd"];
          tables := [[ ["Week 12"; "Client: ACME Ltd"]; ["Client - Third Ltd"] ]] |})
  = "ACME Ltd"%string.
Proof.
  refine (proj1 (streamlined_client_and_site
            {| file_name := "sheet.docx"; paragraphs := ["Client: Other Ltd"];
               tables := [[ ["Week 12"; "Client: ACME Ltd"]; ["Client - Third Ltd"] ]] |}
            ["Week 12"%string] ["Client - Third Ltd"%string] "Client: ACME Ltd" eq_refl)
            _ _).
  - repeat constructor.
  - discriminate.
Defined.

End ExtractionProperties.

(** * The date range *)

From Stdlib Require Import Sorted.

Module DateRange.

(** ** The order of dates *)

Lemma lex_ltb_irrefl (a : list Z) : Py.lex_ltb a a = false.
Proof.
  induction a as [|x a IH]; simpl; [reflexivity|].
  rewrite IH, Z.ltb_irrefl, andb_false_r. reflexivity.
Qed.

Lemma lex_ltb_trans (a b c : list Z) :
  Py.lex_ltb a b = true -> Py.lex_ltb b c = true -> Py.lex_ltb a c = true.
Proof.
  revert b c. induction a as [|x a IH]; intros [|y b] [|z c]; simpl; try congruence.
  intros H1 H2.
  apply orb_true_iff in H1 as [H1|H1]; apply orb_true_iff in H2 as [H2|H2];
    apply orb_true_iff.
  - left. apply Z.ltb_lt in H1, H2. apply Z.ltb_lt. lia.
  - apply andb_prop in H2 as [H2 _]. apply Z.eqb_eq in H2. subst. left. exact H1.
  - apply andb_prop in H1 as [H1 _]. apply Z.eqb_eq in H1. subst. left. exact H2.
  - apply andb_prop in H1 as [E1 H1]. apply andb_prop in H2 as [E2 H2].
    apply Z.eqb_eq in E1, E2. subst. right. rewrite Z.eqb_refl. simpl.
    exact (IH b c H1 H2).
Qed.

(** Of two lists of the same length, one is before the other or they are
    equal. *)
Lemma lex_ltb_total (a b : list Z) :
  List.length a = List.length b ->
  Py.lex_ltb a b = false -> Py.lex_ltb b a = false -> a = b.
Proof.
  revert b. induction a as [|x a IH]; intros [|y b]; simpl; try discriminate.
  - reflexivity.
  - intros [= Hlen] H1 H2.
    apply orb_false_elim in H1 as [L1 A1]. apply orb_false_elim in H2 as [L2 A2].
    apply Z.ltb_ge in L1, L2. assert (x = y) by lia. subst y.
    rewrite Z.eqb_refl in A1, A2. simpl in A1, A2.
    f_equal. apply IH; assumption.
Qed.

Definition before (a b : Py.datetime) : Prop := Py.datetime_ltb a b = true.
Definition not_before (a b : Py.datetime) : Prop := Py.datetime_ltb a b = false.

Lemma before_trans (a b c : Py.datetime) : before a b -> before b c -> before a c.
Proof. unfold before, Py.datetime_ltb. apply lex_ltb_trans. Qed.

Lemma not_before_refl (a : Py.datetime) : not_before a a.
Proof. unfold not_before, Py.datetime_ltb. apply lex_ltb_irrefl. Qed.

Lemma same_date (a b : Py.datetime) : not_before a b -> not_before b a -> a = b.
Proof.
  unfold not_before, Py.datetime_ltb. intros H1 H2.
  assert (E : Py.key a = Py.key b) by (apply lex_ltb_total; [reflexivity | assumption..]).
  destruct a, b. unfold Py.key in E. simpl in E. congruence.
Qed.

(** [lo] is a date of the list and no date of the list is before it. *)
Definition earliest (lo : Py.datetime) (l : list Py.datetime) : Prop :=
  In lo l /\ forall u, In u l -> not_before u lo.

(** [hi] is a date of the list and is before no date of the list. *)
Definition latest (hi : Py.datetime) (l : list Py.datetime) : Prop :=
  In hi l /\ forall u, In u l -> not_before hi u.

Lemma earliest_unique (a b : Py.datetime) (l : list Py.datetime) :
  earliest a l -> earliest b l -> a = b.
Proof. intros [Ia Ha] [Ib Hb]. apply same_date; [apply Hb, Ia | apply Ha, Ib]. Qed.

Lemma latest_unique (a b : Py.datetime) (l : list Py.datetime) :
  latest a l -> latest b l -> a = b.
Proof. intros [Ia Ha] [Ib Hb]. apply same_date; [apply Ha, Ib | apply Hb, Ia]. Qed.

Lemma not_before_false (a b : Py.datetime) : not_before a b <-> ~ before a b.
Proof.
  unfold not_before, before. destruct (Py.datetime_ltb a b); split; congruence.
Qed.

(** [min(l)] is the earliest date of the list. *)
Lemma min_datetime_earliest (t : Py.datetime) (ts : list Py.datetime) :
  earliest (Py.min_datetime t ts) (t :: ts).
Proof.
  unfold Py.min_datetime.
  assert (H : forall seen m, earliest m seen ->
            earliest (fold_left (fun m t => if Py.datetime_ltb t m then t else m) ts m)
                     (seen ++ ts)).
  { induction ts as [|x ts IH]; intros seen m Hm; simpl.
    - rewrite app_nil_r. exact Hm.
    - replace (seen ++ x :: ts) with ((seen ++ [x]) ++ ts)
        by (rewrite <- app_assoc; reflexivity).
      apply IH. destruct Hm as [Im Hm].
      destruct (Py.datetime_ltb x m) eqn:E; split.
      + apply in_or_app. right. left. reflexivity.
      + intros u Hu. apply in_app_or in Hu as [Hu|[<-|[]]]; [|apply not_before_refl].
        apply not_before_false. intros Hux.
        specialize (Hm u Hu). apply not_before_false in Hm. apply Hm.
        exact (before_trans u x m Hux E).
      + apply in_or_app. left. exact Im.
      + intros u Hu. apply in_app_or in Hu as [Hu|[<-|[]]]; [apply Hm, Hu | exact E]. }
  apply (H [t] t). split; [left; reflexivity|].
  intros u [<-|[]]. apply not_before_refl.
Qed.

(** [max(l)] is the latest date of the list. *)
Lemma max_datetime_latest (t : Py.datetime) (ts : list Py.datetime) :
  latest (Py.max_datetime t ts) (t :: ts).
Proof.
  unfold Py.max_datetime.
  assert (H : forall seen m, latest m seen ->
            latest (fold_left (fun m t => if Py.datetime_ltb m t then t else m) ts m)
                   (seen ++ ts)).
  { induction ts as [|x ts IH]; intros seen m Hm; simpl.
    - rewrite app_nil_r. exact Hm.
    - replace (seen ++ x :: ts) with ((seen ++ [x]) ++ ts)
        by (rewrite <- app_assoc; reflexivity).
      apply IH. destruct Hm as [Im Hm].
      destruct (Py.datetime_ltb m x) eqn:E; split.
      + apply in_or_app. right. left. reflexivity.
      + intros u Hu. apply in_app_or in Hu as [Hu|[<-|[]]]; [|apply not_before_refl].
        apply not_before_false. intros Hxu.
        specialize (Hm u Hu). apply not_before_false in Hm. apply Hm.
        exact (before_trans m x u E Hxu).
      + apply in_or_app. left. exact Im.
      + intros u Hu. apply in_app_or in Hu as [Hu|[<-|[]]]; [apply Hm, Hu | exact E]. }
  apply (H [t] t). split; [left; reflexivity|].
  intros u [<-|[]]. apply not_before_refl.
Qed.

(** ** The sorted list of [appy1.py] *)

Lemma lex_ltb_cotrans (a b c : list Z) :
  Py.lex_ltb a c = true -> Py.lex_ltb a b = true \/ Py.lex_ltb b c = true.
Proof.
  revert b c. induction a as [|x a IH]; intros [|y b] [|z c]; simpl; try congruence;
    try (intros _; left; reflexivity); try (intros _; right; reflexivity).
  intros H. apply orb_true_iff in H as [H|H].
  - apply Z.ltb_lt in H. destruct (Z.ltb_spec x y) as [L|L]; [left; reflexivity|].
    right. assert (Hyz : (y <? z)%Z = true) by (apply Z.ltb_lt; lia).
    rewrite Hyz. reflexivity.
  - apply andb_prop in H as [E H]. apply Z.eqb_eq in E. subst z.
    destruct (Z.ltb_spec x y) as [L|L]; [left; reflexivity|].
    destruct (Z.ltb_spec y x) as [L'|L']; [right; reflexivity|].
    assert (x = y) by lia. subst y. rewrite Z.eqb_refl. simpl.
    apply IH, H.
Qed.

Lemma not_before_trans (a b c : Py.datetime) :
  not_before b a -> not_before c b -> not_before c a.
Proof.
  unfold not_before, Py.datetime_ltb. intros H1 H2.
  destruct (Py.lex_ltb (Py.key c) (Py.key a)) eqn:E; [|reflexivity].
  destruct (lex_ltb_cotrans _ (Py.key b) _ E) as [H|H]; congruence.
Qed.

Lemma before_asym (a b : Py.datetime) : before a b -> not_before b a.
Proof.
  intros H. apply not_before_false. intros H'.
  pose proof (before_trans a b a H H') as C.
  unfold before in C. rewrite (not_before_refl a) in C. discriminate.
Qed.

(** [a] comes no later than [b]. *)
Definition no_later (a b : Py.datetime) : Prop := not_before b a.

Lemma in_insert_sorted (t u : Py.datetime) (l : list Py.datetime) :
  In u (Py.insert_sorted t l) <-> u = t \/ In u l.
Proof.
  induction l as [|x l IH]; simpl.
  - split; intros [H|H]; auto.
  - destruct (Py.datetime_ltb x t); simpl; [rewrite IH|]; intuition.
Qed.

Lemma in_sorted (u : Py.datetime) (l : list Py.datetime) :
  In u (Py.sorted l) <-> In u l.
Proof.
  unfold Py.sorted. induction l as [|x l IH]; simpl; [reflexivity|].
  rewrite in_insert_sorted, IH. intuition.
Qed.

Lemma insert_sorted_ordered (t : Py.datetime) (l : list Py.datetime) :
  StronglySorted no_later l -> StronglySorted no_later (Py.insert_sorted t l).
Proof.
  induction 1 as [|x l Hl IH Hx]; simpl.
  - repeat constructor.
  - destruct (Py.datetime_ltb x t) eqn:E.
    + constructor; [exact IH|]. apply List.Forall_forall. intros u Hu.
      apply in_insert_sorted in Hu as [->|Hu].
      * apply before_asym. exact E.
      * rewrite List.Forall_forall in Hx. apply Hx, Hu.
    + constructor; [constructor; assumption|]. constructor; [exact E|].
      rewrite List.Forall_forall in Hx |- *. intros u Hu.
      unfold no_later. apply (not_before_trans t x u); [exact E | apply Hx, Hu].
Qed.

Lemma sorted_ordered (l : list Py.datetime) : StronglySorted no_later (Py.sorted l).
Proof.
  unfold Py.sorted. induction l as [|x l IH]; simpl; [constructor|].
  apply insert_sorted_ordered, IH.
Qed.

Lemma last_cons (l : list Py.datetime) (x t : Py.datetime) :
  List.last (x :: l) t = List.last l x.
Proof.
  revert x t. induction l as [|y l IH]; intros x t; [reflexivity|].
  change (List.last (x :: y :: l) t) with (List.last (y :: l) t).
  rewrite IH. symmetry. apply IH.
Qed.

Lemma ordered_last (l : list Py.datetime) (t : Py.datetime) :
  StronglySorted no_later (t :: l) ->
  In (List.last l t) (t :: l) /\ forall u, In u (t :: l) -> no_later u (List.last l t).
Proof.
  revert t. induction l as [|x l IH]; intros t H.
  - simpl. split; [left; reflexivity|]. intros u [<-|[]]. apply not_before_refl.
  - inversion H as [|? ? Hl Hx]; subst.
    destruct (IH x Hl) as [Iin Ilast].
    rewrite last_cons.
    split; [right; exact Iin|].
    intros u [<-|Hu]; [|apply Ilast, Hu].
    rewrite List.Forall_forall in Hx. apply Hx, Iin.
Qed.

(** The first date of the sorted list is the earliest and the last one the
    latest. *)
Lemma sorted_ends (t : Py.datetime) (ts : list Py.datetime) :
  exists lo rest,
    Py.sorted (t :: ts) = lo :: rest
    /\ earliest lo (t :: ts) /\ latest (List.last rest lo) (t :: ts).
Proof.
  pose proof (sorted_ordered (t :: ts)) as Hs.
  destruct (Py.sorted (t :: ts)) as [|lo rest] eqn:E.
  - assert (Hin : In t (Py.sorted (t :: ts))) by (apply in_sorted; left; reflexivity).
    rewrite E in Hin. destruct Hin.
  - exists lo, rest. split; [reflexivity|].
    assert (Hmem : forall u, In u (lo :: rest) <-> In u (t :: ts)).
    { intros u. rewrite <- E. apply in_sorted. }
    destruct (ordered_last rest lo Hs) as [Ilast Hlast].
    inversion Hs as [|? ? _ Hlo]; subst. rewrite List.Forall_forall in Hlo.
    split; split.
    + apply Hmem. left. reflexivity.
    + intros u Hu. apply Hmem in Hu as [<-|Hu]; [apply not_before_refl | apply Hlo, Hu].
    + apply Hmem, Ilast.
    + intros u Hu. apply Hmem in Hu. apply Hlast, Hu.
Qed.

(** For a list of dates that is not empty, both processors report the
    range from the earliest date of the list to the latest, each written as
    day, month and year; [appy1.py] joins them with a dash, the streamlined
    processor with a dash between blanks. *)
Theorem date_range_endpoints (t : Py.datetime) (ts : list Py.datetime) :
  let lo := Py.min_datetime t ts in
  let hi := Py.max_datetime t ts in
  earliest lo (t :: ts) /\ latest hi (t :: ts)
  /\ Streamlined.format_date_range (t :: ts)
     = (Py.strftime_dmy lo ++ " – " ++ Py.strftime_dmy hi)%string
  /\ Appy1.format_date_range (t :: ts)
     = (Py.strftime_dmy lo ++ "–" ++ Py.strftime_dmy hi)%string.
Proof.
  cbn zeta.
  pose proof (min_datetime_earliest t ts) as Hlo.
  pose proof (max_datetime_latest t ts) as Hhi.
  repeat split; try apply Hlo; try apply Hhi.
  unfold Appy1.format_date_range.
  destruct (sorted_ends t ts) as (lo & rest & -> & Hlo' & Hhi').
  rewrite (earliest_unique _ _ _ Hlo' Hlo), (latest_unique _ _ _ Hhi' Hhi) at 1.
  reflexivity.
Qed.

(** ** The dates collected *)

Lemma row_dates_of_full_row (cells : list string) :
  (5 <= List.length cells)%nat ->
  Appy1.row_dates cells = Some (fst (Streamlined.row_record cells)).
Proof.
  intros Hlen. unfold Streamlined.row_record.
  apply Nat.leb_le in Hlen. rewrite Hlen.
  destruct cells as [|c cells]; [discriminate|]. cbn [nth Appy1.row_dates].
  destruct (Py.match_date_pattern (Py.strip c)); [|reflexivity].
  destruct (Py.strptime_dmy (Py.strip c)); [|reflexivity].
  destruct (negb _ && negb _); [destruct (Py.float _)|]; reflexivity.
Qed.

(** On tables whose rows all have five cells or more, the two processors
    collect the same dates, in the same order: the date of every row whose
    first cell is a date of the calendar, whatever its hours cell holds. *)
Theorem same_dates_collected (doc : document) :
  Forall (fun cells => (5 <= List.length cells)%nat) (all_rows doc) ->
  Appy1.collect_dates (all_rows doc)
  = Some (Streamlined.date_list (fst (Streamlined.scan doc))).
Proof.
  intros Hrows. unfold Streamlined.scan. cbn [fst].
  destruct (StreamlinedRows.records_rows (all_rows doc) Streamlined.initial_state)
    as [_ ->].
  cbn [Streamlined.initial_state Streamlined.date_list app].
  induction Hrows as [|cells rows Hc _ IH]; [reflexivity|].
  cbn [Appy1.collect_dates map List.concat].
  rewrite (row_dates_of_full_row cells Hc), IH. reflexivity.
Qed.

Lemma same_dates_collected_witness :
  Appy1.collect_dates (all_rows NameResolution.anonymous_sheet)
  = Some (Streamlined.date_list (fst (Streamlined.scan NameResolution.anonymous_sheet))).
Proof.
  apply (same_dates_collected NameResolution.anonymous_sheet).
  repeat constructor.
Defined.

End DateRange.

(** * Documents without tables *)

Module NoTables.

(** A document without tables gives, in both processors, a row with no
    hours, no pay and no date range; in the streamlined processor, which
    reads the client and the site address from the tables only, those are
    empty too.  [appy1.py] does not raise on it. *)
Theorem document_without_tables (g : Appy1.globals) (now : Py.datetime) (doc : document) :
  tables doc = [] ->
  (0 <= Appy1.overtime_threshold g)%Z ->
  (exists r, Appy1.extract_timesheet_data g now doc = Some r
             /\ Appy1.Total_Hours r == 0 /\ Appy1.Calculated_Pay r == 0
             /\ Appy1.Date_Range r = EmptyString)
  /\ (let r := Streamlined.extract_timesheet_data doc in
      Streamlined.Total_Hours r == 0 /\ Streamlined.Calculated_Pay r == 0
      /\ Streamlined.Over_50_Hours r == 0
      /\ Streamlined.Date_Range r = EmptyString
      /\ Streamlined.Client r = EmptyString /\ Streamlined.Site r = EmptyString).
Proof.
  intros Ht Hthr. split.
  - unfold Appy1.extract_timesheet_data.
    assert (Erows : all_rows doc = []) by (unfold all_rows; rewrite Ht; reflexivity).
    assert (Ed : Appy1.daily_data (Appy1.scan doc) = []).
    { rewrite Appy1Rows.records_scan, Erows. reflexivity. }
    rewrite Ed, Erows. cbn [Appy1.collect_dates].
    unfold Appy1.calculate_pay, Appy1.unrounded_pay. cbn [fold_left].
    destruct (Qlt_le_dec (inject_Z (Appy1.overtime_threshold g)) 0) as [L|L].
    + exfalso. assert (H : 0 <= inject_Z (Appy1.overtime_threshold g)).
      { change 0 with (inject_Z 0). rewrite <- Zle_Qle. exact Hthr. }
      lra.
    + eexists. split; [reflexivity|]. cbn. repeat split; reflexivity.
  - cbn zeta. unfold Streamlined.extract_timesheet_data, Streamlined.scan, all_rows.
    rewrite Ht. cbn. repeat split; reflexivity.
Qed.

Lemma document_without_tables_witness :
  Streamlined.Client (Streamlined.extract_timesheet_data ExtractionProperties.labelled_sheet)
  = EmptyString.
Proof.
  apply (document_without_tables TwoFormulas.streamlined_settings NegativeRows.noon
           ExtractionProperties.labelled_sheet); [reflexivity | discriminate].
Defined.

End NoTables.

(** * appy1.py: the weekly summary *)

Module Summary.

(** The value of a cell as [xlwings] gives it: [None] for an empty cell, a
    text, a number, a truth value or a date. *)
Inductive cell :=
  | Blank
  | Text (s : string)
  | Number (q : Q)
  | Boolean (b : bool)
  | Date (t : Py.datetime).

(** The truth of a value in [if nm]. *)
Definition truthy (c : cell) : bool :=
  match c with
  | Blank => false
  | Text s => negb (Py.is_empty s)
  | Number q => negb (Qeq_bool q 0)
  | Boolean b => b
  | Date _ => true
  end.

(** [isinstance(pay, (int, float))]: the number, a truth value counting as
    one or zero. *)
Definition numeric (c : cell) : option Q :=
  match c with
  | Number q => Some q
  | Boolean b => Some (if b then 1 else 0)
  | _ => None
  end.

Definition same_datetime (a b : Py.datetime) : bool :=
  negb (Py.datetime_ltb a b) && negb (Py.datetime_ltb b a).

(** Equality of two values as keys of a dictionary. *)
Definition key_eqb (a b : cell) : bool :=
  match a, b with
  | Blank, Blank => true
  | Text s, Text s' => String.eqb s s'
  | Date t, Date t' => same_datetime t t'
  | _, _ =>
      match numeric a, numeric b with
      | Some x, Some y => Qeq_bool x y
      | _, _ => false
      end
  end.

(** [headers.index(label)]: the first position of the text, from [i] on;
    [None] is the [ValueError]. *)
Fixpoint index_from (i : nat) (label : string) (headers : list cell) : option nat :=
  match headers with
  | [] => None
  | c :: headers' =>
      if key_eqb c (Text label) then Some i else index_from (S i) label headers'
  end.
Definition index (label : string) (headers : list cell) : option nat :=
  index_from 0 label headers.

(** [summary[nm] = summary.get(nm, 0) + pay] on a dictionary that keeps
    its keys in the order of their first insertion. *)
Fixpoint add_pay (nm : cell) (pay : Q) (summary : list (cell * Q)) : list (cell * Q) :=
  match summary with
  | [] => [(nm, 0 + pay)]
  | (k, v) :: summary' =>
      if key_eqb k nm then (k, v + pay) :: summary'
      else (k, v) :: add_pay nm pay summary'
  end.

(** The body of the loop over the rows, lines 338 to 342; [None] is the
    [IndexError] of a row too short. *)
Definition row_step (name_idx pay_idx : nat) (summary : list (cell * Q))
    (row : list cell) : option (list (cell * Q)) :=
  match nth_error row name_idx, nth_error row pay_idx with
  | Some nm, Some pay =>
      if truthy nm then
        match numeric pay with
        | Some q => Some (add_pay nm q summary)
        | None => Some summary
        end
      else Some summary
  | _, _ => None
  end.

Fixpoint rows_loop (name_idx pay_idx : nat) (summary : list (cell * Q))
    (rows : list (list cell)) : option (list (cell * Q)) :=
  match rows with
  | [] => Some summary
  | row :: rows' =>
      match row_step name_idx pay_idx summary row with
      | Some summary' => rows_loop name_idx pay_idx summary' rows'
      | None => None
      end
  end.

(** Lines 333 to 345 of [get_calculated_pay_summary_with_xlwings] on the
    header row and the rows under it. *)
Definition pay_summary (headers : list cell) (rows : list (list cell))
  : option (list (cell * Q)) :=
  match index "Name" headers with
  | Some name_idx =>
      match index "Calculated Pay (£)" headers with
      | Some pay_idx => rows_loop name_idx pay_idx [] rows
      | None => None
      end
  | None => None
  end.

(** The rows [write_weekly_summary_to_excel] appends to the emptied sheet. *)
Definition weekly_summary_rows (summary : list (cell * Q)) : list (list cell) :=
  [Text "Name"; Text "Total Pay (£)"]
  :: map (fun '(nm, tot) => [nm; Number (Py.round2 tot)]) summary.

End Summary.

Module SummaryProperties.
Import Summary.

(** ** Keys *)

Lemma same_datetime_eq (a b : Py.datetime) : same_datetime a b = true <-> a = b.
Proof.
  unfold same_datetime. split.
  - intros H. apply andb_prop in H as [H1 H2]. apply negb_true_iff in H1, H2.
    apply DateRange.same_date; assumption.
  - intros ->. rewrite (DateRange.not_before_refl b). reflexivity.
Qed.

Lemma Qeq_bool_sym (x y : Q) : Qeq_bool x y = Qeq_bool y x.
Proof.
  destruct (Qeq_bool x y) eqn:E, (Qeq_bool y x) eqn:E'; try reflexivity.
  - apply Qeq_bool_iff in E. symmetry in E. apply Qeq_bool_iff in E. congruence.
  - apply Qeq_bool_iff in E'. symmetry in E'. apply Qeq_bool_iff in E'. congruence.
Qed.

Lemma Qeq_bool_trans (x y z : Q) :
  Qeq_bool x y = true -> Qeq_bool y z = true -> Qeq_bool x z = true.
Proof.
  intros H1 H2. apply Qeq_bool_iff in H1, H2. apply Qeq_bool_iff.
  rewrite H1. exact H2.
Qed.

Lemma key_eqb_sym (a b : cell) : key_eqb a b = key_eqb b a.
Proof.
  destruct a, b; simpl; try reflexivity;
    try apply Qeq_bool_sym; try apply String.eqb_sym.
  unfold same_datetime. apply andb_comm.
Qed.

Lemma key_eqb_trans (a b c : cell) :
  key_eqb a b = true -> key_eqb b c = true -> key_eqb a c = true.
Proof.
  destruct a, b, c; simpl; try discriminate; try (intros; reflexivity);
    try apply Qeq_bool_trans.
  - intros H1 H2. apply String.eqb_eq in H1, H2. apply String.eqb_eq. congruence.
  - intros H1 H2. apply same_datetime_eq in H1, H2. apply same_datetime_eq. congruence.
Qed.

(** Two equal keys are equal to the same keys. *)
Lemma key_eqb_same (a b k : cell) : key_eqb a b = true -> key_eqb a k = key_eqb b k.
Proof.
  intros H. destruct (key_eqb a k) eqn:Ea, (key_eqb b k) eqn:Eb; try reflexivity.
  - rewrite key_eqb_sym in H. rewrite (key_eqb_trans b a k H Ea) in Eb. discriminate.
  - rewrite (key_eqb_trans a b k H Eb) in Ea. discriminate.
Qed.

(** ** The dictionary *)

(** The amount the summary holds for a key. *)
Definition amount_for (k : cell) (summary : list (cell * Q)) : Q :=
  Py.sum (map snd (List.filter (fun e => key_eqb (fst e) k) summary)).

Definition total_of (summary : list (cell * Q)) : Q := Py.sum (map snd summary).

(** No two keys of the summary are equal. *)
Fixpoint distinct_keys (summary : list (cell * Q)) : Prop :=
  match summary with
  | [] => True
  | e :: summary' =>
      Forall (fun e' => key_eqb (fst e) (fst e') = false) summary'
      /\ distinct_keys summary'
  end.

Lemma amount_for_cons (k : cell) (e : cell * Q) (d : list (cell * Q)) :
  amount_for k (e :: d) == (if key_eqb (fst e) k then snd e else 0) + amount_for k d.
Proof.
  unfold amount_for. simpl. destruct (key_eqb (fst e) k); simpl.
  - apply sum_cons.
  - lra.
Qed.

Lemma add_pay_total (nm : cell) (q : Q) (d : list (cell * Q)) :
  total_of (add_pay nm q d) == total_of d + q.
Proof.
  unfold total_of. induction d as [|[k v] d IH]; simpl.
  - rewrite sum_cons. unfold Py.sum. simpl. lra.
  - destruct (key_eqb k nm); simpl; rewrite !sum_cons; [|rewrite IH]; lra.
Qed.

Lemma add_pay_amount (k nm : cell) (q : Q) (d : list (cell * Q)) :
  amount_for k (add_pay nm q d)
  == amount_for k d + (if key_eqb nm k then q else 0).
Proof.
  induction d as [|[k0 v] d IH]; simpl.
  - rewrite amount_for_cons. simpl. unfold amount_for, Py.sum. simpl.
    destruct (key_eqb nm k); lra.
  - destruct (key_eqb k0 nm) eqn:E.
    + rewrite !amount_for_cons. simpl. rewrite (key_eqb_same k0 nm k E).
      destruct (key_eqb nm k); lra.
    + rewrite !amount_for_cons, IH. simpl. lra.
Qed.

Lemma add_pay_keys (nm : cell) (q : Q) (d : list (cell * Q)) (e : cell * Q) :
  In e (add_pay nm q d) -> fst e = nm \/ exists e', In e' d /\ fst e' = fst e.
Proof.
  induction d as [|[k v] d IH]; simpl.
  - intros [<-|[]]. left. reflexivity.
  - destruct (key_eqb k nm).
    + intros [<-|H]; right; [exists (k, v) | exists e]; simpl; auto.
    + intros [<-|H]; [right; exists (k, v); simpl; auto|].
      destruct (IH H) as [->|(e' & Hin & Hk)]; [left; reflexivity|].
      right. exists e'. auto.
Qed.

Lemma add_pay_distinct (nm : cell) (q : Q) (d : list (cell * Q)) :
  distinct_keys d -> distinct_keys (add_pay nm q d).
Proof.
  induction d as [|[k v] d IH]; simpl.
  - intros _. split; [constructor | exact I].
  - intros [Hk Hd]. destruct (key_eqb k nm) eqn:E; simpl.
    + split; assumption.
    + split; [|apply IH, Hd].
      apply List.Forall_forall. intros e He.
      destruct (add_pay_keys nm q d e He) as [->|(e' & Hin & <-)]; [exact E|].
      rewrite List.Forall_forall in Hk. apply (Hk e' Hin).
Qed.

(** ** The loop *)

(** What a row adds to the summary: its name and its pay, when the name is
    true and the pay a number. *)
Definition counted_row (name_idx pay_idx : nat) (row : list cell) : list (cell * Q) :=
  match nth_error row name_idx, nth_error row pay_idx with
  | Some nm, Some pay =>
      if truthy nm then
        match numeric pay with
        | Some q => [(nm, q)]
        | None => []
        end
      else []
  | _, _ => []
  end.

Definition counted (name_idx pay_idx : nat) (rows : list (list cell)) : list (cell * Q) :=
  List.concat (map (counted_row name_idx pay_idx) rows).

Lemma rows_loop_invariant (name_idx pay_idx : nat) (rows : list (list cell))
    (d d' : list (cell * Q)) :
  rows_loop name_idx pay_idx d rows = Some d' ->
  distinct_keys d ->
  distinct_keys d'
  /\ total_of d' == total_of d + total_of (counted name_idx pay_idx rows)
  /\ forall k, amount_for k d'
               == amount_for k d + amount_for k (counted name_idx pay_idx rows).
Proof.
  revert d. induction rows as [|row rows IH]; intros d; simpl.
  - intros [= <-] Hd. split; [exact Hd|].
    unfold counted, total_of, amount_for, Py.sum. simpl. split; [|intros k]; lra.
  - destruct (row_step name_idx pay_idx d row) as [d1|] eqn:Estep; [|discriminate].
    intros Hloop Hd. unfold row_step in Estep. unfold counted. cbn [map List.concat].
    fold (counted name_idx pay_idx rows). unfold counted_row.
    destruct (nth_error row name_idx) as [nm|]; [|discriminate].
    destruct (nth_error row pay_idx) as [pay|]; [|discriminate].
    destruct (truthy nm); [destruct (numeric pay) as [q|]|];
      injection Estep as <-; cbn [app].
    + destruct (IH _ Hloop (add_pay_distinct nm q d Hd)) as (H1 & H2 & H3).
      split; [exact H1|]. split.
      * rewrite H2, add_pay_total. unfold total_of. cbn [map snd]. rewrite sum_cons. lra.
      * intros k. rewrite H3, add_pay_amount, amount_for_cons. simpl. lra.
    + exact (IH _ Hloop Hd).
    + exact (IH _ Hloop Hd).
Qed.

(** The weekly summary holds every name once; the amount of a name is the
    sum of the pay of the rows that carry it, the rows without a name or
    without a number for the pay being left out; and the amounts add up to
    the pay of all the rows counted.  The sheet written from it has a
    header and one row for each name. *)
Theorem pay_summary_groups (headers : list cell) (rows : list (list cell))
    (summary : list (cell * Q)) (name_idx pay_idx : nat) :
  index "Name" headers = Some name_idx ->
  index "Calculated Pay (£)" headers = Some pay_idx ->
  pay_summary headers rows = Some summary ->
  distinct_keys summary
  /\ total_of summary == total_of (counted name_idx pay_idx rows)
  /\ (forall k, amount_for k summary == amount_for k (counted name_idx pay_idx rows))
  /\ List.length (weekly_summary_rows summary) = S (List.length summary).
Proof.
  intros Hn Hp. unfold pay_summary. rewrite Hn, Hp. intros Hloop.
  destruct (rows_loop_invariant name_idx pay_idx rows [] summary Hloop I)
    as (H1 & H2 & H3).
  split; [exact H1|]. split; [|split].
  - assert (E0 : total_of [] == 0) by reflexivity. lra.
  - intros k. assert (E0 : amount_for k [] == 0) by reflexivity.
    specialize (H3 k). lra.
  - unfold weekly_summary_rows. simpl. rewrite length_map. reflexivity.
Qed.

(** A sheet of five rows: two for Ann, one for Bob, one without a name and
    one whose pay is a text. *)
Definition pay_headers : list cell := [Text "Name"; Text "Calculated Pay (£)"].
Definition pay_rows : list (list cell) :=
  [ [Text "Ann"; Number 100]; [Text "Bob"; Number 50]; [Text "Ann"; Number 25];
    [Blank; Number 10]; [Text "Cy"; Text "n/a"] ].

Lemma pay_summary_groups_witness :
  total_of [(Text "Ann", 125); (Text "Bob", 50)] == total_of (counted 0 1 pay_rows)
  /\ amount_for (Text "Ann") [(Text "Ann", 125); (Text "Bob", 50)]
     == amount_for (Text "Ann") (counted 0 1 pay_rows).
Proof.
  destruct (pay_summary_groups pay_headers pay_rows [(Text "Ann", 125); (Text "Bob", 50)]
              0 1) as (_ & Ht & Ha & _).
  - reflexivity.
  - reflexivity.
  - vm_compute. reflexivity.
  - split; [exact Ht | apply Ha].
Defined.

End SummaryProperties.

(** * appy1.py: the pay formula of the sheet *)

Module Formula.
Import Summary.

(** The letters of a column of [openpyxl]: A to Z, then AA, AB and so on,
    built from the last letter to the first. *)
Fixpoint letters_from (fuel : nat) (col_idx : N) (acc : string) : string :=
  match fuel with
  | O => acc
  | S fuel' =>
      if (col_idx =? 0)%N then acc
      else if (col_idx mod 26 =? 0)%N
           then letters_from fuel' (col_idx / 26 - 1)%N (String (ascii_of_N 90) acc)
           else letters_from fuel' (col_idx / 26)%N
                  (String (ascii_of_N (col_idx mod 26 + 64)) acc)
  end.

(** [get_column_letter(col_idx)]: the columns 1 to 18278 have one to three
    letters; [None] is the [ValueError] for any other index. *)
Definition get_column_letter (col_idx : nat) : option string :=
  if ((1 <=? N.of_nat col_idx) && (N.of_nat col_idx <=? 18278))%N
  then Some (letters_from 3 (N.of_nat col_idx) EmptyString)
  else None.

(** [str(r)] of a row number. *)
Definition str (r : nat) : string := NilEmpty.string_of_uint (Nat.to_uint r).

(** The worksheet: its rows from the first to [max_row], each a list of
    cell values from column 1 on. *)
Definition worksheet : Type := list (list cell).

(** [headers.get(label)] for the dictionary of line 282, which maps the
    value of each cell of the first row to its column, the last column
    with a value winning. *)
Fixpoint header_col_from (i : nat) (label : string) (row : list cell) : option nat :=
  match row with
  | [] => None
  | c :: row' =>
      match header_col_from (S i) label row' with
      | Some j => Some j
      | None => if key_eqb c (Text label) then Some i else None
      end
  end.
Definition header_col (label : string) (row : list cell) : option nat :=
  header_col_from 1 label row.

(** [ws.cell(row=r, column=column).value = v] on the cells of row [r]; a
    row that ends before the column is filled with empty cells up to it. *)
Fixpoint set_cell (column : nat) (v : cell) (row : list cell) : list cell :=
  match column, row with
  | O, _ => row
  | S O, _ => v :: tl row
  | S column', [] => Blank :: set_cell column' v []
  | S column', x :: row' => x :: set_cell column' v row'
  end.

(** The text of the formula of row [r], line 290 to 292. *)
Definition formula_text (total_letter rate_letter : string) (r : nat) : string :=
  ("=" ++ total_letter ++ str r ++ "*" ++ rate_letter ++ str r)%string.

(** The loop of lines 289 to 293 over the rows from [r] on; [None] when
    [get_column_letter] raises. *)
Fixpoint fill (total_col rate_col pay_col : nat) (r : nat) (rows : list (list cell))
  : option (list (list cell)) :=
  match rows with
  | [] => Some []
  | row :: rows' =>
      match get_column_letter total_col, get_column_letter rate_col with
      | Some total_letter, Some rate_letter =>
          match fill total_col rate_col pay_col (S r) rows' with
          | Some rest =>
              Some (set_cell pay_col (Text (formula_text total_letter rate_letter r)) row
                    :: rest)
          | None => None
          end
      | _, _ => None
      end
  end.

(** How [apply_excel_formula_to_pay_column] ends: it reports the missing
    columns and leaves the file as it is, or saves the sheet, or raises. *)
Inductive outcome :=
  | Reported
  | Saved (ws : worksheet)
  | Raised.

Definition apply_excel_formula_to_pay_column (ws : worksheet) : outcome :=
  match ws with
  | [] => Reported
  | first_row :: rows =>
      match header_col "Total Hours" first_row, header_col "Rate (£)" first_row,
            header_col "Calculated Pay (£)" first_row with
      | Some total_col, Some rate_col, Some pay_col =>
          match fill total_col rate_col pay_col 2 rows with
          | Some rows' => Saved (first_row :: rows')
          | None => Raised
          end
      | _, _, _ => Reported
      end
  end.

End Formula.

Module FormulaProperties.
Import Summary Formula.

Lemma set_cell_written (c : nat) (v : cell) (row : list cell) :
  nth_error (set_cell (S c) v row) c = Some v.
Proof.
  revert row. induction c as [|c IH]; intros row; [reflexivity|].
  destruct row as [|x row]; cbn [set_cell]; apply IH.
Qed.

Lemma set_cell_frame (c i : nat) (v : cell) (row : list cell) :
  i <> c -> (i < List.length row)%nat ->
  nth_error (set_cell (S c) v row) i = nth_error row i.
Proof.
  revert i row. induction c as [|c IH]; intros i row Hne Hlt.
  - destruct i as [|i]; [congruence|]. destruct row as [|x row]; [simpl in Hlt; lia|].
    reflexivity.
  - destruct row as [|x row]; [simpl in Hlt; lia|]. cbn [set_cell].
    destruct i as [|i]; [reflexivity|]. simpl in Hlt |- *.
    apply IH; [congruence | lia].
Qed.

Lemma header_col_from_found (i c : nat) (label : string) (row : list cell) :
  header_col_from i label row = Some c ->
  (i <= c)%nat /\ nth_error row (c - i) = Some (Text label).
Proof.
  revert i. induction row as [|x row IH]; intros i; simpl; [discriminate|].
  destruct (header_col_from (S i) label row) as [j|] eqn:E.
  - intros [= <-]. destruct (IH (S i) E) as [Hle Hnth]. split; [lia|].
    replace (j - i)%nat with (S (j - S i)) by lia. exact Hnth.
  - destruct (key_eqb x (Text label)) eqn:K; [|discriminate].
    intros [= <-]. split; [lia|]. rewrite Nat.sub_diag. simpl.
    destruct x; simpl in K; try discriminate.
    apply String.eqb_eq in K. subst. reflexivity.
Qed.

Lemma fill_rows (total_col rate_col pay_col : nat) (rows rows' : list (list cell))
    (r : nat) :
  fill total_col rate_col pay_col r rows = Some rows' ->
  List.length rows' = List.length rows
  /\ forall j row, nth_error rows j = Some row ->
       exists total_letter rate_letter,
         get_column_letter total_col = Some total_letter
         /\ get_column_letter rate_col = Some rate_letter
         /\ nth_error rows' j
            = Some (set_cell pay_col
                      (Text (formula_text total_letter rate_letter (r + j))) row).
Proof.
  revert r rows'. induction rows as [|row0 rows IH]; intros r rows'; simpl.
  - intros [= <-]. split; [reflexivity|]. intros [|j] row; discriminate.
  - destruct (get_column_letter total_col) as [tl|] eqn:Et; [|discriminate].
    destruct (get_column_letter rate_col) as [rl|] eqn:Er; [|discriminate].
    destruct (fill total_col rate_col pay_col (S r) rows) as [rest|] eqn:Ef;
      [|discriminate].
    intros [= <-]. destruct (IH (S r) rest Ef) as [Hlen Hrows].
    split; [simpl; rewrite Hlen; reflexivity|].
    intros [|j] row Hj.
    + injection Hj as <-. exists tl, rl. rewrite Nat.add_0_r. repeat split.
    + destruct (Hrows j row Hj) as (tl' & rl' & E1 & E2 & E3).
      exists tl', rl'. rewrite E1, E2. repeat split.
      simpl. rewrite E3. replace (r + S j)%nat with (S r + j)%nat by lia. reflexivity.
Qed.

(** When the first row names the three columns, the sheet saved keeps its
    first row and the number of its rows, and in every row under it the
    cell of the pay column holds the text of the formula that multiplies
    the total hours of the row by its rate, while the other cells of the
    row keep their values: the pay written before is replaced. *)
Theorem pay_column_overwritten (first_row : list cell) (rows : list (list cell))
    (ws' : worksheet) (total_col rate_col pay_col : nat) :
  header_col "Total Hours" first_row = Some total_col ->
  header_col "Rate (£)" first_row = Some rate_col ->
  header_col "Calculated Pay (£)" first_row = Some pay_col ->
  apply_excel_formula_to_pay_column (first_row :: rows) = Saved ws' ->
  nth_error first_row (pay_col - 1) = Some (Text "Calculated Pay (£)")
  /\ exists rows',
       ws' = first_row :: rows'
       /\ List.length rows' = List.length rows
       /\ forall j row, nth_error rows j = Some row ->
            exists row' total_letter rate_letter,
              nth_error rows' j = Some row'
              /\ get_column_letter total_col = Some total_letter
              /\ get_column_letter rate_col = Some rate_letter
              /\ nth_error row' (pay_col - 1)
                 = Some (Text (formula_text total_letter rate_letter (j + 2)))
              /\ forall i, i <> (pay_col - 1)%nat -> (i < List.length row)%nat ->
                   nth_error row' i = nth_error row i.
Proof.
  intros Ht Hr Hp. unfold apply_excel_formula_to_pay_column. rewrite Ht, Hr, Hp.
  destruct (header_col_from_found 1 pay_col _ _ Hp) as [Hpos Hcell].
  destruct (fill total_col rate_col pay_col 2 rows) as [rows'|] eqn:Ef; [|discriminate].
  intros [= <-]. split; [exact Hcell|].
  destruct (fill_rows _ _ _ _ _ _ Ef) as [Hlen Hrows].
  exists rows'. split; [reflexivity|]. split; [exact Hlen|].
  intros j row Hj. destruct (Hrows j row Hj) as (tl & rl & E1 & E2 & E3).
  exists (set_cell pay_col (Text (formula_text tl rl (2 + j))) row), tl, rl.
  replace (j + 2)%nat with (2 + j)%nat by lia.
  destruct pay_col as [|c]; [lia|]. replace (S c - 1)%nat with c by lia.
  repeat split; try assumption.
  - apply set_cell_written.
  - intros i Hi Hlt. apply set_cell_frame; assumption.
Qed.

(** A sheet with the columns of the report and two rows. *)
Definition report_sheet : worksheet :=
  [ [Text "Name"; Text "Total Hours"; Text "Rate (£)"; Text "Calculated Pay (£)"];
    [Text "Ann"; Number 60; Number 15; Number 1537.5];
    [Text "Bob"; Number 8; Number 15; Number 120] ].

Definition report_sheet_saved : worksheet :=
  [ [Text "Name"; Text "Total Hours"; Text "Rate (£)"; Text "Calculated Pay (£)"];
    [Text "Ann"; Number 60; Number 15; Text "=B2*C2"];
    [Text "Bob"; Number 8; Number 15; Text "=B3*C3"] ].

Lemma pay_column_overwritten_witness :
  exists rows',
    report_sheet_saved = hd [] report_sheet :: rows'
    /\ List.length rows' = 2%nat.
Proof.
  destruct (pay_column_overwritten (hd [] report_sheet) (tl report_sheet)
              report_sheet_saved 2 3 4) as (_ & rows' & E & Hlen & _).
  - reflexivity.
  - reflexivity.
  - reflexivity.
  - reflexivity.
  - exists rows'. split; [exact E | exact Hlen].
Defined.

End FormulaProperties.

(** * Further properties of the name *)

Module NameProperties.

Section StreamlinedPrinted.
Import Streamlined.

(** The printed name a paragraph gives. *)
Definition paragraph_printed (para_text : string) : option string :=
  if Py.contains "Print Name" para_text
  then option_map Py.strip
         (Py.search "Print Name" [(Py.Opt, Py.colon_dash); (Py.Star, Py.is_space)] para_text)
  else None.

Lemma paragraph_step_printed (printed para_text : string) :
  paragraph_step printed para_text = default printed (paragraph_printed para_text).
Proof.
  unfold paragraph_step, paragraph_printed.
  destruct (Py.contains "Print Name" para_text); [|reflexivity].
  destruct (Py.search _ _ para_text); reflexivity.
Qed.

Lemma printed_unchanged (ps : list string) (printed : string) :
  Forall (fun q => paragraph_printed q = None) ps ->
  fold_left paragraph_step ps printed = printed.
Proof.
  intros H. revert printed. induction H as [|q ps Hq _ IH]; intros printed; simpl.
  - reflexivity.
  - rewrite IH, paragraph_step_printed, Hq. reflexivity.
Qed.

(** The streamlined processor keeps the printed name of the last paragraph
    that gives one, and returns it as the name when no cell of the tables
    passes the name rule. *)
Theorem last_printed_name_wins (doc : document) (pre post : list string)
    (p v : string) :
  paragraphs doc = pre ++ p :: post ->
  paragraph_printed p = Some v ->
  Forall (fun q => paragraph_printed q = None) post ->
  StreamlinedRows.printed_name_of doc = v
  /\ (find StreamlinedRows.is_name_cell (List.concat (all_rows doc)) = None ->
      Name (extract_timesheet_data doc) = v).
Proof.
  intros Hdoc Hp Hpost.
  assert (E : StreamlinedRows.printed_name_of doc = v).
  { unfold StreamlinedRows.printed_name_of. rewrite Hdoc, fold_left_app. cbn [fold_left].
    rewrite (printed_unchanged post _ Hpost), paragraph_step_printed, Hp. reflexivity. }
  split; [exact E|]. intros Hnone.
  rewrite StreamlinedRows.extracted_name, Hnone. exact E.
Qed.

End StreamlinedPrinted.

Lemma last_printed_name_wins_witness :
  Streamlined.Name
    (Streamlined.extract_timesheet_data
       {| file_name := "sheet.docx";
          paragraphs := ["Print Name: Ann Lee"; "Print Name: Bo Ray"; "Signed"];
          tables := [] |})
  = "Bo Ray"%string.
Proof.
  refine (proj2 (last_printed_name_wins
            {| file_name := "sheet.docx";
               paragraphs := ["Print Name: Ann Lee"; "Print Name: Bo Ray"; "Signed"];
               tables := [] |}
            ["Print Name: Ann Lee"%string] ["Signed"%string] "Print Name: Bo Ray" "Bo Ray"
            eq_refl eq_refl _) eq_refl).
  repeat constructor.
Defined.

Section Appy1Cells.
Import Appy1 Appy1Rows.

(** The name a cell gives when none was found before it: that of the last
    of its lines that is a name line. *)
Definition cell_name (cell_text : string) : string :=
  name_of_lines EmptyString (Py.splitlines (Py.strip cell_text)).

Lemma name_after_cell (st : scan_state) (c : string) :
  name (cell_step st c) = if Py.is_empty (name st) then cell_name c else name st.
Proof.
  unfold cell_step, cell_name. cbn [name].
  destruct (Py.is_empty (name st)) eqn:E; [|reflexivity].
  apply is_empty_true in E. rewrite E. reflexivity.
Qed.

Lemma name_of_cells (cells : list string) (st : scan_state) :
  name (fold_left cell_step cells st)
  = ExtractionProperties.first_value cell_name cells (name st).
Proof.
  revert st. induction cells as [|c cells IH]; intros st; simpl; [reflexivity|].
  rewrite IH, name_after_cell. reflexivity.
Qed.

Lemma name_of_rows (rows : list (list string)) (st : scan_state) :
  name (fold_left row_step rows st)
  = ExtractionProperties.first_value cell_name (List.concat rows) (name st).
Proof.
  revert st. induction rows as [|cells rows IH]; intros st; simpl; [reflexivity|].
  rewrite IH. unfold row_step. cbn [name]. rewrite name_of_cells.
  unfold ExtractionProperties.first_value. rewrite fold_left_app. reflexivity.
Qed.

Lemma name_of_lines_last (n : string) (before after : list string) (line : string) :
  is_name_line line = true ->
  existsb is_name_line after = false ->
  name_of_lines n (before ++ line :: after) = Py.title line.
Proof.
  intros Hline Hafter. unfold name_of_lines. rewrite fold_left_app. cbn [fold_left].
  rewrite Hline. generalize (Py.title line). intros t.
  induction after as [|l after IH]; simpl; [reflexivity|].
  simpl in Hafter. apply orb_false_elim in Hafter as [Hl Hafter].
  rewrite Hl. apply IH, Hafter.
Qed.

(** [appy1.py]: when no paragraph gives a name, the first cell of the
    tables with a name line decides the name, and of the name lines of
    that cell the last one is taken. *)
Theorem name_from_the_tables (g : globals) (now : Py.datetime) (doc : document)
    (r : result) (pre post before after : list string) (c line : string) :
  extract_timesheet_data g now doc = Some r ->
  Forall (fun q => paragraph_name q = EmptyString) (paragraphs doc) ->
  List.concat (all_rows doc) = pre ++ c :: post ->
  Forall (fun x => cell_name x = EmptyString) pre ->
  Py.splitlines (Py.strip c) = before ++ line :: after ->
  is_name_line line = true ->
  existsb is_name_line after = false ->
  Name r = Py.title line.
Proof.
  intros E Hpars Hcells Hpre Hlines Hline Hafter.
  rewrite (returned_name g now doc r E).
  assert (Ec : cell_name c = Py.title line).
  { unfold cell_name. rewrite Hlines. apply name_of_lines_last; assumption. }
  assert (Hne : Py.title line <> EmptyString).
  { apply is_empty_false, is_name_line_title, Hline. }
  assert (En : name (scan doc) = Py.title line).
  { unfold scan. rewrite name_of_rows, Hcells.
    rewrite (no_name_from_paragraphs (paragraphs doc) initial_state eq_refl Hpars).
    rewrite <- Ec. unfold ExtractionProperties.first_value.
    apply (ExtractionProperties.first_value_wins
             (fun acc x => if Py.is_empty acc then cell_name x else acc)
             (fun acc => acc) cell_name (fun st x => eq_refl) pre post c EmptyString
             eq_refl Hpre).
    rewrite Ec. exact Hne. }
  rewrite En. apply NameResolution.final_name_kept, Hne.
Qed.

End Appy1Cells.

(** A sheet whose name stands in a cell of two lines. *)
Definition cell_named_sheet : document :=
  {| file_name := "sheet.docx";
     paragraphs := ["Weekly timesheet"];
     tables := [[ ["Week 12"; "ANN LEE
BO RAY"]; ["CY DOE"] ]] |}.

Lemma name_from_the_tables_witness :
  exists r,
    Appy1.extract_timesheet_data
      (Appy1.module_globals NegativeRows.default_sidebar) NegativeRows.noon
      cell_named_sheet = Some r
    /\ Appy1.Name r = "Bo Ray"%string.
Proof.
  eexists. split; [vm_compute; reflexivity|].
  refine (name_from_the_tables
            (Appy1.module_globals NegativeRows.default_sidebar) NegativeRows.noon
            cell_named_sheet _ ["Week 12"%string] ["CY DOE"%string]
            ["ANN LEE"%string] [] "ANN LEE
BO RAY" "BO RAY" eq_refl _ eq_refl _ eq_refl eq_refl eq_refl);
    repeat constructor.
Defined.

End NameProperties.

(** * The two processors on the same tables *)

Module SameShifts.
Import ShiftRows.

(** A row that both processors read alike: it has fewer than five cells,
    or its first cell is a date of the calendar and its weekday cell is
    not empty. *)
Definition plain_row (cells : list string) : Prop :=
  (List.length cells < 5)%nat
  \/ (Py.match_date_pattern (date_text cells) = true
      /\ is_Some (Py.strptime_dmy (date_text cells))
      /\ day_text cells <> EmptyString).

Lemma short_row (cells : list string) :
  (List.length cells < 5)%nat ->
  Appy1.row_record cells = [] /\ Streamlined.row_record cells = ([], []).
Proof.
  intros H. unfold Appy1.row_record, Streamlined.row_record.
  assert (E : (5 <=? List.length cells)%nat = false) by (apply Nat.leb_gt; lia).
  rewrite E. split; reflexivity.
Qed.

Lemma same_record (cells : list string) :
  plain_row cells ->
  map TwoFormulas.as_appy1 (snd (Streamlined.row_record cells)) = Appy1.row_record cells.
Proof.
  intros [Hshort|(Hpat & [t Hdate] & Hday)].
  - destruct (short_row cells Hshort) as [-> ->]. reflexivity.
  - destruct (Nat.lt_ge_cases (List.length cells) 5) as [Hshort|Hlen].
    + destruct (short_row cells Hshort) as [-> ->]. reflexivity.
    + destruct (Py.float (hours_text cells)) as [h|] eqn:Hf.
      * rewrite (streamlined_row_accepts cells t h Hlen Hpat Hdate Hf),
          (appy1_row_accepts cells h Hlen Hday Hf). reflexivity.
      * rewrite (streamlined_row_skipped cells), (appy1_row_skipped cells);
          [reflexivity | right; right; exact Hf | right; right; exact Hf].
Qed.

Lemma same_records (rows : list (list string)) :
  Forall plain_row rows ->
  map TwoFormulas.as_appy1
      (List.concat (map (fun cells => snd (Streamlined.row_record cells)) rows))
  = List.concat (map Appy1.row_record rows).
Proof.
  induction 1 as [|cells rows Hc _ IH]; [reflexivity|].
  cbn [map List.concat]. rewrite map_app, IH, (same_record cells Hc). reflexivity.
Qed.

(** On a document whose table rows all have fewer than five cells or a
    date of the calendar and a weekday, the two processors extract the same
    shifts, in the same order, and report the same total hours. *)
Theorem same_shifts_extracted (g : Appy1.globals) (now : Py.datetime) (doc : document)
    (r : Appy1.result) :
  Forall plain_row (all_rows doc) ->
  Appy1.extract_timesheet_data g now doc = Some r ->
  map TwoFormulas.as_appy1 (Streamlined.daily_data (fst (Streamlined.scan doc)))
    = Appy1.daily_data (Appy1.scan doc)
  /\ Appy1.Total_Hours r
     == Streamlined.Total_Hours (Streamlined.extract_timesheet_data doc).
Proof.
  intros Hrows E.
  assert (Es : map TwoFormulas.as_appy1 (Streamlined.daily_data (fst (Streamlined.scan doc)))
               = Appy1.daily_data (Appy1.scan doc)).
  { rewrite Appy1Rows.records_scan. unfold Streamlined.scan. cbn [fst].
    destruct (StreamlinedRows.records_rows (all_rows doc) Streamlined.initial_state)
      as [-> _].
    cbn [Streamlined.initial_state Streamlined.daily_data app].
    apply same_records, Hrows. }
  split; [exact Es|].
  destruct (ExtractionProperties.extracted_pay_fields g now doc r E) as [Et _].
  destruct (Appy1Pay.unrounded_pay_closed g
              (Appy1.resolve_rate g (Appy1.name (Appy1.scan doc)))
              (List.concat (map Appy1.row_record (all_rows doc)))) as [Hsum _].
  rewrite Et, (round2_comp _ _ Hsum). unfold Appy1Pay.total_of.
  unfold Streamlined.extract_timesheet_data.
  destruct (Streamlined.scan doc) as [st printed] eqn:Escan.
  cbn [Streamlined.Total_Hours]. apply round2_comp.
  unfold Streamlined.compute_pay. cbn [Streamlined.total_hours].
  rewrite <- Appy1Rows.records_scan, <- Es. cbn [fst].
  fold (Appy1Pay.total_of (map TwoFormulas.as_appy1 (Streamlined.daily_data st))).
  apply TwoFormulas.total_of_as_appy1.
Qed.

Lemma same_shifts_extracted_witness :
  Appy1.Total_Hours NameResolution.anonymous_row
  == Streamlined.Total_Hours
       (Streamlined.extract_timesheet_data NameResolution.anonymous_sheet).
Proof.
  apply (same_shifts_extracted
           (Appy1.module_globals NegativeRows.default_sidebar) NegativeRows.noon
           NameResolution.anonymous_sheet NameResolution.anonymous_row).
  - constructor; [|constructor]. right. repeat split.
    + eexists. reflexivity.
    + discriminate.
  - exact NameResolution.anonymous_row_extracted.
Defined.

End SameShifts.
